(** * GeoJSON creation tool: aggregation and boundary-join pipeline

    A shallow embedding of the three pipeline scripts

      - [scripts/column_detector.py]      (module [ColumnDetector])
      - [scripts/create_geojson_levels.py] (module [Levels])
      - [scripts/create_zip_geojson.py]    (module [ZipScript])

    together with the few Python [str] methods and pandas operations they
    call (modules [Py] and [Pandas]).

    Conventions of the model.
    - A Python [str] is a Rocq [string]; the character-class methods
      ([isdigit], [lower], [upper], [strip]) are modelled on the ASCII range,
      bytes above 127 are left alone and are in no class.
    - A table cell is absent ([NaN], [PyNone]), an integer or a string;
      floating-point cells are outside the model, a float that was rendered
      to text appears as the string it was rendered to (["25013.0"]).
    - An uncaught Python exception is the left injection of a sum type. *)

From stdpp Require Import gmap strings list sorting pretty.
From Stdlib Require Import Ascii String ZArith Lia.

Local Open Scope string_scope.
Local Open Scope Z_scope.
Local Open Scope list_scope.

(* ===================================================================== *)
(** ** Python string methods *)
(* ===================================================================== *)

Module Py.

Definition code (c : ascii) : nat := nat_of_ascii c.

Definition is_digit (c : ascii) : bool :=
  (48 <=? code c)%nat && (code c <=? 57)%nat.
Definition is_upper (c : ascii) : bool :=
  (65 <=? code c)%nat && (code c <=? 90)%nat.
Definition is_lower (c : ascii) : bool :=
  (97 <=? code c)%nat && (code c <=? 122)%nat.
(** The ASCII characters for which [str.isspace] holds: TAB, LF, VT, FF,
    CR, the four separators FS, GS, RS, US, and the blank. *)
Definition is_space (c : ascii) : bool :=
  ((9 <=? code c)%nat && (code c <=? 13)%nat)
  || ((28 <=? code c)%nat && (code c <=? 32)%nat).

Definition lower_char (c : ascii) : ascii :=
  if is_upper c then ascii_of_nat (code c + 32) else c.
Definition upper_char (c : ascii) : ascii :=
  if is_lower c then ascii_of_nat (code c - 32) else c.

Fixpoint map_chars (f : ascii → ascii) (s : string) : string :=
  match s with
  | EmptyString => EmptyString
  | String c s' => String (f c) (map_chars f s')
  end.

Fixpoint all_chars (p : ascii → bool) (s : string) : bool :=
  match s with
  | EmptyString => true
  | String c s' => p c && all_chars p s'
  end.

(** [s.lower()], [s.upper()] *)
Definition lower : string → string := map_chars lower_char.
Definition upper : string → string := map_chars upper_char.

(** [s.isdigit()]: at least one character and all of them digits. *)
Definition isdigit (s : string) : bool :=
  match s with
  | EmptyString => false
  | _ => all_chars is_digit s
  end.

(** [s.startswith(p)] *)
Fixpoint startswith (p s : string) : bool :=
  match p, s with
  | EmptyString, _ => true
  | String a p', String b s' => bool_decide (a = b) && startswith p' s'
  | String _ _, EmptyString => false
  end.

(** [sub in s] *)
Fixpoint contains (sub s : string) : bool :=
  startswith sub s ||
  match s with
  | EmptyString => false
  | String _ s' => contains sub s'
  end.

(** [s.replace(old, new)] for a non-empty [old]: the occurrences are
    found from the left and do not overlap; after a match the remaining
    [length old - 1] characters of the occurrence are skipped. *)
Fixpoint replace_go (old new : string) (skip : nat) (s : string) : string :=
  match s with
  | EmptyString => EmptyString
  | String c s' =>
      match skip with
      | S k => replace_go old new k s'
      | O =>
          if startswith old s
          then new +:+ replace_go old new (String.length old - 1) s'
          else String c (replace_go old new 0 s')
      end
  end.
Definition replace (old new s : string) : string := replace_go old new 0 s.

(** [s.lstrip()], [s.rstrip()], [s.strip()] *)
Fixpoint lstrip (s : string) : string :=
  match s with
  | EmptyString => EmptyString
  | String c s' => if is_space c then lstrip s' else s
  end.
Fixpoint rstrip (s : string) : string :=
  match s with
  | EmptyString => EmptyString
  | String c s' =>
      match rstrip s' with
      | EmptyString => if is_space c then EmptyString else String c EmptyString
      | r => String c r
      end
  end.
Definition strip (s : string) : string := rstrip (lstrip s).

Fixpoint zeros (n : nat) : string :=
  match n with
  | O => EmptyString
  | S k => String "0" (zeros k)
  end.

(** [s.zfill(width)]: a string at least [width] long is returned as it
    is; otherwise zeros are put on the left, after a leading sign. *)
Definition zfill (width : nat) (s : string) : string :=
  if (width <=? String.length s)%nat then s
  else
    let fill := zeros (width - String.length s) in
    match s with
    | String c s' =>
        if bool_decide (c = "+"%char) || bool_decide (c = "-"%char)
        then String c (fill +:+ s')
        else fill +:+ s
    | EmptyString => fill
    end.

End Py.

(* ===================================================================== *)
(** ** Tables: the part of pandas the scripts use *)
(* ===================================================================== *)

Module Pandas.

(** A cell of a table. [NaN] is what [read_csv] gives for an empty field,
    [PyNone] what [df[col] = None] stores; both are absent for [isna],
    [dropna] and [groupby]. *)
Inductive cell : Type :=
| NaN
| PyNone
| Int (z : Z)
| Str (s : string).

#[global] Instance cell_eq_dec : EqDecision cell.
Proof. solve_decision. Defined.

Definition isna (c : cell) : bool :=
  match c with
  | NaN | PyNone => true
  | _ => false
  end.
Definition notna (c : cell) : bool := negb (isna c).

(** [series.astype(str)] on one cell. *)
Definition astype_str (c : cell) : string :=
  match c with
  | NaN => "nan"
  | PyNone => "None"
  | Int z => pretty z
  | Str s => s
  end.

(** The exceptions the scripts can run into. *)
Inductive exn : Type :=
| KeyError (missing : list string)
| AttributeError
| TypeError.

Definition result (A : Type) : Type := exn + A.
Definition ok {A} (a : A) : result A := inr a.
Definition raise {A} (e : exn) : result A := inl e.
Definition bind {A B} (m : result A) (k : A → result B) : result B :=
  match m with
  | inl e => inl e
  | inr a => k a
  end.
Fixpoint mapM_res {A B} (f : A → result B) (l : list A) : result (list B) :=
  match l with
  | [] => ok []
  | x :: l' => bind (f x) (λ y, bind (mapM_res f l') (λ ys, ok (y :: ys)))
  end.

(** A data frame: the column labels in order and the rows, each row
    holding one cell per label, by position. Labels may repeat. *)
Record DataFrame : Type := mkDF {
  columns : list string;
  rows : list (list cell)
}.

(** [col in df.columns] *)
Definition has_col (df : DataFrame) (c : string) : bool :=
  bool_decide (c ∈ columns df).

Fixpoint index_of (c : string) (cols : list string) : option nat :=
  match cols with
  | [] => None
  | x :: cols' => if decide (x = c) then Some 0%nat else S <$> index_of c cols'
  end.

(** The cell of [row] under label [c] (the first column so labelled). *)
Definition at_ (cols : list string) (row : list cell) (c : string) : cell :=
  match index_of c cols with
  | Some i => default NaN (row !! i)
  | None => NaN
  end.

(** [df[c]], the column as a list of cells. *)
Definition column (df : DataFrame) (c : string) : list cell :=
  (λ r, at_ (columns df) r c) <$> rows df.

(** [df[c] = None] for a label that is not in the frame: a new last
    column of [None]. *)
Definition add_none_column (df : DataFrame) (c : string) : DataFrame :=
  mkDF (columns df ++ [c]) ((λ r, r ++ [PyNone]) <$> rows df).

(** [df[c] = df[c].astype(str).str.<f>...]: with the label present once
    the column is rewritten in place; with a repeated label [df[c]] is a
    frame, which has no [.str] accessor. *)
Definition update_str_column (df : DataFrame) (c : string)
    (f : string → string) : result DataFrame :=
  match index_of c (columns df) with
  | None => raise (KeyError [c])
  | Some i =>
      if decide (List.length (filter (λ x, x = c) (columns df)) = 1%nat)
      then ok (mkDF (columns df)
                    ((λ r, alter (λ v, Str (f (astype_str v))) i r) <$> rows df))
      else raise AttributeError
  end.

(** [df.rename(columns=m)] *)
Definition rename (m : gmap string string) (df : DataFrame) : DataFrame :=
  mkDF ((λ c, default c (m !! c)) <$> columns df) (rows df).

(** *** Python dictionaries whose order is observed *)

(** [d[k] = v]: an existing key keeps its place and takes the new value,
    a new key goes last. *)
Fixpoint dict_set {V} (d : list (string * V)) (k : string) (v : V)
    : list (string * V) :=
  match d with
  | [] => [(k, v)]
  | (k', v') :: d' =>
      if decide (k' = k) then (k, v) :: d' else (k', v') :: dict_set d' k v
  end.
(** [{**a, **b}] *)
Definition dict_merge {V} (a b : list (string * V)) : list (string * V) :=
  foldl (λ d kv, dict_set d kv.1 kv.2) a b.
Definition dict_of {V} (l : list (string * V)) : list (string * V) :=
  dict_merge [] l.

(** *** [groupby(key).agg({...}).reset_index()] *)

Inductive how : Type := First | Sum.

(** The order of group keys: numbers by value, strings by code point,
    numbers before strings. *)
Definition cell_le (a b : cell) : Prop :=
  match a, b with
  | Int x, Int y => x ≤ y
  | Int _, _ => True
  | Str x, Str y => String.le x y
  | Str _, Int _ => False
  | Str _, _ => True
  | _, _ => True
  end.
#[global] Instance cell_le_dec : RelDecision cell_le.
Proof. intros [] []; simpl; apply _. Defined.

(** The group keys: the distinct values of the key column that are not
    absent (the default [dropna=True]), sorted (the default [sort=True]). *)
Definition group_keys (cols : list string) (key : string)
    (rs : list (list cell)) : list cell :=
  merge_sort cell_le
    (remove_dups (filter (λ v, notna v = true) ((λ r, at_ cols r key) <$> rs))).

(** The rows of one group, in table order; keys are compared exactly. *)
Definition group_rows (cols : list string) (key : string) (k : cell)
    (rs : list (list cell)) : list (list cell) :=
  filter (λ r, at_ cols r key = k) rs.

(** ['first']: the first value of the group that is not absent. *)
Definition agg_first (vs : list cell) : cell :=
  default NaN (head (filter (λ v, notna v = true) vs)).

Definition cell_int (c : cell) : Z :=
  match c with
  | Int z => z
  | _ => 0
  end.
Definition is_int (c : cell) : bool :=
  match c with Int _ => true | _ => false end.
Definition is_str (c : cell) : bool :=
  match c with Str _ => true | _ => false end.
Definition sum_ints (vs : list cell) : Z :=
  foldr (λ v acc, cell_int v + acc) 0 vs.
Definition sumZ (l : list Z) : Z := foldr Z.add 0 l.

(** The total of the numbers of a column, absent cells skipped, as a
    whole number. *)
Definition column_total (df : DataFrame) (c : string) : Z :=
  sum_ints (column df c).

(** What a 64-bit signed integer holds after a sum left its range: the
    sum wraps around, silently. *)
Definition wrap64 (z : Z) : Z := (z + 2 ^ 63) `mod` 2 ^ 64 - 2 ^ 63.
Definition concat_strs (vs : list cell) : string :=
  foldr (λ v acc, astype_str v +:+ acc) "" vs.

(** ['sum']: absent values are skipped; numbers add up (an empty sum is
    0), the strings of a text column are concatenated, and a mix of the
    two cannot be added. The numbers are added as 64-bit integers, with
    wrap-around. (A column of whole numbers with an empty cell is held
    as floating-point numbers; its sums are the ones given here as long
    as they are exact, that is while the absolute values of the column
    add up to less than 2^53.) *)
Definition agg_sum (vs : list cell) : result cell :=
  let xs := filter (λ v, notna v = true) vs in
  if forallb is_int xs then ok (Int (wrap64 (sum_ints xs)))
  else if forallb is_str xs then ok (Str (concat_strs xs))
  else raise TypeError.

Definition agg_cell (cols : list string) (grp : list (list cell))
    (ch : string * how) : result cell :=
  let vs := (λ r, at_ cols r ch.1) <$> grp in
  match ch.2 with
  | First => ok (agg_first vs)
  | Sum => agg_sum vs
  end.

(** One output record per group key: the key, then one reduced cell per
    entry of the dictionary, in its order. Grouping by a label that is
    not a column is a [KeyError]; so is reducing one, and that error lists
    the missing labels in sorted order. *)
Definition groupby_agg (df : DataFrame) (key : string)
    (spec : list (string * how)) : result DataFrame :=
  if negb (has_col df key) then raise (KeyError [key])
  else
    match filter (λ c, c ∉ columns df) (spec.*1) with
    | (_ :: _) as missing => raise (KeyError (merge_sort String.le missing))
    | [] =>
        bind (mapM_res (λ k,
                bind (mapM_res (agg_cell (columns df)
                              (group_rows (columns df) key k (rows df))) spec)
                     (λ vs, ok (k :: vs)))
                (group_keys (columns df) key (rows df)))
             (λ out, ok (mkDF (key :: spec.*1) out))
    end.

(** [left.merge(right, left_on=lk, right_on=rk, how='inner')], as the
    pairs of a left and a right row with equal keys, in left order. *)
Definition inner_join {L R K} `{EqDecision K} (lkey : L → K) (rkey : R → K)
    (left : list L) (right : list R) : list (L * R) :=
  l ← left; (λ r, (l, r)) <$> filter (λ r, lkey l = rkey r) right.

(** [row.dropna().to_dict()]: the present cells of a row by label; of a
    repeated label the last cell stays. *)
Definition dropna_to_dict (cols : list string) (row : list cell)
    : gmap string cell :=
  list_to_map (reverse (filter (λ cv, notna cv.2 = true) (zip cols row))).

(** *** Boundary tables and features *)

(** A [GeoDataFrame] over geometries [G]: the attribute labels, and per
    row the attribute cells and the geometry. *)
Record GeoDataFrame (G : Type) : Type := mkGDF {
  gcolumns : list string;
  grows : list (list cell * G)
}.
Arguments mkGDF {G} _ _.
Arguments gcolumns {G} _.
Arguments grows {G} _.

(** [gdf[c] = f(gdf[src])]: an existing column is overwritten, a new one
    goes last. *)
Definition gdf_assign {G} (g : GeoDataFrame G) (c : string)
    (f : list cell → cell) : GeoDataFrame G :=
  match index_of c (gcolumns g) with
  | Some i => mkGDF (gcolumns g) ((λ b, (<[i := f b.1]> b.1, b.2)) <$> grows g)
  | None => mkGDF (gcolumns g ++ [c]) ((λ b, (b.1 ++ [f b.1], b.2)) <$> grows g)
  end.

(** A GeoJSON feature and a feature collection; a [geometry] of [None]
    is written as [null]. *)
Record Feature (G : Type) : Type := mkFeature {
  properties : gmap string cell;
  geometry : option G
}.
Arguments mkFeature {G} _ _.
Arguments properties {G} _.
Arguments geometry {G} _.

Record FeatureCollection (G : Type) : Type := mkFC {
  features : list (Feature G)
}.
Arguments mkFC {G} _.
Arguments features {G} _.

(** The collection the scripts build when there is no boundary table:
    [for _, row in df.iterrows(): features.append({"type": "Feature",
    "properties": row.dropna().to_dict(), "geometry": None})]. *)
Definition data_only_collection {G} (df : DataFrame) : FeatureCollection G :=
  mkFC ((λ row, mkFeature (dropna_to_dict (columns df) row) None) <$> rows df).

(** [geometry.simplify(tolerance, preserve_topology=True)] is taken as
    a parameter of the scripts; the two tolerances they pass: *)
Inductive tolerance : Type := Tol_0_001 | Tol_0_0005.

(** [a + b] on two cells of object columns: texts are joined, numbers
    added, an absent operand gives an absent result; a text and a number
    do not add ([None] stands for the [TypeError]). *)
Definition cell_add (a b : cell) : option cell :=
  match a, b with
  | Str x, Str y => Some (Str (x +:+ y))
  | Int x, Int y => Some (Int (x + y))
  | (NaN | PyNone), _ | _, (NaN | PyNone) => Some NaN
  | _, _ => None
  end.

End Pandas.

(* ===================================================================== *)
(** ** Identifier normalization *)
(* ===================================================================== *)

(** The two expressions that both [column_detector.standardize_dataframe]
    (lines 119 and 122) and [create_geojson_levels.py] (lines 34 and 35)
    apply, cell by cell, to the [Zip] and the [FIPS] column. *)
Module Ident.
Import Pandas.

(** [.astype(str).str.replace('.0', '', regex=False).str.zfill(5)] *)
Definition normalize_zip_str (s : string) : string :=
  Py.zfill 5 (Py.replace ".0" "" s).
(** [.astype(str).str.zfill(5)] *)
Definition normalize_fips_str (s : string) : string :=
  Py.zfill 5 s.

(** The reading of the Zip rule that strips one trailing [".0"] and
    nothing else, to compare [normalize_zip_str] with. *)
Fixpoint strip_trailing_dot0 (s : string) : string :=
  match s with
  | EmptyString => EmptyString
  | String c s' =>
      if bool_decide (s = ".0") then EmptyString
      else String c (strip_trailing_dot0 s')
  end.
Definition normalize_zip_trailing_only (s : string) : string :=
  Py.zfill 5 (strip_trailing_dot0 s).

Definition normalize_zip (c : cell) : string := normalize_zip_str (astype_str c).
End Ident.

(* ===================================================================== *)
(** ** scripts/column_detector.py *)
(* ===================================================================== *)

Module ColumnDetector.
Import Pandas.

(** [str(col_name).strip().lower().replace('_', ' ').replace('-', ' ')];
    column labels are strings here, so the [pd.isna] branch is not taken. *)
Definition normalize_column_name (col_name : string) : string :=
  Py.replace "-" " " (Py.replace "_" " " (Py.lower (Py.strip col_name))).

(** [{normalize_column_name(col): col for col in df.columns}]: of two
    labels with one normalized name the later one stays. *)
Definition normalized_cols (cols : list string) : gmap string string :=
  foldl (λ m col, <[normalize_column_name col := col]> m) ∅ cols.

Definition zip_patterns : list string :=
  ["zip"; "zip code"; "zipcode"; "zcta"; "zcta5"; "postal code"; "postalcode"].
Definition fips_patterns : list string :=
  ["fips"; "fips code"; "fipscode"; "geoid"; "county fips"; "countyfips"].
Definition county_patterns : list string :=
  ["county"; "county name"; "countyname"; "county_name"; "xcounty"].
Definition chapter_patterns : list string :=
  ["chapter"; "chapter name"; "chaptername"; "chapter_name"].
Definition region_patterns : list string :=
  ["region"; "region name"; "regionname"; "region_name"].
Definition division_patterns : list string :=
  ["division"; "division name"; "divisionname"; "division_name"].
Definition ecode_patterns : list string :=
  ["ecode"; "e code"; "e_code"; "chapter code"; "chaptercode"; "chapter_code"].
Definition rcode_patterns : list string :=
  ["rcode"; "r code"; "r_code"; "region code"; "regioncode"; "region_code"].
Definition dcode_patterns : list string :=
  ["dcode"; "d code"; "d_code"; "division code"; "divisioncode"; "division_code"].
Definition state_patterns : list string :=
  ["state"; "state name"; "statename"; "state_name"; "st"; "state code"; "statecode"].

(** One [for pattern in patterns: if pattern in normalized_cols: ...;
    break] loop: the column of the first pattern that is a key. *)
Fixpoint first_match (patterns : list string) (nc : gmap string string)
    : option string :=
  match patterns with
  | [] => None
  | p :: ps =>
      match nc !! p with
      | Some col => Some col
      | None => first_match ps nc
      end
  end.

(** The ten loops of [detect_columns], in the order of the source. *)
Definition roles : list (string * list string) :=
  [("Zip", zip_patterns); ("FIPS", fips_patterns); ("County", county_patterns);
   ("Chapter", chapter_patterns); ("Region", region_patterns);
   ("Division", division_patterns); ("ECODE", ecode_patterns);
   ("RCODE", rcode_patterns); ("DCODE", dcode_patterns);
   ("State", state_patterns)].

(** [detect_columns(df)]: the dictionary [detected], as the list of its
    items in insertion order. *)
Definition detect_columns (df : DataFrame) : list (string * string) :=
  let nc := normalized_cols (columns df) in
  omap (λ rp, (λ col, (rp.1, col)) <$> first_match rp.2 nc) roles.

(** [detected.get(role)] *)
Definition detected_get (detected : list (string * string)) (role : string)
    : option string :=
  (λ x, x.2.2) <$> list_find (λ kv, kv.1 = role) detected.

Definition required_cols : list string :=
  ["Zip"; "FIPS"; "County"; "Chapter"; "Region"; "Division"].

(** [{v: k for k, v in detected_cols.items()}] *)
Definition rename_map (detected : list (string * string)) : gmap string string :=
  foldl (λ m kv, <[kv.2 := kv.1]> m) ∅ detected.

(** [if col not in df_std.columns: df_std[col] = None] *)
Definition ensure_column (d : DataFrame) (col : string) : DataFrame :=
  if has_col d col then d else add_none_column d col.

(** [standardize_dataframe(df, detected_cols)], the frame it returns. *)
Definition standardize_dataframe (df : DataFrame)
    (detected : list (string * string)) : result DataFrame :=
  let df_std := rename (rename_map detected) df in
  let df_std :=
    foldl ensure_column df_std required_cols in
  bind (if has_col df_std "Zip"
        then update_str_column df_std "Zip" Ident.normalize_zip_str
        else ok df_std)
       (λ df_std,
          if has_col df_std "FIPS"
          then update_str_column df_std "FIPS" Ident.normalize_fips_str
          else ok df_std).

End ColumnDetector.

(* ===================================================================== *)
(** ** scripts/create_geojson_levels.py *)
(* ===================================================================== *)

Module Levels.
Import Pandas.

(** Lines 33 to 35: the table as [read_csv] parsed it, then the two
    identifier columns rewritten. [df['Zip']] and [df['FIPS']] are a
    [KeyError] in a table without that column. *)
Definition load (csv : DataFrame) : result DataFrame :=
  bind (update_str_column csv "Zip" Ident.normalize_zip_str)
       (λ df, update_str_column df "FIPS" Ident.normalize_fips_str).

(** [year_cols], [total_cols] *)
Definition year_cols (df : DataFrame) : list string :=
  filter (λ col, Py.isdigit col = true) (columns df).
Definition total_cols (df : DataFrame) : list string :=
  filter (λ col, Py.contains "Total" col = true) (columns df).

Inductive level : Type := County | Chapter | Region | Division.

(** The [groupby] key of a level. *)
Definition level_key (l : level) : string :=
  match l with
  | County => "FIPS"
  | Chapter => "Chapter"
  | Region => "Region"
  | Division => "Division"
  end.

(** The columns a level reduces by ['first'], named in the script. *)
Definition level_first_cols (l : level) : list string :=
  match l with
  | County => ["County"; "State"; "Chapter"; "Region"; "Division";
               "ECODE"; "RCODE"; "DCODE"]
  | Chapter => ["Region"; "Division"; "RCODE"; "DCODE"]
  | Region => ["Division"; "RCODE"; "DCODE"]
  | Division => ["DCODE"]
  end.

(** The total columns a level carries along. *)
Definition level_total_cols (l : level) (df : DataFrame) : list string :=
  match l with
  | County => total_cols df
  | Chapter =>
      filter (λ c, Py.contains "Chapter" c || Py.contains "Region" c
                   || Py.contains "Division" c = true) (total_cols df)
  | Region =>
      filter (λ c, Py.contains "Region" c || Py.contains "Division" c = true)
             (total_cols df)
  | Division =>
      filter (λ c, Py.contains "Division" c = true) (total_cols df)
  end.

(** The dictionary handed to [agg]:
    [{**{col: 'first' ...}, **{col: 'sum' for col in year_cols},
      **{col: 'first' for col in <total columns>}}]. *)
Definition level_spec (l : level) (df : DataFrame) : list (string * how) :=
  dict_of (((λ c, (c, First)) <$> level_first_cols l)
           ++ ((λ c, (c, Sum)) <$> year_cols df)
           ++ ((λ c, (c, First)) <$> level_total_cols l df)).

(** [county_agg], [chapter_agg], [region_agg], [division_agg]. *)
Definition level_agg (l : level) (df : DataFrame) : result DataFrame :=
  groupby_agg df (level_key l) (level_spec l df).

Definition county_agg : DataFrame → result DataFrame := level_agg County.
Definition chapter_agg : DataFrame → result DataFrame := level_agg Chapter.
Definition region_agg : DataFrame → result DataFrame := level_agg Region.
Definition division_agg : DataFrame → result DataFrame := level_agg Division.

(** *** Boundaries and joins *)

Section Boundaries.
Context {G : Type} (simplify : tolerance → G → G).

(** What the county download (lines 65 to 79) meets: an exception in
    the download, the archive or the reader, or a table, here after
    [to_crs]. *)
Inductive counties_fetch : Type :=
| CountiesError
| CountiesLoaded (g : GeoDataFrame G).

(** [counties_gdf['FIPS'] = counties_gdf['STATEFP'] +
    counties_gdf['COUNTYFP']]; a missing column or operands that do
    not add raise inside the [try]. *)
Definition add_fips (g : GeoDataFrame G) : option (GeoDataFrame G) :=
  if bool_decide ("STATEFP" ∈ gcolumns g) && bool_decide ("COUNTYFP" ∈ gcolumns g)
  then
    keys ← mapM (λ b, cell_add (at_ (gcolumns g) b.1 "STATEFP")
                               (at_ (gcolumns g) b.1 "COUNTYFP")) (grows g);
    Some (match index_of "FIPS" (gcolumns g) with
          | Some i =>
              mkGDF (gcolumns g)
                (zip_with (λ b k, (<[i := k]> b.1, b.2)) (grows g) keys)
          | None =>
              mkGDF (gcolumns g ++ ["FIPS"])
                (zip_with (λ b k, (b.1 ++ [k], b.2)) (grows g) keys)
          end)
  else None.

(** [counties_gdf] after step 3: [None] when anything in the [try]
    raised. *)
Definition load_counties (o : counties_fetch) : option (GeoDataFrame G) :=
  match o with
  | CountiesError => None
  | CountiesLoaded g =>
      g' ← add_fips g;
      Some (mkGDF (gcolumns g')
                  ((λ b, (b.1, simplify Tol_0_001 b.2)) <$> grows g'))
  end.

(** [counties_gdf.merge(county_agg, left_on='FIPS', right_on='FIPS',
    how='inner')] *)
Definition county_merged (counties_gdf : GeoDataFrame G)
    (agg : DataFrame) : list ((list cell * G) * list cell) :=
  inner_join (λ b, at_ (gcolumns counties_gdf) b.1 "FIPS")
             (λ r, at_ (columns agg) r "FIPS")
             (grows counties_gdf) (rows agg).

(** The properties of a joined record: the columns of the aggregate
    whose label is still a label of the merged table, that is the join
    key and the labels the boundary table does not share ([merge]
    renames shared ones). [to_json] keeps absent cells, as [null]. *)
Definition joined_properties (key : string) (gcols : list string)
    (agg : DataFrame) (r : list cell) : gmap string cell :=
  list_to_map (reverse (filter (λ cv, cv.1 = key ∨ cv.1 ∉ gcols)
                               (zip (columns agg) r))).

(** [biomed_counties.geojson]. The joined branch is the one of boundaries
    and records whose [FIPS] cells are texts, as the county file and the
    loaded table give them: [merge] does not join a column of numbers to
    a column of texts. *)
Definition county_geojson (counties_gdf : option (GeoDataFrame G))
    (agg : DataFrame) : FeatureCollection G :=
  match counties_gdf with
  | Some g =>
      mkFC ((λ br, mkFeature (joined_properties "FIPS" (gcolumns g) agg br.2)
                             (Some br.1.2))
            <$> county_merged g agg)
  | None => data_only_collection agg
  end.

(** The chapter boundary file: the first column whose lower-cased label
    is one of the four known names. *)
Definition chapter_name_col (chapters_gdf : GeoDataFrame G) : option string :=
  head (filter (λ col, Py.lower col ∈ ["chapter"; "name"; "chapter_name"; "chapter_nam"])
               (gcolumns chapters_gdf)).

(** [.astype(str).str.strip().str.upper()] *)
Definition chapter_match (c : cell) : string :=
  Py.upper (Py.strip (astype_str c)).

(** [chapters_gdf.merge(chapter_agg, left_on='chapter_match',
    right_on='chapter_match', how='inner')], both sides keyed by
    [chapter_match] of the name column and of [Chapter]. *)
Definition chapter_merged (chapters_gdf : GeoDataFrame G) (name_col : string)
    (agg : DataFrame) : list ((list cell * G) * list cell) :=
  inner_join (λ b, chapter_match (at_ (gcolumns chapters_gdf) b.1 name_col))
             (λ r, chapter_match (at_ (columns agg) r "Chapter"))
             (grows chapters_gdf) (rows agg).

End Boundaries.

End Levels.

(* ===================================================================== *)
(** ** scripts/create_zip_geojson.py *)
(* ===================================================================== *)

Module ZipScript.
Import Pandas.

Definition zip_urls : list string :=
  ["https://www2.census.gov/geo/tiger/GENZ2020/shp/cb_2020_us_zcta520_500k.zip";
   "https://www2.census.gov/geo/tiger/GENZ2019/shp/cb_2019_us_zcta510_500k.zip";
   "https://www2.census.gov/geo/tiger/GENZ2018/shp/cb_2018_us_zcta510_500k.zip"].

Definition zip_key_columns : list string :=
  ["ZCTA5CE20"; "ZCTA5CE10"; "ZCTA5"; "GEOID20"; "GEOID10"; "GEOID"; "ZCTA5CE00"].

Section Run.
Context {G : Type} (simplify : tolerance → G → G).

(** What one pass of the loop over [zip_urls] meets, up to the point
    where the table is in hand. *)
Inductive fetch : Type :=
| DownloadError                 (* requests.get, raise_for_status, ZipFile, mkdir or extractall raises *)
| NoShapefile                   (* the archive has no member ending in .shp *)
| ReadError                     (* gpd.read_file raises *)
| CrsError (g : GeoDataFrame G) (* read_file returned g, to_crs raises *)
| Loaded (g : GeoDataFrame G).  (* read_file and to_crs went through *)

(** [for col in [...]: if col in zips_gdf.columns: zip_col = col; break] *)
Definition find_zip_col (g : GeoDataFrame G) : option string :=
  head (filter (λ col, col ∈ gcolumns g) zip_key_columns).

(** The loop of lines 71 to 106 over the remaining URLs: the value of
    [zips_gdf] when it ends and the URLs tried, in order. An exception
    is caught and the loop goes on with [zips_gdf] as it stood when the
    exception was raised. *)
Fixpoint census_loop (world : string → fetch) (urls : list string)
    (zips_gdf : option (GeoDataFrame G))
    : option (GeoDataFrame G) * list string :=
  match urls with
  | [] => (zips_gdf, [])
  | url :: urls' =>
      let continue_with st :=
        let res := census_loop world urls' st in (res.1, url :: res.2) in
      match world url with
      | DownloadError | NoShapefile | ReadError => continue_with zips_gdf
      | CrsError g => continue_with (Some g)
      | Loaded g =>
          match find_zip_col g with
          | Some zip_col =>
              let g1 := gdf_assign g "ZIP_CODE"
                          (λ b, Str (Py.zfill 5 (astype_str (at_ (gcolumns g) b zip_col)))) in
              (Some (mkGDF (gcolumns g1)
                           ((λ b, (b.1, simplify Tol_0_0005 b.2)) <$> grows g1)),
               [url])
          | None => continue_with None
          end
      end
  end.

(** What the Esri query of step 3 meets: an exception (the import or
    the query), or a feature set, each feature with the value of
    [attributes.get('ZCTA5CE10')] if any and with whether it has a
    geometry. The geometry of a feature is the dictionary the service
    sent, not a geometry object. The text of the query is not
    modelled. *)
Inductive esri : Type :=
| EsriError
| EsriFeatures (fs : list (option cell * bool)).

Definition esri_zip_code (a : option cell) : cell :=
  Str (Py.zfill 5 (from_option astype_str "" a)).

(** Step 3, entered when [zips_gdf is None]. The features with a
    geometry are collected; when there are any,
    [gpd.GeoDataFrame(features, crs='EPSG:4326')] is called on them. It
    takes geometry objects: on the dictionaries of the features it
    raises, the handler of step 3 prints the failure, and [zips_gdf]
    stays [None]. *)
Definition esri_step (e : esri) : option (GeoDataFrame G) :=
  match e with
  | EsriError => None
  | EsriFeatures fs =>
      match omap (λ f : option cell * bool,
                    if f.2 then Some (esri_zip_code f.1) else None) fs with
      | [] => None
      | _ :: _ => None
      end
  end.

(** [zips_gdf.merge(df, left_on='ZIP_CODE', right_on='Zip', how='inner')] *)
Definition zip_merged (zips_gdf : GeoDataFrame G) (df : DataFrame)
    : list ((list cell * G) * list cell) :=
  inner_join (λ b, at_ (gcolumns zips_gdf) b.1 "ZIP_CODE")
             (λ r, at_ (columns df) r "Zip")
             (grows zips_gdf) (rows df).

(** Step 4: [biomed_zip_codes.geojson]. The joined branch is the one of
    a table whose labels are all different and whose [Zip] cells, like
    the [ZIP_CODE] cells of the boundaries, are texts, as they are after
    normalization: [merge] does not join a column of numbers to a column
    of texts, and [to_json] does not write a label twice. *)
Definition zip_geojson (zips_gdf : option (GeoDataFrame G)) (df : DataFrame)
    : FeatureCollection G :=
  match zips_gdf with
  | Some g =>
      if bool_decide ("ZIP_CODE" ∈ gcolumns g)
      then mkFC ((λ br, mkFeature
                          (list_to_map (reverse (filter (λ cv, cv.1 ∉ gcolumns g)
                                                        (zip (columns df) br.2))))
                          (Some br.1.2))
                 <$> zip_merged g df)
      else data_only_collection df
  | None => data_only_collection df
  end.

(** The script: the collection it writes and the URLs it tried, or the
    exception that ends it. *)
Definition run (csv : DataFrame) (world : string → fetch) (e : esri)
    : result (FeatureCollection G * list string) :=
  bind (ColumnDetector.standardize_dataframe csv (ColumnDetector.detect_columns csv))
       (λ df,
          let loop := census_loop world zip_urls None in
          let zips_gdf :=
            match loop.1 with
            | None => esri_step e
            | Some g => Some g
            end in
          ok (zip_geojson zips_gdf df, loop.2)).

End Run.

End ZipScript.

(* ===================================================================== *)
(** ** Vocabulary of the properties *)
(* ===================================================================== *)

Module Vocabulary.
Import Pandas.

(** Two characters that are the same up to letter case. *)
Definition same_letter (c d : ascii) : bool :=
  bool_decide (c = d)
  || (Py.is_lower c && bool_decide (d = Py.upper_char c))
  || (Py.is_lower d && bool_decide (c = Py.upper_char d)).

(** Two texts that are the same, character by character, up to letter
    case. *)
Fixpoint same_but_case (s t : string) : bool :=
  match s, t with
  | EmptyString, EmptyString => true
  | String c s', String d t' => same_letter c d && same_but_case s' t'
  | _, _ => false
  end.

(** Two names that differ only in letter case or in the whitespace around
    them. *)
Definition name_variant (x y : string) : Prop :=
  ∃ w1 x' w2 w3 y' w4,
    x = w1 +:+ x' +:+ w2 ∧ y = w3 +:+ y' +:+ w4
    ∧ Py.all_chars Py.is_space w1 = true ∧ Py.all_chars Py.is_space w2 = true
    ∧ Py.all_chars Py.is_space w3 = true ∧ Py.all_chars Py.is_space w4 = true
    ∧ same_but_case x' y' = true.

(** A text of ASCII characters only ([s.isascii()]); on such texts the
    string methods above are Python's. *)
Definition ascii_text (s : string) : bool :=
  Py.all_chars (λ c, (Py.code c <? 128)%nat) s.

(** The ways a ZIP boundary source fails: an exception before a table is
    in hand, an archive without a shapefile, an exception in [to_crs] on a
    table read from the file (which has no [ZIP_CODE] column of its own),
    or a table with none of the known key columns. *)
Definition fetch_failed {G} (o : ZipScript.fetch (G := G)) : Prop :=
  match o with
  | ZipScript.DownloadError | ZipScript.NoShapefile | ZipScript.ReadError => True
  | ZipScript.CrsError g => "ZIP_CODE" ∉ gcolumns g
  | ZipScript.Loaded g => Forall (λ c, c ∉ gcolumns g) ZipScript.zip_key_columns
  end.

(** What a failed pass may leave in [zips_gdf]: nothing, or a table
    without a [ZIP_CODE] column. *)
Definition no_zip_code {G} (st : option (GeoDataFrame G)) : Prop :=
  match st with
  | None => True
  | Some g => "ZIP_CODE" ∉ gcolumns g
  end.

(** A column that exists and holds [None] in every row. *)
Definition none_column (df : DataFrame) (c : string) : Prop :=
  c ∈ columns df ∧ Forall (λ r, at_ (columns df) r c = PyNone) (rows df).

(** Every row has one cell per column label. *)
Definition well_formed (df : DataFrame) : Prop :=
  Forall (λ r, List.length r = List.length (columns df)) (rows df).

(** The property a data-only feature has under label [k]: the cell of
    the last column so labelled whose cell in the row is present, none
    when there is no such column. *)
Definition last_present (cols : list string) (row : list cell) (k : string)
    : option cell :=
  snd <$> last (filter (λ cv, cv.1 = k ∧ notna cv.2 = true) (zip cols row)).

(** Up to where the sums of a column of whole numbers are exact: a
    column without an empty cell is held as 64-bit integers, whose sums
    wrap around at 2^63; a column with an empty cell is held as
    floating-point numbers, among which the whole numbers up to 2^53 are
    added without rounding. *)
Definition sum_limit (vs : list cell) : Z :=
  if forallb is_int vs then 2 ^ 63 else 2 ^ 53.

(** The absolute values of the column stay, added up, below that limit:
    no sum of cells of the column, in whatever order, leaves the exact
    range. *)
Definition exact_sums (df : DataFrame) (y : string) : Prop :=
  sumZ ((λ v, Z.abs (cell_int v)) <$> column df y) < sum_limit (column df y).

End Vocabulary.

Module Examples.
Import Pandas.

(** The two rows of the example scenario, as a seven-column table. *)
Definition example_cols : list string :=
  ["Zip"; "FIPS"; "County"; "Chapter"; "Region"; "Division"; "2023"].
Definition example_table : DataFrame :=
  mkDF example_cols
    [ [Str "01001"; Str "25013"; Str "Hampden"; Str "Western MA";
       Str "Northeast"; Str "Atlantic"; Int 10];
      [Str "01002"; Str "25013"; Str "Hampden"; Str "Western MA";
       Str "Northeast"; Str "Atlantic"; Int 15] ].

(** The same two rows in a table that also has the four columns the
    county and chapter dictionaries name, with any cells in them. *)
Definition example_table_full (s1 e1 r1 d1 s2 e2 r2 d2 : cell) : DataFrame :=
  mkDF (example_cols ++ ["State"; "ECODE"; "RCODE"; "DCODE"])
    [ [Str "01001"; Str "25013"; Str "Hampden"; Str "Western MA";
       Str "Northeast"; Str "Atlantic"; Int 10; s1; e1; r1; d1];
      [Str "01002"; Str "25013"; Str "Hampden"; Str "Western MA";
       Str "Northeast"; Str "Atlantic"; Int 15; s2; e2; r2; d2] ].

(** The example table with the four code columns empty and with the
    largest 64-bit integer and 1 in its year column. *)
Definition wrapping_table : DataFrame :=
  mkDF (example_cols ++ ["State"; "ECODE"; "RCODE"; "DCODE"])
    [ [Str "01001"; Str "25013"; Str "Hampden"; Str "Western MA";
       Str "Northeast"; Str "Atlantic"; Int 9223372036854775807; NaN; NaN; NaN; NaN];
      [Str "01002"; Str "25013"; Str "Hampden"; Str "Western MA";
       Str "Northeast"; Str "Atlantic"; Int 1; NaN; NaN; NaN; NaN] ].

(** The example table with the four code columns empty, and with the
    [Chapter] cell of its second row empty as well. *)
Definition absent_chapter_table : DataFrame :=
  mkDF (example_cols ++ ["State"; "ECODE"; "RCODE"; "DCODE"])
    [ [Str "01001"; Str "25013"; Str "Hampden"; Str "Western MA";
       Str "Northeast"; Str "Atlantic"; Int 10; NaN; NaN; NaN; NaN];
      [Str "01002"; Str "25013"; Str "Hampden"; NaN;
       Str "Northeast"; Str "Atlantic"; Int 15; NaN; NaN; NaN; NaN] ].

(** The example table with the four code columns empty and two total
    columns, one of which names a level. *)
Definition totals_table : DataFrame :=
  mkDF (example_cols ++ ["State"; "ECODE"; "RCODE"; "DCODE"; "Total"; "Region Total"])
    [ [Str "01001"; Str "25013"; Str "Hampden"; Str "Western MA";
       Str "Northeast"; Str "Atlantic"; Int 10; NaN; NaN; NaN; NaN;
       Int 25; Int 70];
      [Str "01002"; Str "25013"; Str "Hampden"; Str "Western MA";
       Str "Northeast"; Str "Atlantic"; Int 15; NaN; NaN; NaN; NaN;
       Int 25; Int 70] ].

(** A table whose chapter names differ in letter case and padding, with a
    boundary file that names the chapter in capitals. *)
Definition chapter_variants_table : DataFrame :=
  mkDF ["Zip"; "FIPS"; "Chapter"; "Region"; "Division"; "RCODE"; "DCODE"; "2023"]
    [ [Str "01001"; Str "25013"; Str "Western MA"; Str "Northeast";
       Str "Atlantic"; NaN; NaN; Int 10];
      [Str "01002"; Str "25013"; Str " western ma "; Str "Northeast";
       Str "Atlantic"; NaN; NaN; Int 15] ].

(** Three Census candidates that fail in three ways: a file without
    coordinate reference, a file without a known key column, a download
    error. *)
Definition failing_world (url : string) : ZipScript.fetch (G := unit) :=
  if decide (url = "https://www2.census.gov/geo/tiger/GENZ2020/shp/cb_2020_us_zcta520_500k.zip")
  then ZipScript.CrsError (mkGDF ["ZCTA5CE20"] [([Str "01001"], tt)])
  else if decide (url = "https://www2.census.gov/geo/tiger/GENZ2019/shp/cb_2019_us_zcta510_500k.zip")
  then ZipScript.Loaded (mkGDF ["NAME"] [([Str "01001"], tt)])
  else ZipScript.DownloadError.

Definition chapter_boundaries : GeoDataFrame unit :=
  mkGDF ["NAME"] [([Str "WESTERN MA"], tt)].
End Examples.


(* ===================================================================== *)
(** ** Further vocabulary *)
(* ===================================================================== *)

Module Notions.
Import Pandas.

(** How often a label occurs among the labels of a table. *)
Definition occurrences (c : string) (cols : list string) : nat :=
  List.length (filter (λ x, x = c) cols).

(** A column whose cells are whole numbers or absent. *)
Definition numeric_column (df : DataFrame) (y : string) : Prop :=
  Forall (λ v, isna v = true ∨ is_int v = true) (column df y).

(** A character that a normalized column name can hold: no underscore,
    no hyphen, no capital letter. *)
Definition plain_char (c : ascii) : bool :=
  negb (bool_decide (c = "_"%char) || bool_decide (c = "-"%char) || Py.is_upper c).

(** A cell that is a text of at least five characters. *)
Definition padded_text (v : cell) : Prop :=
  ∃ s, v = Str s ∧ (5 ≤ String.length s)%nat.

End Notions.


Module ZipNotions.
Import Pandas.

(** A pass of the loop that does not end it: anything but a table with
    one of the known key columns. *)
Definition unusable {G} (o : ZipScript.fetch (G := G)) : Prop :=
  match o with
  | ZipScript.Loaded g => Forall (λ c, c ∉ gcolumns g) ZipScript.zip_key_columns
  | _ => True
  end.


(** Every row of a boundary table has one cell per attribute label. *)
Definition gdf_well_formed {G} (g : GeoDataFrame G) : Prop :=
  Forall (λ b, List.length b.1 = List.length (gcolumns g)) (grows g).

(** A text of exactly [n] digits. *)
Definition digits (n : nat) (v : cell) : Prop :=
  ∃ s, v = Str s ∧ Py.isdigit s = true ∧ String.length s = n.

(** A column held as texts: it has a cell, and every cell is a text. *)
Definition text_column (cells : list cell) : Prop :=
  cells ≠ [] ∧ Forall (λ v, is_str v = true) cells.

End ZipNotions.


(* ===================================================================== *)
(** ** scripts/create_geojson_levels.py: chapter, region and division
       geometry *)
(* ===================================================================== *)

Module Dissolve.
Import Pandas.

(** [.drop_duplicates()]: of equal entries the first one stays. *)
Fixpoint drop_duplicates_go {A} `{EqDecision A} (seen l : list A) : list A :=
  match l with
  | [] => []
  | x :: l' =>
      if decide (x ∈ seen) then drop_duplicates_go seen l'
      else x :: drop_duplicates_go (x :: seen) l'
  end.
Definition drop_duplicates {A} `{EqDecision A} (l : list A) : list A :=
  drop_duplicates_go [] l.

(** [df[c] = f(row)] for the whole column: an existing column is
    overwritten, a new one goes last. *)
Definition df_assign (df : DataFrame) (c : string) (f : list cell → cell)
    : DataFrame :=
  match index_of c (columns df) with
  | Some i => mkDF (columns df) ((λ r, <[i := f r]> r) <$> rows df)
  | None => mkDF (columns df ++ [c]) ((λ r, r ++ [f r]) <$> rows df)
  end.

Section Geometry.
Context {G : Type} (union : list G → G).

(** [df[['FIPS', key]].drop_duplicates()] *)
Definition level_lookup (df : DataFrame) (key : string) : list (cell * cell) :=
  drop_duplicates
    ((λ r, (at_ (columns df) r "FIPS", at_ (columns df) r key)) <$> rows df).

(** [counties_gdf.merge(lookup, on='FIPS', how='inner')]: a boundary with
    each pair of the lookup that has its FIPS. *)
Definition counties_with_key (counties_gdf : GeoDataFrame G) (df : DataFrame)
    (key : string) : list ((list cell * G) * (cell * cell)) :=
  inner_join (λ b, at_ (gcolumns counties_gdf) b.1 "FIPS") fst
             (grows counties_gdf) (level_lookup df key).

(** [.dissolve(by=key, aggfunc='first').reset_index()]: per present key, in
    sorted order, the union of the geometries of the key's boundaries. *)
Definition dissolve (cw : list ((list cell * G) * (cell * cell)))
    : list (cell * G) :=
  (λ k, (k, union ((λ x, x.1.2) <$> filter (λ x, x.2.2 = k) cw)))
  <$> merge_sort cell_le
        (remove_dups (filter (λ v, notna v = true) ((λ x, x.2.2) <$> cw))).

(** The block that derives the boundaries of a level from the counties
    (lines 266 to 277, 325 to 334, 383 to 392): [None] when the condition
    [key in counties_with_key.columns and len(counties_with_key) > 0]
    fails (the label is not in the merged table when the county table has
    it too, [merge] then renames both), else the dissolved boundaries
    joined to the records of the level. Selecting [FIPS] and [key] from a
    table without one of them, or merging on a [FIPS] the county table
    lacks, is a [KeyError]. *)
Definition derive_by_dissolve (counties_gdf : GeoDataFrame G)
    (df agg : DataFrame) (key : string)
    : result (option (list ((cell * G) * list cell))) :=
  match filter (λ c, c ∉ columns df) ["FIPS"; key] with
  | (_ :: _) as missing => raise (KeyError missing)
  | [] =>
      if bool_decide ("FIPS" ∈ gcolumns counties_gdf) then
        let cw := counties_with_key counties_gdf df key in
        if bool_decide (key ∉ gcolumns counties_gdf) && bool_decide (cw ≠ [])
        then ok (Some (inner_join fst (λ r, at_ (columns agg) r key)
                                  (dissolve cw) (rows agg)))
        else ok None
      else raise (KeyError ["FIPS"])
  end.

(** The collection of a level whose boundaries come from the counties, if
    from anywhere: the region and division blocks, and the chapter block
    after the boundary file gave nothing. *)
Definition derived_geojson (counties_gdf : option (GeoDataFrame G))
    (df agg : DataFrame) (key : string) : result (FeatureCollection G) :=
  match counties_gdf with
  | None => ok (data_only_collection agg)
  | Some cg =>
      bind (derive_by_dissolve cg df agg key)
           (λ o, ok match o with
                    | Some merged =>
                        mkFC ((λ x, mkFeature
                                      (Levels.joined_properties key (gcolumns cg) agg x.2)
                                      (Some x.1.2))
                              <$> merged)
                    | None => data_only_collection agg
                    end)
  end.

Definition region_geojson (counties_gdf : option (GeoDataFrame G))
    (df region_agg : DataFrame) : result (FeatureCollection G) :=
  derived_geojson counties_gdf df region_agg "Region".
Definition division_geojson (counties_gdf : option (GeoDataFrame G))
    (df division_agg : DataFrame) : result (FeatureCollection G) :=
  derived_geojson counties_gdf df division_agg "Division".

(** [chapter_agg['chapter_match'] = chapter_agg['Chapter'].astype(str)
    .str.strip().str.upper()]: the column stays in [chapter_agg] for the
    rest of the script. *)
Definition with_chapter_match (chapter_agg : DataFrame) : DataFrame :=
  df_assign chapter_agg "chapter_match"
    (λ r, Str (Levels.chapter_match (at_ (columns chapter_agg) r "Chapter"))).

(** The properties of a record joined to the chapter boundary file: the
    columns of [chapter_agg] whose label the boundary file does not have
    ([merge] renames shared labels), [chapter_match] apart. *)
Definition chapter_file_properties (chapters_gdf : GeoDataFrame G)
    (chapter_agg : DataFrame) (r : list cell) : gmap string cell :=
  list_to_map (reverse (filter (λ cv, cv.1 ∉ gcolumns chapters_gdf ∧ cv.1 ≠ "chapter_match")
                               (zip (columns chapter_agg) r))).

(** The chapter block, lines 237 to 305. [chapters_gdf] is the boundary
    file as step 2 left it: [None] when it is missing, empty or
    unreadable. *)
Definition chapter_geojson (chapters_gdf counties_gdf : option (GeoDataFrame G))
    (df chapter_agg : DataFrame) : result (FeatureCollection G) :=
  let name_col :=
    match chapters_gdf with
    | Some cg =>
        if bool_decide (grows cg ≠ []) then
          (λ nc, (cg, nc)) <$> Levels.chapter_name_col cg
        else None
    | None => None
    end in
  match name_col with
  | Some (cg, nc) =>
      match Levels.chapter_merged cg nc chapter_agg with
      | (_ :: _) as merged =>
          ok (mkFC ((λ br, mkFeature (chapter_file_properties cg chapter_agg br.2)
                                     (Some br.1.2))
                    <$> merged))
      | [] => derived_geojson counties_gdf df (with_chapter_match chapter_agg) "Chapter"
      end
  | None => derived_geojson counties_gdf df chapter_agg "Chapter"
  end.

End Geometry.

End Dissolve.

(* ===================================================================== *)
(** ** app.py: the upload filter *)
(* ===================================================================== *)

Module App.

(** [filename.rsplit('.', 1)[1]] for a name with a dot: the text after the
    last dot; [None] for a name without a dot. *)
Fixpoint after_last_dot (filename : string) : option string :=
  match filename with
  | EmptyString => None
  | String c s' =>
      match after_last_dot s' with
      | Some ext => Some ext
      | None => if bool_decide (c = "."%char) then Some s' else None
      end
  end.

(** [allowed_file(filename)], with [ALLOWED_EXTENSIONS = {'csv'}]. *)
Definition allowed_file (filename : string) : bool :=
  match after_last_dot filename with
  | Some ext => bool_decide (Py.lower ext = "csv")
  | None => false
  end.

End App.

Module DissolveNotions.
Import Pandas.

(** The distinct present level keys of the counties that have a boundary. *)
Definition covered_keys {G} (counties_gdf : GeoDataFrame G) (df : DataFrame)
    (key : string) : list cell :=
  remove_dups (filter (λ v, notna v = true)
                 ((λ x : (list cell * G) * (cell * cell), x.2.2)
                  <$> Dissolve.counties_with_key counties_gdf df key)).

(** The geometries that go into the boundary of key [k]. *)
Definition key_geometries {G} (counties_gdf : GeoDataFrame G) (df : DataFrame)
    (key : string) (k : cell) : list G :=
  (λ x : (list cell * G) * (cell * cell), x.1.2)
  <$> filter (λ x, x.2.2 = k) (Dissolve.counties_with_key counties_gdf df key).

(** The [FIPS] keys of the county boundaries. *)
Definition boundary_fips {G} (counties_gdf : GeoDataFrame G) : list cell :=
  (λ b, at_ (gcolumns counties_gdf) b.1 "FIPS") <$> grows counties_gdf.

(** The names of the chapter boundaries as they are compared. *)
Definition boundary_names {G} (chapters_gdf : GeoDataFrame G) (name_col : string)
    : list string :=
  (λ b, Levels.chapter_match (at_ (gcolumns chapters_gdf) b.1 name_col))
  <$> grows chapters_gdf.

End DissolveNotions.

(* ===================================================================== *)
(** * Properties *)
(* ===================================================================== *)

Import Pandas.

(** ** The string methods on small inputs *)

Example zfill_pads : Py.zfill 5 "1001" = "01001".
Proof. reflexivity. Qed.
Example zfill_after_sign : Py.zfill 5 "-12" = "-0012".
Proof. reflexivity. Qed.
Example zfill_keeps_long : Py.zfill 5 "123456" = "123456".
Proof. reflexivity. Qed.
Example replace_float_artifact : Py.replace ".0" "" "1001.0" = "1001".
Proof. reflexivity. Qed.
Example replace_every_occurrence : Py.replace "_" " " "zip_code_x" = "zip code x".
Proof. reflexivity. Qed.
Example strip_both_ends : Py.strip "  Western MA " = "Western MA".
Proof. reflexivity. Qed.
Example upper_letters_only : Py.upper "Western ma 1" = "WESTERN MA 1".
Proof. reflexivity. Qed.
Example isdigit_cases :
  Py.isdigit "2023" = true ∧ Py.isdigit "" = false ∧ Py.isdigit "20a" = false.
Proof. repeat split. Qed.
Example normalize_column_name_cases :
  ColumnDetector.normalize_column_name " Zip_Code " = "zip code"
  ∧ ColumnDetector.normalize_column_name "ZipCode" = "zipcode"
  ∧ ColumnDetector.normalize_column_name "County-Name" = "county name".
Proof. repeat split. Qed.

(** ** The example scenario *)

(** C1, as stated, fails: the example rows name seven columns, and on a
    table with just these the county dictionary asks for [State], [ECODE],
    [RCODE] and [DCODE], the chapter dictionary for [RCODE] and [DCODE];
    both aggregations end in a [KeyError] and produce no record. *)
Lemma C1_seven_columns_raise :
  bind (Levels.load Examples.example_table) Levels.county_agg
    = raise (KeyError ["DCODE"; "ECODE"; "RCODE"; "State"])
  ∧ bind (Levels.load Examples.example_table) Levels.chapter_agg
    = raise (KeyError ["DCODE"; "RCODE"])
  ∧ (∀ out, bind (Levels.load Examples.example_table) Levels.county_agg ≠ ok out)
  ∧ (∀ out, bind (Levels.load Examples.example_table) Levels.chapter_agg ≠ ok out).
Proof.
  repeat split; try (vm_compute; reflexivity); intros out H; vm_compute in H; discriminate.
Qed.

(** C1, amended: when the table of the two example rows also has the
    columns [State], [ECODE], [RCODE] and [DCODE], whatever their cells,
    county-level aggregation produces exactly one record, keyed FIPS 25013,
    with [2023] = 25 and [County] = "Hampden", and chapter-level aggregation
    exactly one record, for "Western MA", with [2023] = 25. *)
Theorem C1_example_aggregation (s1 e1 r1 d1 s2 e2 r2 d2 : cell) :
  ∃ df county rc chapter rh,
    Levels.load (Examples.example_table_full s1 e1 r1 d1 s2 e2 r2 d2) = ok df
    ∧ Levels.county_agg df = ok county
    ∧ rows county = [rc]
    ∧ at_ (columns county) rc "FIPS" = Str "25013"
    ∧ at_ (columns county) rc "2023" = Int 25
    ∧ at_ (columns county) rc "County" = Str "Hampden"
    ∧ Levels.chapter_agg df = ok chapter
    ∧ rows chapter = [rh]
    ∧ at_ (columns chapter) rh "Chapter" = Str "Western MA"
    ∧ at_ (columns chapter) rh "2023" = Int 25.
Proof.
  eexists (Examples.example_table_full s1 e1 r1 d1 s2 e2 r2 d2), (mkDF _ [_]), _, (mkDF _ [_]), _.
  repeat split; vm_compute; reflexivity.
Qed.

(** ** Facts about the table operations *)

Section TableFacts.

Lemma mapM_res_ok {A B} (f : A → result B) l ys :
  mapM_res f l = ok ys ↔ Forall2 (λ x y, f x = ok y) l ys.
Proof.
  revert ys. induction l as [|x l IH]; intros ys; simpl.
  - split.
    + intros [= <-]. constructor.
    + intros H. by inversion H.
  - destruct (f x) as [e|y] eqn:Hx; simpl.
    + split; [done|]. intros H. inversion H; subst. unfold ok in *. congruence.
    + destruct (mapM_res f l) as [e|zs] eqn:Hl; simpl.
      * split; [done|]. intros H. inversion H as [|? y' ? ys' Hy Hys]; subst.
        apply IH in Hys. unfold ok in *. congruence.
      * split.
        -- intros [= <-]. constructor; [done|]. by apply IH.
        -- intros H. inversion H as [|? y' ? ys' Hy Hys]; subst.
           apply IH in Hys. unfold ok in *. congruence.
Qed.

Lemma at_cons_eq c cols v row : at_ (c :: cols) (v :: row) c = v.
Proof. unfold at_. simpl. by rewrite decide_True. Qed.

Lemma at_cons_ne c c' cols v row :
  c' ≠ c → at_ (c' :: cols) (v :: row) c = at_ cols row c.
Proof.
  intros Hne. unfold at_. simpl. rewrite decide_False by done.
  by destruct (index_of c cols).
Qed.

Lemma index_of_is_Some c cols : c ∈ cols → is_Some (index_of c cols).
Proof.
  induction cols as [|x cols IH]; [by intros ?%elem_of_nil|].
  intros Hin. simpl. destruct (decide (x = c)); [by eexists|].
  apply elem_of_cons in Hin as [->|Hin]; [done|].
  destruct (IH Hin) as [i ->]. by eexists.
Qed.

(** The cell a record holds under a label of the dictionary is the
    reduction the dictionary gives for that label. *)
Lemma at_reduced {V} (P : string * V → cell → Prop) spec vs y :
  Forall2 P spec vs → y ∈ spec.*1 →
  ∃ h, (y, h) ∈ spec ∧ P (y, h) (at_ (spec.*1) vs y).
Proof.
  induction 1 as [|[c h] v spec vs HP HF IH]; simpl.
  - by intros ?%elem_of_nil.
  - intros Hin. destruct (decide (c = y)) as [->|Hne].
    + exists h. rewrite at_cons_eq. split; [left|done].
    + apply elem_of_cons in Hin as [->|Hin]; [done|].
      destruct (IH Hin) as (h' & Hel & HP').
      exists h'. rewrite at_cons_ne by done. split; [by right|done].
Qed.

(** *** Dictionaries *)

Lemma dict_set_elem {V} (d : list (string * V)) k v x :
  x ∈ dict_set d k v → x ∈ d ∨ x = (k, v).
Proof.
  induction d as [|[k' v'] d IH]; simpl.
  - intros ->%list_elem_of_singleton. by right.
  - destruct (decide (k' = k)) as [->|Hne].
    + intros [->|H]%elem_of_cons; [by right|]. left. by right.
    + intros [->|H]%elem_of_cons; [left; by left|].
      destruct (IH H) as [?|?]; [left; by right|by right].
Qed.

Lemma dict_set_keys {V} (d : list (string * V)) k v c :
  c ∈ (dict_set d k v).*1 ↔ c ∈ d.*1 ∨ c = k.
Proof.
  induction d as [|[k' v'] d IH]; simpl.
  - rewrite list_elem_of_singleton. split; [by right|].
    by intros [?%elem_of_nil|?].
  - destruct (decide (k' = k)) as [->|Hne]; simpl.
    + rewrite !elem_of_cons. naive_solver.
    + rewrite !elem_of_cons, IH. naive_solver.
Qed.

Lemma dict_merge_elem {V} (a b : list (string * V)) x :
  x ∈ dict_merge a b → x ∈ a ∨ x ∈ b.
Proof.
  unfold dict_merge. revert a.
  induction b as [|[k v] b IH]; intros a; simpl; [by left|].
  intros [H|H]%IH; [|right; by right].
  apply dict_set_elem in H as [H| ->]; [by left|right; by left].
Qed.

Lemma dict_merge_keys {V} (a b : list (string * V)) c :
  c ∈ (dict_merge a b).*1 ↔ c ∈ a.*1 ∨ c ∈ b.*1.
Proof.
  unfold dict_merge. revert a.
  induction b as [|[k v] b IH]; intros a; simpl.
  - split; [by left|]. by intros [?|?%elem_of_nil].
  - rewrite IH, dict_set_keys, elem_of_cons. naive_solver.
Qed.

Lemma dict_of_elem {V} (l : list (string * V)) x : x ∈ dict_of l → x ∈ l.
Proof. intros [?%elem_of_nil|?]%dict_merge_elem; done. Qed.

Lemma dict_of_keys {V} (l : list (string * V)) c :
  c ∈ (dict_of l).*1 ↔ c ∈ l.*1.
Proof.
  unfold dict_of. rewrite dict_merge_keys. simpl.
  split; [by intros [?%elem_of_nil|?]|by right].
Qed.

(** *** Groups *)

Lemma group_keys_elem cols key rs k :
  k ∈ group_keys cols key rs ↔
  notna k = true ∧ ∃ r, r ∈ rs ∧ at_ cols r key = k.
Proof.
  unfold group_keys.
  rewrite merge_sort_Permutation, elem_of_remove_dups,
    list_elem_of_filter, list_elem_of_fmap.
  split.
  - intros (Hk & r & -> & Hr). eauto.
  - intros (Hk & r & Hr & <-). eauto.
Qed.

Lemma group_keys_NoDup cols key rs : NoDup (group_keys cols key rs).
Proof.
  unfold group_keys. rewrite merge_sort_Permutation. apply NoDup_remove_dups.
Qed.

Lemma group_rows_elem cols key k rs r :
  r ∈ group_rows cols key k rs ↔ r ∈ rs ∧ at_ cols r key = k.
Proof. unfold group_rows. rewrite list_elem_of_filter. naive_solver. Qed.

(** What a successful [groupby_agg] returned: the labels are the key and
    then those of the dictionary; there is one record per group key, in
    the order of the keys, holding the key and then the reductions of
    the group's rows. *)
Lemma groupby_agg_ok df key spec out :
  groupby_agg df key spec = ok out →
  key ∈ columns df
  ∧ (∀ c, c ∈ spec.*1 → c ∈ columns df)
  ∧ columns out = key :: spec.*1
  ∧ Forall2 (λ k row, ∃ vs, row = k :: vs
               ∧ Forall2 (λ ch v,
                    agg_cell (columns df)
                      (group_rows (columns df) key k (rows df)) ch = ok v)
                   spec vs)
      (group_keys (columns df) key (rows df)) (rows out).
Proof.
  unfold groupby_agg, has_col. case_bool_decide as Hkey; simpl; [|done].
  destruct (filter _ _) as [|m ms] eqn:Hmissing; [|done].
  destruct (mapM_res _ _) as [e|rs] eqn:Hrows; simpl; [done|].
  intros [= <-]. simpl. split_and!; [done| |done|].
  - intros c Hc. destruct (decide (c ∈ columns df)) as [|Hn]; [done|].
    assert (c ∈ filter (λ c, c ∉ columns df) (spec.*1)) as Hin
      by (by apply list_elem_of_filter).
    rewrite Hmissing in Hin. by apply elem_of_nil in Hin.
  - apply mapM_res_ok in Hrows.
    eapply Forall2_impl; [exact Hrows|]. intros k row Hk. simpl in Hk.
    destruct (mapM_res _ spec) as [e|vs] eqn:Hvs; simpl in Hk; [done|].
    injection Hk as <-. exists vs. split; [done|]. by apply mapM_res_ok.
Qed.

(** The key cell of each record is its group key. *)
Lemma groupby_agg_keys df key spec out :
  groupby_agg df key spec = ok out →
  (λ row, at_ (columns out) row key) <$> rows out
    = group_keys (columns df) key (rows df).
Proof.
  intros (_ & _ & Hcols & HF)%groupby_agg_ok.
  destruct out as [ocols orows]. simpl in *. subst ocols.
  induction HF as [|k row ks rws (vs & -> & _) _ IH]; [done|].
  by rewrite fmap_cons, at_cons_eq, IH.
Qed.

End TableFacts.

(** ** Aggregation *)

Section Aggregation.

Lemma sumZ_cons x l : sumZ (x :: l) = x + sumZ l.
Proof. reflexivity. Qed.

Lemma sum_ints_sumZ vs : sum_ints vs = sumZ (cell_int <$> vs).
Proof.
  induction vs as [|v vs IH]; [done|].
  rewrite fmap_cons, sumZ_cons, <- IH. reflexivity.
Qed.

Lemma sumZ_add {A} (f g : A → Z) l :
  sumZ ((λ x, f x + g x) <$> l) = sumZ (f <$> l) + sumZ (g <$> l).
Proof.
  induction l as [|x l IH]; [done|].
  rewrite !fmap_cons, !sumZ_cons, IH. lia.
Qed.

Lemma sumZ_zero {A} (l : list A) : sumZ ((λ _, 0) <$> l) = 0.
Proof.
  induction l as [|x l IH]; [done|]. by rewrite fmap_cons, sumZ_cons, IH.
Qed.

(** A key that occurs once in a list of keys is counted once. *)
Lemma sumZ_indicator (x : cell) a ks :
  NoDup ks → x ∈ ks →
  sumZ ((λ k, if decide (x = k) then a else 0) <$> ks) = a.
Proof.
  induction 1 as [|k ks Hk Hnd IH]; [by intros ?%elem_of_nil|].
  intros Hin. rewrite fmap_cons, sumZ_cons.
  destruct (decide (x = k)) as [->|Hne].
  - assert (sumZ ((λ k0, if decide (k = k0) then a else 0) <$> ks) = 0) as ->; [|lia].
    clear IH Hin Hnd. induction ks as [|k' ks IH]; [done|].
    apply not_elem_of_cons in Hk as [Hne Hk].
    rewrite fmap_cons, sumZ_cons, decide_False by done. by rewrite IH.
  - apply elem_of_cons in Hin as [->|Hin]; [done|]. by rewrite IH.
Qed.

(** Summing group by group is summing over the rows, as long as the key
    of every row is one of the group keys. *)
Lemma sumZ_groups (f : list cell → Z) (keyf : list cell → cell) ks rs :
  NoDup ks → (∀ r, r ∈ rs → keyf r ∈ ks) →
  sumZ ((λ k, sumZ (f <$> filter (λ r, keyf r = k) rs)) <$> ks) = sumZ (f <$> rs).
Proof.
  intros Hnd. induction rs as [|r rs IH]; intros Hall.
  - apply sumZ_zero.
  - rewrite fmap_cons, sumZ_cons.
    rewrite <- (sumZ_indicator (keyf r) (f r) ks Hnd) by (apply Hall; left).
    rewrite <- IH by (intros; apply Hall; by right).
    rewrite <- sumZ_add. f_equal. apply list_fmap_ext. intros _ k _.
    rewrite filter_cons. destruct (decide (keyf r = k)); [|done].
    by rewrite fmap_cons, sumZ_cons.
Qed.

Lemma notna_filter_sum vs :
  sum_ints (filter (λ v, notna v = true) vs) = sum_ints vs.
Proof.
  induction vs as [|v vs IH]; [done|].
  rewrite filter_cons. destruct (decide (notna v = true)) as [Hv|Hv]; simpl.
  - by rewrite IH.
  - rewrite IH. by destruct v.
Qed.

(** ['sum'] over numbers and absent cells is the number [sum_ints],
    wrapped. *)
Lemma agg_sum_numeric vs :
  (∀ v, v ∈ vs → isna v = true ∨ is_int v = true) →
  agg_sum vs = ok (Int (wrap64 (sum_ints vs))).
Proof.
  intros Hnum. unfold agg_sum.
  assert (forallb is_int (filter (λ v, notna v = true) vs) = true) as ->.
  { apply forallb_forall. intros v [Hv Hin]%list_elem_of_In%list_elem_of_filter.
    destruct (Hnum v Hin) as [Hna|Hint]; [|by rewrite Hint].
    unfold notna in Hv. by rewrite Hna in Hv. }
  by rewrite notna_filter_sum.
Qed.

(** A name made of digits does not contain ["Total"]. *)
Lemma digits_no_total s :
  Py.all_chars Py.is_digit s = true → Py.contains "Total" s = false.
Proof.
  induction s as [|c s IH]; [done|]. simpl.
  intros [Hc Hs]%andb_true_iff. rewrite (IH Hs), orb_false_r.
  case_bool_decide as HT; [|done]. subst c. done.
Qed.

Lemma isdigit_no_total s : Py.isdigit s = true → Py.contains "Total" s = false.
Proof. destruct s; [done|]. apply digits_no_total. Qed.

Lemma level_first_cols_plain l c :
  c ∈ Levels.level_first_cols l →
  Py.isdigit c = false ∧ Py.contains "Total" c = false.
Proof.
  destruct l; simpl; rewrite ?elem_of_cons, elem_of_nil;
    intros H; repeat destruct H as [->|H]; done.
Qed.

Lemma level_key_plain l :
  Py.isdigit (Levels.level_key l) = false
  ∧ Py.contains "Total" (Levels.level_key l) = false.
Proof. by destruct l. Qed.

Lemma level_total_cols_sub l df c :
  c ∈ Levels.level_total_cols l df → c ∈ Levels.total_cols df.
Proof.
  destruct l; simpl; [done|..]; by intros [_ ?]%list_elem_of_filter.
Qed.

Lemma total_cols_elem df c :
  c ∈ Levels.total_cols df ↔ c ∈ columns df ∧ Py.contains "Total" c = true.
Proof. unfold Levels.total_cols. rewrite list_elem_of_filter. naive_solver. Qed.

Lemma year_cols_elem df c :
  c ∈ Levels.year_cols df ↔ c ∈ columns df ∧ Py.isdigit c = true.
Proof. unfold Levels.year_cols. rewrite list_elem_of_filter. naive_solver. Qed.

(** How the dictionary of a level reduces a column: a year column by
    ['sum'], every other one by ['first']. *)
Lemma level_spec_how l df c h :
  (c, h) ∈ Levels.level_spec l df →
  h = (if Py.isdigit c then Sum else First).
Proof.
  intros Hin%dict_of_elem.
  rewrite !elem_of_app, !list_elem_of_fmap in Hin.
  destruct Hin as [(x & [= -> ->] & Hx)|[(x & [= -> ->] & Hx)|(x & [= -> ->] & Hx)]].
  - apply level_first_cols_plain in Hx as [-> _]. done.
  - apply year_cols_elem in Hx as [_ ->]. done.
  - apply level_total_cols_sub, total_cols_elem in Hx as [_ Hx].
    destruct (Py.isdigit x) eqn:Hd; [|done].
    apply isdigit_no_total in Hd. congruence.
Qed.

Lemma level_spec_labels l df c :
  c ∈ (Levels.level_spec l df).*1 ↔
  c ∈ Levels.level_first_cols l ∨ c ∈ Levels.year_cols df
  ∨ c ∈ Levels.level_total_cols l df.
Proof.
  unfold Levels.level_spec. rewrite dict_of_keys, !fmap_app, !elem_of_app.
  rewrite <- !list_fmap_compose.
  assert (∀ (h : how) (l : list string), (fst ∘ (λ c, (c, h))) <$> l = l) as Hid.
  { intros h l0. induction l0 as [|x l0 IH]; [done|]. rewrite fmap_cons. by rewrite IH. }
  by rewrite !Hid.
Qed.

(** The cell of an aggregated record under a column of the dictionary,
    in terms of the rows of the record's group. *)
Lemma level_agg_cell l df out :
  Levels.level_agg l df = ok out →
  Forall2 (λ k row,
      at_ (columns out) row (Levels.level_key l) = k
      ∧ ∀ c, c ∈ (Levels.level_spec l df).*1 →
          agg_cell (columns df)
            (group_rows (columns df) (Levels.level_key l) k (rows df))
            (c, if Py.isdigit c then Sum else First)
          = ok (at_ (columns out) row c))
    (group_keys (columns df) (Levels.level_key l) (rows df)) (rows out).
Proof.
  intros (_ & _ & Hcols & HF)%groupby_agg_ok. rewrite Hcols.
  eapply Forall2_impl; [exact HF|]. intros k row (vs & -> & Hvs). split.
  - apply at_cons_eq.
  - intros c Hc.
    assert (Levels.level_key l ≠ c) as Hne.
    { intros <-. apply level_spec_labels in Hc.
      destruct (level_key_plain l) as [Hd Ht].
      destruct Hc as [Hc|[Hc|Hc]].
      - by destruct l; simpl in Hc; rewrite ?elem_of_cons, elem_of_nil in Hc;
          repeat destruct Hc as [Hc|Hc].
      - apply year_cols_elem in Hc as [_ Hc]. congruence.
      - apply level_total_cols_sub, total_cols_elem in Hc as [_ Hc]. congruence. }
    rewrite at_cons_ne by done.
    destruct (at_reduced _ _ _ c Hvs Hc) as (h & Hel & Hcell).
    by rewrite <- (level_spec_how _ _ _ _ Hel).
Qed.

End Aggregation.

Lemma Forall2_fmap_eq {A B C} (f : A → C) (g : B → C) l k :
  Forall2 (λ x y, f x = g y) l k → f <$> l = g <$> k.
Proof.
  induction 1 as [|x y l k Hxy _ IH]; [done|]. by rewrite !fmap_cons, Hxy, IH.
Qed.

Lemma Forall2_elem_r {A B} (P : A → B → Prop) l k y :
  Forall2 P l k → y ∈ k → ∃ x, x ∈ l ∧ P x y.
Proof.
  induction 1 as [|x y' l k Hxy _ IH]; [by intros ?%elem_of_nil|].
  intros [->|Hin]%elem_of_cons.
  - exists x. split; [left|done].
  - destruct (IH Hin) as (x' & ? & ?). exists x'. split; [by right|done].
Qed.

(** ** Conservation of the year columns *)

Section ExactSums.
Import Vocabulary.

Lemma wrap64_exact z : - 2 ^ 63 ≤ z < 2 ^ 63 → wrap64 z = z.
Proof. intros Hz. unfold wrap64. rewrite Z.mod_small; lia. Qed.

Lemma sum_limit_le vs : sum_limit vs ≤ 2 ^ 63.
Proof. unfold sum_limit. destruct (forallb is_int vs); lia. Qed.

Lemma sumZ_abs_nonneg {A} (f : A → Z) l : 0 ≤ sumZ ((λ x, Z.abs (f x)) <$> l).
Proof.
  induction l as [|x l IH]; [done|]. rewrite fmap_cons, sumZ_cons. lia.
Qed.

(** A sum over some of the rows is no larger, in absolute value, than the
    absolute values of all rows added up. *)
Lemma sumZ_filter_abs {A} (f : A → Z) (P : A → Prop) `{∀ x, Decision (P x)} l :
  Z.abs (sumZ (f <$> filter P l)) ≤ sumZ ((λ x, Z.abs (f x)) <$> l).
Proof.
  induction l as [|x l IH]; [done|].
  rewrite filter_cons, (fmap_cons _ x l), sumZ_cons.
  destruct (decide (P x)); [rewrite fmap_cons, sumZ_cons|]; lia.
Qed.

(** The year columns of any level add up, over the records, to their
    total over the rows, when no row has an absent key and the sums stay
    in the exact range. *)
Lemma level_year_sum l df out y :
  Levels.level_agg l df = ok out →
  Forall (λ r, isna (at_ (columns df) r (Levels.level_key l)) = false) (rows df) →
  y ∈ Levels.year_cols df →
  Forall (λ v, isna v = true ∨ is_int v = true) (column df y) →
  exact_sums df y →
  column_total out y = column_total df y.
Proof.
  intros Hagg Hkeys Hy Hnum Hrange.
  rewrite Forall_forall in Hkeys. rewrite Forall_forall in Hnum.
  pose proof (level_agg_cell l df out Hagg) as HF.
  unfold exact_sums, column in Hrange. rewrite <- list_fmap_compose in Hrange.
  pose proof (sum_limit_le ((λ r, at_ (columns df) r y) <$> rows df)) as Hlim.
  unfold column_total, column.
  rewrite !sum_ints_sumZ, <- !list_fmap_compose.
  rewrite <- (sumZ_groups _ (λ r, at_ (columns df) r (Levels.level_key l))
                (group_keys (columns df) (Levels.level_key l) (rows df)) (rows df)).
  - f_equal. symmetry. apply Forall2_fmap_eq.
    eapply Forall2_impl; [exact HF|]. intros k row [_ Hcell]. simpl.
    specialize (Hcell y).
    assert (Py.isdigit y = true) as Hd by (by apply year_cols_elem in Hy as [_ ?]).
    rewrite Hd in Hcell. unfold agg_cell in Hcell. simpl in Hcell.
    rewrite agg_sum_numeric in Hcell.
    + assert (y ∈ (Levels.level_spec l df).*1) as Hlab
        by (apply level_spec_labels; right; by left).
      specialize (Hcell Hlab). injection Hcell as <-. simpl.
      rewrite sum_ints_sumZ, <- list_fmap_compose. unfold group_rows.
      symmetry. apply wrap64_exact.
      pose proof (sumZ_filter_abs (cell_int ∘ (λ r, at_ (columns df) r y))
                    (λ r, at_ (columns df) r (Levels.level_key l) = k) (rows df))
        as Habs.
      unfold compose in *. lia.
    + intros v (r & -> & [Hr _]%group_rows_elem)%list_elem_of_fmap.
      apply Hnum. unfold column. apply list_elem_of_fmap. eauto.
  - apply group_keys_NoDup.
  - intros r Hr. apply group_keys_elem. split; [|eauto].
    unfold notna. by rewrite (Hkeys r Hr).
Qed.

End ExactSums.

(** C2, as stated, fails: the county records are summed as 64-bit
    integers, and a sum that leaves their range wraps around. Two rows
    of one county with the largest 64-bit integer and 1 in the year
    column give one record that holds the smallest 64-bit integer, not
    the sum of the two. *)
Lemma C2_sum_wraps_around :
  ∃ out,
    Levels.county_agg Examples.wrapping_table = ok out
    ∧ Forall (λ r, isna (at_ (columns Examples.wrapping_table) r "FIPS") = false)
        (rows Examples.wrapping_table)
    ∧ "2023" ∈ Levels.year_cols Examples.wrapping_table
    ∧ column out "2023" = [Int (-9223372036854775808)]
    ∧ column_total Examples.wrapping_table "2023" = 9223372036854775808
    ∧ column_total out "2023" ≠ column_total Examples.wrapping_table "2023".
Proof.
  eexists. split; [vm_compute; reflexivity|].
  split_and!; [repeat constructor|apply (bool_decide_unpack _); by vm_compute|
               by vm_compute..].
Qed.

(** C2, amended: when no row of the table has an absent [FIPS] key, the
    county-level records of a year column (a column whose label is made of
    digits) whose cells are whole numbers or empty, and whose absolute
    values add up to less than the limit of exact sums (2^63 for a column
    without an empty cell, 2^53 for one with an empty cell), add up to
    what the rows of the table add up to in that column. *)
Theorem C2_year_sum_conserved (df out : DataFrame) (y : string) :
  Levels.county_agg df = ok out →
  Forall (λ r, isna (at_ (columns df) r "FIPS") = false) (rows df) →
  y ∈ Levels.year_cols df →
  Forall (λ v, isna v = true ∨ is_int v = true) (column df y) →
  Vocabulary.exact_sums df y →
  column_total out y = column_total df y.
Proof. apply (level_year_sum Levels.County). Qed.

(** C2 at the example table: the one county record holds 25 = 10 + 15. *)
Lemma C2_year_sum_conserved_witness :
  column_total
    (mkDF ["FIPS"; "County"; "State"; "Chapter"; "Region"; "Division";
           "ECODE"; "RCODE"; "DCODE"; "2023"]
          [[Str "25013"; Str "Hampden"; NaN; Str "Western MA"; Str "Northeast";
            Str "Atlantic"; NaN; NaN; NaN; Int 25]]) "2023"
  = column_total (Examples.example_table_full NaN NaN NaN NaN NaN NaN NaN NaN) "2023".
Proof.
  apply (C2_year_sum_conserved
           (Examples.example_table_full NaN NaN NaN NaN NaN NaN NaN NaN)).
  - vm_compute. reflexivity.
  - repeat constructor.
  - apply (bool_decide_unpack _). vm_compute. exact I.
  - vm_compute. repeat constructor; right; reflexivity.
  - vm_compute. reflexivity.
Defined.

(** ** Grouping *)

(** C5, as stated, fails: a row with an empty [Chapter] cell is left out of
    the chapter-level aggregation. Of the two example rows only the first
    reaches the record of "Western MA" ([2023] = 10, not 25), and no record
    is keyed by the absent marker. *)
Lemma C5_absent_chapter_row_dropped :
  bind (Levels.load Examples.absent_chapter_table) Levels.chapter_agg
  = ok (mkDF ["Chapter"; "Region"; "Division"; "RCODE"; "DCODE"; "2023"]
             [[Str "Western MA"; Str "Northeast"; Str "Atlantic"; NaN; NaN; Int 10]]).
Proof. vm_compute. reflexivity. Qed.

(** C5, amended: at every level the group keys are compared exactly (two
    keys that differ, be it only in letter case, are two groups). A row
    whose key is present contributes to the record that carries exactly its
    key; every record carries a present key that some row has, no two
    records carry the same key, and each cell of a record is the reduction
    of exactly the rows with the record's key. Rows whose key is absent
    are in no group. *)
Theorem C5_grouping_exact_keys (l : Levels.level) (df out : DataFrame) :
  Levels.level_agg l df = ok out →
  (∀ r, r ∈ rows df → notna (at_ (columns df) r (Levels.level_key l)) = true →
     ∃ row, row ∈ rows out
       ∧ at_ (columns out) row (Levels.level_key l)
         = at_ (columns df) r (Levels.level_key l))
  ∧ (∀ row, row ∈ rows out →
       notna (at_ (columns out) row (Levels.level_key l)) = true
       ∧ (∃ r, r ∈ rows df
            ∧ at_ (columns df) r (Levels.level_key l)
              = at_ (columns out) row (Levels.level_key l))
       ∧ ∀ c, c ∈ (Levels.level_spec l df).*1 →
           agg_cell (columns df)
             (filter (λ r, at_ (columns df) r (Levels.level_key l)
                           = at_ (columns out) row (Levels.level_key l)) (rows df))
             (c, if Py.isdigit c then Sum else First)
           = ok (at_ (columns out) row c))
  ∧ NoDup ((λ row, at_ (columns out) row (Levels.level_key l)) <$> rows out).
Proof.
  intros Hagg.
  pose proof (groupby_agg_keys _ _ _ _ Hagg) as Hkeys.
  pose proof (level_agg_cell l df out Hagg) as HF.
  split_and!.
  - intros r Hr Hna.
    assert (at_ (columns df) r (Levels.level_key l)
            ∈ (λ row, at_ (columns out) row (Levels.level_key l)) <$> rows out) as Hin.
    { rewrite Hkeys. apply group_keys_elem. eauto. }
    apply list_elem_of_fmap in Hin as (row & Heq & Hrow). eauto.
  - intros row Hrow.
    destruct (Forall2_elem_r _ _ _ _ HF Hrow) as (k & Hk & Hkey & Hcells).
    apply group_keys_elem in Hk as (Hna & r & Hr & Hrk).
    rewrite Hkey. split_and!; [done|eauto|]. intros c Hc. by apply Hcells.
  - rewrite Hkeys. apply group_keys_NoDup.
Qed.

Lemma C5_grouping_exact_keys_witness :
  ∃ row, row ∈ [[Str "Western MA"; Str "Northeast"; Str "Atlantic"; NaN; NaN; Int 25]]
    ∧ at_ ["Chapter"; "Region"; "Division"; "RCODE"; "DCODE"; "2023"] row "Chapter"
      = Str "Western MA".
Proof.
  pose (df := Examples.example_table_full NaN NaN NaN NaN NaN NaN NaN NaN).
  pose (out := mkDF ["Chapter"; "Region"; "Division"; "RCODE"; "DCODE"; "2023"]
                    [[Str "Western MA"; Str "Northeast"; Str "Atlantic"; NaN; NaN; Int 25]]).
  assert (Levels.level_agg Levels.Chapter df = ok out) as Hagg
    by (vm_compute; reflexivity).
  destruct (C5_grouping_exact_keys Levels.Chapter df out Hagg) as (Hrows & _ & _).
  apply (Hrows [Str "01001"; Str "25013"; Str "Hampden"; Str "Western MA";
                Str "Northeast"; Str "Atlantic"; Int 10; NaN; NaN; NaN; NaN]).
  - left.
  - reflexivity.
Defined.

(** ** Total columns *)

(** C6, as stated, fails: the chapter-level aggregation leaves out a total
    column whose name names no level. Of the columns [Total] and
    [Region Total] of the table, only the second is in the chapter-level
    output. *)
Lemma C6_chapter_drops_plain_total :
  "Total" ∈ Levels.total_cols Examples.totals_table
  ∧ Levels.chapter_agg Examples.totals_table
    = ok (mkDF ["Chapter"; "Region"; "Division"; "RCODE"; "DCODE"; "2023";
                "Region Total"]
               [[Str "Western MA"; Str "Northeast"; Str "Atlantic"; NaN; NaN;
                 Int 25; Int 70]])
  ∧ "Total" ∉ ["Chapter"; "Region"; "Division"; "RCODE"; "DCODE"; "2023";
               "Region Total"].
Proof.
  split_and!.
  - apply (bool_decide_unpack _). vm_compute. exact I.
  - vm_compute. reflexivity.
  - apply (bool_decide_unpack _). vm_compute. exact I.
Qed.

(** C6, amended: a total column of the table is in the output of a level
    exactly when the level carries it along: every total column at county
    level, and at chapter, region and division level those whose name also
    contains "Chapter", "Region" or "Division" (chapter), "Region" or
    "Division" (region), "Division" (division). Such a column holds, in each
    record, the first value of the record's group that is not absent; it is
    never summed. *)
Theorem C6_total_columns_first (l : Levels.level) (df out : DataFrame) (c : string) :
  Levels.level_agg l df = ok out →
  c ∈ Levels.total_cols df →
  (c ∈ columns out ↔ c ∈ Levels.level_total_cols l df)
  ∧ (c ∈ Levels.level_total_cols l df →
     ∀ row, row ∈ rows out →
       at_ (columns out) row c
       = agg_first ((λ r, at_ (columns df) r c)
                    <$> group_rows (columns df) (Levels.level_key l)
                          (at_ (columns out) row (Levels.level_key l)) (rows df))).
Proof.
  intros Hagg Hc.
  pose proof (level_agg_cell l df out Hagg) as HF.
  destruct (groupby_agg_ok _ _ _ _ Hagg) as (_ & _ & Hcols & _).
  apply total_cols_elem in Hc as [Hcol Htot].
  assert (Py.isdigit c = false) as Hnd.
  { destruct (Py.isdigit c) eqn:Hd; [|done]. apply isdigit_no_total in Hd. congruence. }
  split.
  - rewrite Hcols, elem_of_cons, level_spec_labels. split.
    + intros [->|[Hf|[Hy|Ht]]]; [| | |done].
      * destruct (level_key_plain l) as [_ ?]. congruence.
      * apply level_first_cols_plain in Hf as [_ ?]. congruence.
      * apply year_cols_elem in Hy as [_ ?]. congruence.
    + intros Ht. right. right. by right.
  - intros Ht row Hrow.
    destruct (Forall2_elem_r _ _ _ _ HF Hrow) as (k & Hk & Hkey & Hcells).
    specialize (Hcells c). rewrite Hnd in Hcells. unfold agg_cell in Hcells.
    simpl in Hcells. rewrite Hkey.
    assert (c ∈ (Levels.level_spec l df).*1) as Hlab
      by (apply level_spec_labels; right; by right).
    specialize (Hcells Hlab). by injection Hcells as <-.
Qed.

Lemma C6_total_columns_first_witness :
  ("Region Total" ∈ ["Chapter"; "Region"; "Division"; "RCODE"; "DCODE"; "2023"; "Region Total"]
   ↔ "Region Total" ∈ Levels.level_total_cols Levels.Chapter Examples.totals_table).
Proof.
  pose (out := mkDF ["Chapter"; "Region"; "Division"; "RCODE"; "DCODE"; "2023";
                     "Region Total"]
                    [[Str "Western MA"; Str "Northeast"; Str "Atlantic"; NaN; NaN;
                      Int 25; Int 70]]).
  refine (proj1 (C6_total_columns_first Levels.Chapter Examples.totals_table out
                   "Region Total" _ _)).
  - vm_compute. reflexivity.
  - apply (bool_decide_unpack _). vm_compute. exact I.
Defined.

(** ** Identifier normalization *)

Section StringFacts.

Lemma string_length_app s t :
  String.length (s +:+ t) = (String.length s + String.length t)%nat.
Proof. induction s as [|c s IH]; simpl; [done|]. by rewrite IH. Qed.

Lemma length_zeros n : String.length (Py.zeros n) = n.
Proof. induction n as [|n IH]; simpl; [done|]. by rewrite IH. Qed.

(** [zfill] never shortens: the result is [width] long, or as long as
    the argument when that is longer. *)
Lemma zfill_length w s :
  String.length (Py.zfill w s) = (w `max` String.length s)%nat.
Proof.
  unfold Py.zfill. destruct (w <=? String.length s)%nat eqn:Hle.
  - apply Nat.leb_le in Hle. lia.
  - apply Nat.leb_gt in Hle. destruct s as [|c s].
    + rewrite length_zeros. simpl. lia.
    + destruct (_ || _); simpl; rewrite string_length_app, length_zeros; simpl in *; lia.
Qed.

Lemma all_chars_app p s t :
  Py.all_chars p (s +:+ t) = Py.all_chars p s && Py.all_chars p t.
Proof.
  induction s as [|c s IH]; simpl; [done|]. by rewrite IH, andb_assoc.
Qed.

Lemma all_chars_zeros n : Py.all_chars Py.is_digit (Py.zeros n) = true.
Proof. induction n as [|n IH]; simpl; [done|]. by rewrite IH. Qed.

(** A text without the two characters [".0"] is left as it is by
    [replace('.0', '')]; followed by [".0"], that suffix is all that goes. *)
Lemma replace_dot0_absent t :
  Py.contains ".0" t = false → Py.replace ".0" "" t = t.
Proof.
  unfold Py.replace. induction t as [|c t IH]; [done|].
  intros Hc. change (Py.contains ".0" (String c t))
    with (Py.startswith ".0" (String c t) || Py.contains ".0" t) in Hc.
  apply orb_false_iff in Hc as [Hs Hc].
  cbn [Py.replace_go]. rewrite Hs. by rewrite IH.
Qed.

Lemma replace_dot0_trailing t :
  Py.contains ".0" t = false → Py.replace ".0" "" (t +:+ ".0") = t.
Proof.
  unfold Py.replace. induction t as [|c t IH]; [done|].
  intros Hc. change (Py.contains ".0" (String c t))
    with (Py.startswith ".0" (String c t) || Py.contains ".0" t) in Hc.
  apply orb_false_iff in Hc as [Hs Hc].
  change (String c t +:+ ".0") with (String c (t +:+ ".0")).
  cbn [Py.replace_go].
  assert (Py.startswith ".0" (String c (t +:+ ".0")) = false) as ->.
  { destruct t as [|c' t]; [|exact Hs].
    simpl. case_bool_decide as Hdot; [|done]. subst c. done. }
  by rewrite IH.
Qed.

Lemma strip_trailing_dot0_cases s :
  s = Ident.strip_trailing_dot0 s +:+ ".0" ∨ s = Ident.strip_trailing_dot0 s.
Proof.
  induction s as [|c s IH]; [by right|].
  cbn [Ident.strip_trailing_dot0].
  case_bool_decide as Heq; [left; by rewrite Heq|].
  destruct IH as [IH|IH]; [left|right].
  - change (String c s = String c (Ident.strip_trailing_dot0 s +:+ ".0")).
    by f_equal.
  - by f_equal.
Qed.

End StringFacts.

(** C3, as stated, fails on both counts. (1) [replace('.0', '')] removes
    every occurrence of [".0"], not only a trailing one: ["501.05"] becomes
    ["05015"], where stripping a trailing [".0"] only would leave it as it
    is. (2) [zfill(5)] only pads: a value longer than five characters keeps
    its length. *)
Lemma C3_interior_removed_and_long_kept :
  Ident.normalize_zip (Str "501.05") = "05015"
  ∧ Ident.normalize_zip_trailing_only "501.05" = "501.05"
  ∧ Ident.normalize_zip (Str "123456") = "123456"
  ∧ String.length (Ident.normalize_zip (Str "123456")) ≠ 5%nat.
Proof. by vm_compute. Qed.

(** C3, amended: for a Zip value in which [".0"] occurs nowhere except,
    possibly, at its very end, normalization strips that trailing [".0"]
    and then pads with zeros on the left up to five characters: the result
    is never shorter than five characters, and has exactly five when the
    stripped text has at most five. *)
Theorem C3_zip_trailing_artifact (s : string) :
  Py.contains ".0" (Ident.strip_trailing_dot0 s) = false →
  Ident.normalize_zip_str s = Py.zfill 5 (Ident.strip_trailing_dot0 s)
  ∧ (5 ≤ String.length (Ident.normalize_zip_str s))%nat
  ∧ ((String.length (Ident.strip_trailing_dot0 s) ≤ 5)%nat →
     String.length (Ident.normalize_zip_str s) = 5%nat).
Proof.
  intros Hfree.
  assert (Ident.normalize_zip_str s = Py.zfill 5 (Ident.strip_trailing_dot0 s)) as Heq.
  { unfold Ident.normalize_zip_str. f_equal.
    destruct (strip_trailing_dot0_cases s) as [Hs|Hs].
    - rewrite Hs at 1. by apply replace_dot0_trailing.
    - rewrite Hs at 1. by apply replace_dot0_absent. }
  rewrite Heq, zfill_length. split_and!; [done|lia|lia].
Qed.

Lemma C3_zip_trailing_artifact_witness :
  Ident.normalize_zip_str "1001.0" = Py.zfill 5 (Ident.strip_trailing_dot0 "1001.0")
  ∧ (5 ≤ String.length (Ident.normalize_zip_str "1001.0"))%nat
  ∧ ((String.length (Ident.strip_trailing_dot0 "1001.0") ≤ 5)%nat →
     String.length (Ident.normalize_zip_str "1001.0") = 5%nat).
Proof. apply (C3_zip_trailing_artifact "1001.0"). reflexivity. Defined.

Section JoinFacts.

Lemma inner_join_elem {L R K} `{EqDecision K} (lkey : L → K) (rkey : R → K)
    left right l r :
  (l, r) ∈ inner_join lkey rkey left right ↔
  l ∈ left ∧ r ∈ right ∧ lkey l = rkey r.
Proof.
  unfold inner_join. rewrite list_elem_of_bind. split.
  - intros (l' & Hin & Hl').
    apply list_elem_of_fmap in Hin as (r' & [= -> ->] & Hr').
    apply list_elem_of_filter in Hr' as [? ?]. done.
  - intros (Hl & Hr & Hk). exists l. split; [|done].
    apply list_elem_of_fmap. exists r. split; [done|].
    by apply list_elem_of_filter.
Qed.


Lemma isdigit_all_chars s :
  Py.isdigit s = true → Py.all_chars Py.is_digit s = true.
Proof. by destruct s. Qed.


Lemma strip_trailing_dot0_app t :
  Ident.strip_trailing_dot0 (t +:+ ".0") = t.
Proof.
  induction t as [|c t IH]; [done|].
  change (String c t +:+ ".0") with (String c (t +:+ ".0")).
  cbn [Ident.strip_trailing_dot0]. rewrite IH.
  case_bool_decide as Heq; [|done].
  apply (f_equal String.length) in Heq. simpl in Heq.
  rewrite string_length_app in Heq. simpl in Heq. lia.
Qed.

End JoinFacts.



(** ** Column detection *)

Section DetectFacts.
Import ColumnDetector.

Lemma normalized_cols_foldl (m : gmap string string) cols p c :
  foldl (λ m col, <[normalize_column_name col := col]> m) m cols !! p = Some c →
  (c ∈ cols ∧ normalize_column_name c = p) ∨ m !! p = Some c.
Proof.
  revert m. induction cols as [|x cols IH]; intros m; simpl; [by right|].
  intros [[Hin Hn]|Hm]%IH; [left; split; [by right|done]|].
  destruct (decide (normalize_column_name x = p)) as [Hxp|Hxp].
  - rewrite Hxp, lookup_insert_eq in Hm. injection Hm as <-.
    left. split; [left|done].
  - rewrite lookup_insert_ne in Hm by done. by right.
Qed.

Lemma normalized_cols_foldl_is_Some (m : gmap string string) cols p :
  (∃ c, c ∈ cols ∧ normalize_column_name c = p) ∨ is_Some (m !! p) →
  is_Some (foldl (λ m col, <[normalize_column_name col := col]> m) m cols !! p).
Proof.
  revert m. induction cols as [|x cols IH]; intros m; simpl.
  - intros [(c & ?%elem_of_nil & _)|?]; done.
  - intros [(c & [->|Hin]%elem_of_cons & Hn)|Hm]; apply IH.
    + right. rewrite Hn, lookup_insert_eq. by eexists.
    + left. eauto.
    + right. destruct (decide (normalize_column_name x = p)) as [->|Hxp].
      * rewrite lookup_insert_eq. by eexists.
      * by rewrite lookup_insert_ne.
Qed.

(** A key of [normalized_cols] maps to a column with that normalized
    name, and every normalized name of a column is a key. *)
Lemma normalized_cols_Some cols p c :
  normalized_cols cols !! p = Some c → c ∈ cols ∧ normalize_column_name c = p.
Proof.
  intros [?|Hm]%normalized_cols_foldl; [done|]. by rewrite lookup_empty in Hm.
Qed.

Lemma normalized_cols_is_Some cols c :
  c ∈ cols → is_Some (normalized_cols cols !! normalize_column_name c).
Proof. intros Hc. apply normalized_cols_foldl_is_Some. left. eauto. Qed.

Lemma normalized_cols_None cols p :
  (∀ c, c ∈ cols → normalize_column_name c ≠ p) → normalized_cols cols !! p = None.
Proof.
  intros Hno. destruct (normalized_cols cols !! p) as [c|] eqn:Hc; [|done].
  apply normalized_cols_Some in Hc as [Hin Hn]. by destruct (Hno c Hin).
Qed.

End DetectFacts.

(** C8, as stated, fails: a table with the columns [ZipCode] and [zcta5]
    may have further columns. One that matches an alias before [zipcode]
    takes the role, and of two columns that both normalize to [zipcode]
    the one standing later in the table takes it, so that the result
    depends on the order of the columns. *)
Lemma C8_other_columns_take_the_role :
  ColumnDetector.detected_get
    (ColumnDetector.detect_columns (mkDF ["ZipCode"; "zcta5"; "Zip"] [])) "Zip"
  = Some "Zip"
  ∧ ColumnDetector.detected_get
      (ColumnDetector.detect_columns (mkDF ["ZipCode"; "zcta5"; "ZIPCODE"] [])) "Zip"
    = Some "ZIPCODE"
  ∧ ColumnDetector.detected_get
      (ColumnDetector.detect_columns (mkDF ["ZIPCODE"; "zcta5"; "ZipCode"] [])) "Zip"
    = Some "ZipCode".
Proof. by vm_compute. Qed.

(** C8, amended: in a table that has the columns [ZipCode] and [zcta5],
    wherever they stand, and in which no column normalizes to [zip] or
    [zip code] and [ZipCode] is the only one that normalizes to
    [zipcode], the ZIP role goes to [ZipCode], whose normalized name
    [zipcode] comes before [zcta5] in the alias list. *)
Theorem C8_zipcode_before_zcta5 (df : DataFrame) :
  "ZipCode" ∈ columns df →
  "zcta5" ∈ columns df →
  (∀ c, c ∈ columns df →
     ColumnDetector.normalize_column_name c ≠ "zip"
     ∧ ColumnDetector.normalize_column_name c ≠ "zip code"
     ∧ (ColumnDetector.normalize_column_name c = "zipcode" → c = "ZipCode")) →
  ColumnDetector.detected_get (ColumnDetector.detect_columns df) "Zip"
  = Some "ZipCode".
Proof.
  intros Hzc _ Hothers.
  assert (ColumnDetector.first_match ColumnDetector.zip_patterns
            (ColumnDetector.normalized_cols (columns df)) = Some "ZipCode") as Hfm.
  { unfold ColumnDetector.zip_patterns. cbn [ColumnDetector.first_match].
    rewrite (normalized_cols_None _ "zip") by (intros c Hc; apply (Hothers c Hc)).
    rewrite (normalized_cols_None _ "zip code") by (intros c Hc; apply (Hothers c Hc)).
    destruct (normalized_cols_is_Some _ _ Hzc) as [c Hc].
    change (ColumnDetector.normalize_column_name "ZipCode") with "zipcode" in Hc.
    rewrite Hc. f_equal.
    apply normalized_cols_Some in Hc as [Hin Hn]. by apply Hothers. }
  unfold ColumnDetector.detect_columns, ColumnDetector.roles.
  cbn [omap list_omap fst snd]. rewrite Hfm. reflexivity.
Qed.

Lemma C8_zipcode_before_zcta5_witness :
  ColumnDetector.detected_get
    (ColumnDetector.detect_columns (mkDF ["zcta5"; "County Name"; "ZipCode"] []))
    "Zip"
  = Some "ZipCode".
Proof.
  apply C8_zipcode_before_zcta5.
  - apply (bool_decide_unpack _). vm_compute. exact I.
  - apply (bool_decide_unpack _). vm_compute. exact I.
  - intros c Hc. cbn [columns] in Hc.
    repeat (apply elem_of_cons in Hc as [->|Hc]);
      [| | |by apply elem_of_nil in Hc];
      (split_and!; [by vm_compute|by vm_compute|by vm_compute]).
Defined.

(** ** Chapter names in the boundary join *)

Section NameFacts.
Import Vocabulary.

Lemma same_letter_upper c d :
  same_letter c d = true → Py.upper_char c = Py.upper_char d.
Proof.
  unfold same_letter. intros H.
  apply orb_true_iff in H as [H|H]; [apply orb_true_iff in H as [H|H]|].
  - apply bool_decide_eq_true in H. by subst.
  - apply andb_true_iff in H as [Hl ->%bool_decide_eq_true].
    revert Hl. by destruct c as [[] [] [] [] [] [] [] []]; vm_compute.
  - apply andb_true_iff in H as [Hl ->%bool_decide_eq_true].
    revert Hl. by destruct d as [[] [] [] [] [] [] [] []]; vm_compute.
Qed.

Lemma same_letter_space c d :
  same_letter c d = true → Py.is_space c = Py.is_space d.
Proof.
  unfold same_letter. intros H.
  apply orb_true_iff in H as [H|H]; [apply orb_true_iff in H as [H|H]|].
  - apply bool_decide_eq_true in H. by subst.
  - apply andb_true_iff in H as [Hl ->%bool_decide_eq_true].
    revert Hl. by destruct c as [[] [] [] [] [] [] [] []]; vm_compute.
  - apply andb_true_iff in H as [Hl ->%bool_decide_eq_true].
    revert Hl. by destruct d as [[] [] [] [] [] [] [] []]; vm_compute.
Qed.

Lemma same_but_case_upper s t :
  same_but_case s t = true → Py.upper s = Py.upper t.
Proof.
  revert t. induction s as [|c s IH]; intros [|d t]; simpl; try done.
  intros [Hc Hs]%andb_true_iff. unfold Py.upper in *. simpl.
  by rewrite (same_letter_upper c d Hc), (IH t Hs).
Qed.

Lemma same_but_case_lstrip s t :
  same_but_case s t = true → same_but_case (Py.lstrip s) (Py.lstrip t) = true.
Proof.
  revert t. induction s as [|c s IH]; intros [|d t]; simpl; try done.
  intros [Hc Hs]%andb_true_iff. rewrite (same_letter_space c d Hc).
  destruct (Py.is_space d); [by apply IH|]. simpl. by rewrite Hc, Hs.
Qed.

Lemma same_but_case_rstrip s t :
  same_but_case s t = true → same_but_case (Py.rstrip s) (Py.rstrip t) = true.
Proof.
  revert t. induction s as [|c s IH]; intros [|d t]; simpl; try done.
  intros [Hc Hs]%andb_true_iff. specialize (IH t Hs).
  rewrite (same_letter_space c d Hc).
  destruct (Py.rstrip s) as [|c' s'], (Py.rstrip t) as [|d' t']; try done.
  - destruct (Py.is_space d); [done|]. simpl. by rewrite Hc.
  - simpl in *. by rewrite Hc, IH.
Qed.

Lemma lstrip_spaces w s :
  Py.all_chars Py.is_space w = true → Py.lstrip (w +:+ s) = Py.lstrip s.
Proof.
  induction w as [|c w IH]; [done|]. simpl.
  intros [Hc Hw]%andb_true_iff. rewrite Hc. by apply IH.
Qed.

Lemma rstrip_all_spaces w :
  Py.all_chars Py.is_space w = true → Py.rstrip w = "".
Proof.
  induction w as [|c w IH]; [done|]. simpl.
  intros [Hc Hw]%andb_true_iff. by rewrite (IH Hw), Hc.
Qed.

Lemma rstrip_spaces s w :
  Py.all_chars Py.is_space w = true → Py.rstrip (s +:+ w) = Py.rstrip s.
Proof.
  intros Hw. induction s as [|c s IH]; [by apply rstrip_all_spaces|].
  simpl. by rewrite IH.
Qed.

(** [strip] does away with whitespace put around a text. *)
Lemma strip_padding w1 s w2 :
  Py.all_chars Py.is_space w1 = true → Py.all_chars Py.is_space w2 = true →
  Py.strip (w1 +:+ s +:+ w2) = Py.strip s.
Proof.
  intros H1 H2. unfold Py.strip. rewrite lstrip_spaces by done.
  induction s as [|c s IH].
  - change (Py.rstrip (Py.lstrip w2) = ""). assert (Py.lstrip w2 = "") as ->; [|done].
    clear -H2. induction w2 as [|c w IH]; [done|]. simpl in *.
    apply andb_true_iff in H2 as [-> Hw]. by apply IH.
  - change (String c s +:+ w2) with (String c (s +:+ w2)).
    cbn [Py.lstrip]. destruct (Py.is_space c); [done|].
    change (String c (s +:+ w2)) with (String c s +:+ w2).
    by apply rstrip_spaces.
Qed.

(** Names that differ only in case and padding have one [chapter_match]. *)
Lemma name_variant_chapter_match x y :
  name_variant x y →
  Levels.chapter_match (Str x) = Levels.chapter_match (Str y).
Proof.
  intros (w1 & x' & w2 & w3 & y' & w4 & -> & -> & H1 & H2 & H3 & H4 & Hxy).
  unfold Levels.chapter_match. simpl.
  rewrite !strip_padding by done. unfold Py.strip.
  by apply same_but_case_upper, same_but_case_rstrip, same_but_case_lstrip.
Qed.

Lemma upper_char_same_letter c d :
  Py.upper_char c = Py.upper_char d → same_letter c d = true.
Proof.
  unfold same_letter.
  destruct (Py.is_lower c) eqn:Hc, (Py.is_lower d) eqn:Hd; intros Heq.
  - assert (c = d) as ->; [|by rewrite bool_decide_true].
    unfold Py.upper_char in Heq. rewrite Hc, Hd in Heq.
    apply (f_equal nat_of_ascii) in Heq.
    unfold Py.is_lower, Py.code in *.
    apply andb_true_iff in Hc as [Hc1 Hc2]. apply andb_true_iff in Hd as [Hd1 Hd2].
    apply Nat.leb_le in Hc1, Hc2, Hd1, Hd2.
    rewrite !nat_ascii_embedding in Heq by lia.
    rewrite <- (ascii_nat_embedding c), <- (ascii_nat_embedding d).
    f_equal. lia.
  - assert (d = Py.upper_char c) as Hdc
      by (rewrite Heq; unfold Py.upper_char; by rewrite Hd).
    rewrite (bool_decide_true (d = _)) by done.
    by rewrite andb_true_r, orb_true_r.
  - assert (c = Py.upper_char d) as Hcd
      by (rewrite <- Heq; unfold Py.upper_char; by rewrite Hc).
    rewrite (bool_decide_true (c = Py.upper_char d)) by done.
    by rewrite andb_true_r, orb_true_r.
  - unfold Py.upper_char in Heq. rewrite Hc, Hd in Heq. subst d.
    by rewrite bool_decide_true.
Qed.

Lemma upper_same_but_case s t :
  Py.upper s = Py.upper t → same_but_case s t = true.
Proof.
  unfold Py.upper. revert t.
  induction s as [|c s IH]; intros [|d t]; cbn [Py.map_chars same_but_case];
    try done.
  intros [= Hc Hs]. by rewrite (upper_char_same_letter c d Hc), (IH t Hs).
Qed.

Lemma lstrip_decompose s :
  ∃ w, s = w +:+ Py.lstrip s ∧ Py.all_chars Py.is_space w = true.
Proof.
  induction s as [|c s (w & Hs & Hw)]; [by exists ""|].
  cbn [Py.lstrip]. destruct (Py.is_space c) eqn:Hc.
  - exists (String c w). split.
    + change (String c w +:+ Py.lstrip s) with (String c (w +:+ Py.lstrip s)).
      by rewrite <- Hs.
    + cbn [Py.all_chars]. by rewrite Hc, Hw.
  - by exists "".
Qed.

Lemma rstrip_decompose s :
  ∃ w, s = Py.rstrip s +:+ w ∧ Py.all_chars Py.is_space w = true.
Proof.
  induction s as [|c s (w & Hs & Hw)]; [by exists ""|].
  cbn [Py.rstrip]. destruct (Py.rstrip s) as [|c' r] eqn:Hr.
  - change ("" +:+ w) with w in Hs. subst s.
    destruct (Py.is_space c) eqn:Hc.
    + exists (String c w). split; [done|]. cbn [Py.all_chars]. by rewrite Hc, Hw.
    + by exists w.
  - exists w. split; [|done]. rewrite Hs at 1. done.
Qed.

(** What [strip] takes away is whitespace at the two ends. *)
Lemma strip_decompose s :
  ∃ w1 w2, s = w1 +:+ Py.strip s +:+ w2
           ∧ Py.all_chars Py.is_space w1 = true
           ∧ Py.all_chars Py.is_space w2 = true.
Proof.
  destruct (lstrip_decompose s) as (w1 & Hs & H1).
  destruct (rstrip_decompose (Py.lstrip s)) as (w2 & Hl & H2).
  exists w1, w2. unfold Py.strip. split_and!; [|done|done].
  rewrite <- Hl. done.
Qed.

(** Two names have one [chapter_match] exactly when they differ only in
    case and padding. *)
Lemma chapter_match_name_variant x y :
  Levels.chapter_match (Str x) = Levels.chapter_match (Str y) ↔ name_variant x y.
Proof.
  split; [|apply name_variant_chapter_match].
  unfold Levels.chapter_match. cbn [astype_str]. intros Heq%upper_same_but_case.
  destruct (strip_decompose x) as (w1 & w2 & Hx & H1 & H2).
  destruct (strip_decompose y) as (w3 & w4 & Hy & H3 & H4).
  exists w1, (Py.strip x), w2, w3, (Py.strip y), w4. done.
Qed.

End NameFacts.

(** C10: the join of the chapter boundaries with the chapter-level records
    is on [chapter_match], the name stripped of surrounding whitespace and
    in upper case, on both sides. When the table has two chapter names that
    differ from a boundary's name only in letter case or surrounding
    whitespace, grouping, which compares keys exactly, has made two records
    of them, and the join pairs both with that one boundary. Stripping and
    upper case are all the join forgives: a record whose name differs
    from the boundary's in any other way is not paired with it (for names
    of ASCII characters). *)
Theorem C10_chapter_join_ignores_case_and_padding {G : Type}
    (chapters_gdf : GeoDataFrame G) (name_col : string) (df agg : DataFrame)
    (b : list cell * G) (x y1 y2 : string) :
  Levels.chapter_agg df = ok agg →
  Levels.chapter_name_col chapters_gdf = Some name_col →
  b ∈ grows chapters_gdf →
  at_ (gcolumns chapters_gdf) b.1 name_col = Str x →
  Str y1 ∈ column df "Chapter" →
  Str y2 ∈ column df "Chapter" →
  y1 ≠ y2 →
  Vocabulary.name_variant x y1 →
  Vocabulary.name_variant x y2 →
  (∃ r1 r2,
     r1 ∈ rows agg ∧ r2 ∈ rows agg ∧ r1 ≠ r2
     ∧ at_ (columns agg) r1 "Chapter" = Str y1
     ∧ at_ (columns agg) r2 "Chapter" = Str y2
     ∧ (b, r1) ∈ Levels.chapter_merged chapters_gdf name_col agg
     ∧ (b, r2) ∈ Levels.chapter_merged chapters_gdf name_col agg)
  ∧ (∀ r y,
       r ∈ rows agg →
       at_ (columns agg) r "Chapter" = Str y →
       (Vocabulary.name_variant x y →
        (b, r) ∈ Levels.chapter_merged chapters_gdf name_col agg)
       ∧ (Vocabulary.ascii_text x = true → Vocabulary.ascii_text y = true →
          (b, r) ∈ Levels.chapter_merged chapters_gdf name_col agg →
          Vocabulary.name_variant x y)).
Proof.
  intros Hagg _ Hb Hx Hy1 Hy2 Hne Hv1 Hv2.
  pose proof (groupby_agg_keys _ _ _ _ Hagg) as Hkeys. simpl in Hkeys.
  assert (∀ y, Str y ∈ column df "Chapter" →
            ∃ r, r ∈ rows agg ∧ at_ (columns agg) r "Chapter" = Str y) as Hrec.
  { intros y (t & Ht & Hin)%list_elem_of_fmap.
    assert (Str y ∈ (λ row, at_ (columns agg) row "Chapter") <$> rows agg) as Hk.
    { rewrite Hkeys. apply group_keys_elem. split; [done|]. eauto. }
    apply list_elem_of_fmap in Hk as (r & Hr & Hrin). eauto. }
  assert (∀ r y, r ∈ rows agg → at_ (columns agg) r "Chapter" = Str y →
            ((b, r) ∈ Levels.chapter_merged chapters_gdf name_col agg
             ↔ Vocabulary.name_variant x y)) as Hpair.
  { intros r y Hr Hk. unfold Levels.chapter_merged.
    rewrite inner_join_elem, Hx, Hk, chapter_match_name_variant. naive_solver. }
  split.
  - destruct (Hrec y1 Hy1) as (r1 & Hr1 & Hk1).
    destruct (Hrec y2 Hy2) as (r2 & Hr2 & Hk2).
    exists r1, r2. split_and!; try done.
    + intros ->. rewrite Hk1 in Hk2. by injection Hk2.
    + by apply (Hpair r1 y1).
    + by apply (Hpair r2 y2).
  - intros r y Hr Hk. split.
    + by apply Hpair.
    + intros _ _. by apply Hpair.
Qed.

Lemma C10_chapter_join_ignores_case_and_padding_witness :
  ∃ r1 r2,
    r1 ∈ [[Str " western ma "; Str "Northeast"; Str "Atlantic"; NaN; NaN; Int 15];
          [Str "Western MA"; Str "Northeast"; Str "Atlantic"; NaN; NaN; Int 10]]
    ∧ r2 ∈ [[Str " western ma "; Str "Northeast"; Str "Atlantic"; NaN; NaN; Int 15];
            [Str "Western MA"; Str "Northeast"; Str "Atlantic"; NaN; NaN; Int 10]]
    ∧ r1 ≠ r2.
Proof.
  pose (agg := mkDF ["Chapter"; "Region"; "Division"; "RCODE"; "DCODE"; "2023"]
                 [[Str " western ma "; Str "Northeast"; Str "Atlantic"; NaN; NaN; Int 15];
                  [Str "Western MA"; Str "Northeast"; Str "Atlantic"; NaN; NaN; Int 10]]).
  destruct (C10_chapter_join_ignores_case_and_padding
              Examples.chapter_boundaries "NAME" Examples.chapter_variants_table agg
              ([Str "WESTERN MA"], tt) "WESTERN MA" "Western MA" " western ma ")
    as [(r1 & r2 & H1 & H2 & Hne & _) _].
  - vm_compute. reflexivity.
  - vm_compute. reflexivity.
  - left.
  - reflexivity.
  - apply (bool_decide_unpack _). vm_compute. exact I.
  - apply (bool_decide_unpack _). vm_compute. exact I.
  - discriminate.
  - exists "", "WESTERN MA", "", "", "Western MA", "". by vm_compute.
  - exists "", "WESTERN MA", "", " ", "western ma", " ". by vm_compute.
  - exists r1, r2. split_and!; [exact H1|exact H2|exact Hne].
Defined.

(** ** Table normalization *)

Section StandardizeFacts.
Import ColumnDetector.

Lemma update_str_column_ok d c f d' :
  update_str_column d c f = ok d' →
  columns d' = columns d
  ∧ ∃ i, index_of c (columns d) = Some i
      ∧ rows d' = (λ r, alter (λ v, Str (f (astype_str v))) i r) <$> rows d.
Proof.
  unfold update_str_column. destruct (index_of c (columns d)) as [i|]; [|done].
  case_decide; [|done]. intros [= <-]. simpl. eauto.
Qed.

(** The loop over [required_cols]: labels are only added, the labels of
    the loop are there afterwards, and no row is added or lost. *)
Lemma ensure_columns d cs :
  let d' := foldl ensure_column d cs in
  List.length (rows d') = List.length (rows d)
  ∧ (∀ c, c ∈ columns d → c ∈ columns d')
  ∧ (∀ c, c ∈ cs → c ∈ columns d').
Proof.
  revert d. induction cs as [|col cs IH]; intros d; simpl.
  - split_and!; [done|done|]. by intros c ?%elem_of_nil.
  - destruct (IH (ensure_column d col)) as (Hlen & Hkeep & Hnew).
    assert (∀ c, c ∈ columns d → c ∈ columns (ensure_column d col)) as Hstep.
    { intros c Hc. unfold ensure_column. destruct (has_col d col); [done|]. simpl.
      apply elem_of_app. by left. }
    split_and!.
    + rewrite Hlen. unfold ensure_column. destruct (has_col d col); [done|]. simpl.
      by rewrite length_fmap.
    + intros c Hc. by apply Hkeep, Hstep.
    + intros c [->|Hc]%elem_of_cons; [|by apply Hnew].
      apply Hkeep. unfold ensure_column, has_col.
      case_bool_decide as Hin; [done|]. simpl.
      apply elem_of_app. right. left.
Qed.

Lemma standardize_dataframe_ok df detected df_std :
  standardize_dataframe df detected = ok df_std →
  List.length (rows df_std) = List.length (rows df)
  ∧ ∀ c, c ∈ required_cols → c ∈ columns df_std.
Proof.
  unfold standardize_dataframe.
  set (d0 := rename (rename_map detected) df).
  destruct (ensure_columns d0 required_cols) as (Hlen & _ & Hreq).
  set (d1 := foldl _ d0 required_cols) in *.
  assert (has_col d1 "Zip" = true) as ->
    by (apply bool_decide_eq_true, Hreq; repeat constructor).
  destruct (update_str_column d1 "Zip" _) as [e|d2] eqn:Hzip; [done|]. simpl.
  apply update_str_column_ok in Hzip as (Hc2 & i & _ & Hr2).
  assert (has_col d2 "FIPS" = true) as ->.
  { apply bool_decide_eq_true. rewrite Hc2. apply Hreq.
    apply (bool_decide_unpack _). by vm_compute. }
  intros (Hc3 & j & _ & Hr3)%update_str_column_ok.
  split.
  - by rewrite Hr3, length_fmap, Hr2, length_fmap, Hlen.
  - intros c Hc. rewrite Hc3, Hc2. by apply Hreq.
Qed.

End StandardizeFacts.

(** ** ZIP boundaries are unavailable *)

Section ZipFacts.
Context {G : Type} (simplify : tolerance → G → G).
Import Vocabulary.

Lemma filter_none {A} (P : A → Prop) `{∀ x, Decision (P x)} (l : list A) :
  Forall (λ x, ¬ P x) l → filter P l = [].
Proof.
  induction 1 as [|x l Hx _ IH]; [done|].
  by rewrite filter_cons, decide_False, IH.
Qed.

Lemma find_zip_col_None (g : GeoDataFrame G) :
  Forall (λ c, c ∉ gcolumns g) ZipScript.zip_key_columns →
  ZipScript.find_zip_col g = None.
Proof.
  intros Hno. unfold ZipScript.find_zip_col. by rewrite filter_none.
Qed.

(** With failing sources only, the loop tries every URL, in order, and
    leaves no table with a [ZIP_CODE] column behind. *)
Lemma census_loop_failed world urls st :
  Forall (λ url, fetch_failed (world url)) urls →
  no_zip_code st →
  (ZipScript.census_loop simplify world urls st).2 = urls
  ∧ no_zip_code (ZipScript.census_loop simplify world urls st).1.
Proof.
  intros Hfail. revert st.
  induction Hfail as [|url urls Hurl _ IH]; intros st Hst; [done|].
  cbn [ZipScript.census_loop].
  destruct (world url) as [| | |g|g]; simpl in Hurl.
  - destruct (IH st Hst) as [-> ?]. done.
  - destruct (IH st Hst) as [-> ?]. done.
  - destruct (IH st Hst) as [-> ?]. done.
  - destruct (IH (Some g) Hurl) as [-> ?]. done.
  - rewrite find_zip_col_None by done.
    destruct (IH None I) as [-> ?]. done.
Qed.

Lemma omap_none {A B} (f : A → option B) l :
  Forall (λ x, f x = None) l → omap f l = [].
Proof.
  induction 1 as [|x l Hx _ IH]; [done|]. cbn [omap list_omap].
  rewrite Hx. exact IH.
Qed.

Lemma esri_step_None e : ZipScript.esri_step (G := G) e = None.
Proof. destruct e as [|fs]; [done|]. unfold ZipScript.esri_step. by destruct (omap _ fs). Qed.

Lemma zip_geojson_no_zip_code (st : option (GeoDataFrame G)) df :
  no_zip_code st → ZipScript.zip_geojson st df = data_only_collection df.
Proof.
  destruct st as [g|]; [|done]. simpl. intros Hno.
  by rewrite bool_decide_eq_false_2.
Qed.

Lemma dropna_to_dict_lookup cols row k v :
  dropna_to_dict cols row !! k = Some v →
  notna v = true ∧ (k, v) ∈ zip cols row.
Proof.
  unfold dropna_to_dict. intros Hin%elem_of_list_to_map_2.
  apply elem_of_reverse, list_elem_of_filter in Hin as [? ?]. done.
Qed.

(** Of the pairs with one label, a dictionary built from the reversed
    list holds the last one. *)
Lemma list_to_map_reverse_lookup (l : list (string * cell)) k :
  (list_to_map (reverse l) : gmap string cell) !! k
  = snd <$> last (filter (λ cv, cv.1 = k) l).
Proof.
  induction l as [|[c v] l IH] using rev_ind; [done|].
  rewrite reverse_app, filter_app. cbn [reverse app list_to_map foldr].
  rewrite reverse_singleton. cbn [app list_to_map foldr uncurry].
  rewrite filter_cons, filter_nil. cbn [fst]. destruct (decide (c = k)) as [->|Hne].
  - rewrite lookup_insert_eq, last_snoc. done.
  - rewrite lookup_insert_ne by done. rewrite app_nil_r. exact IH.
Qed.

Lemma dropna_to_dict_last_present cols row k :
  dropna_to_dict cols row !! k = last_present cols row k.
Proof.
  unfold dropna_to_dict, last_present.
  rewrite list_to_map_reverse_lookup, list_filter_filter. done.
Qed.

End ZipFacts.

(** C7, as stated, fails in two ways. The run raises before any source
    is tried when the table cannot be normalized: with the columns [Zip]
    and [zip] the second is renamed onto the first, and rewriting [Zip]
    then meets two columns. And a source may fail and leave boundaries
    behind: when [to_crs] raises on a file that has a [ZIP_CODE] column of
    its own, the table read from it stays in [zips_gdf] and is joined, so
    that features with a geometry are written, and only for the rows that
    match. *)
Lemma C7_run_raises_or_joins :
  ZipScript.run (λ _ g, g)
    (mkDF ["Zip"; "zip"; "2023"] [[Str "01001"; Str "01001"; Int 10]])
    Examples.failing_world ZipScript.EsriError
  = raise AttributeError
  ∧ ZipScript.run (λ _ g, g) Examples.example_table
      (λ _, ZipScript.CrsError (mkGDF ["ZIP_CODE"] [([Str "01001"], tt)]))
      ZipScript.EsriError
    = ok (mkFC [mkFeature
                  (list_to_map [("Zip", Str "01001"); ("FIPS", Str "25013");
                                ("County", Str "Hampden");
                                ("Chapter", Str "Western MA");
                                ("Region", Str "Northeast");
                                ("Division", Str "Atlantic"); ("2023", Int 10)])
                  (Some tt)],
          ZipScript.zip_urls).
Proof. split; by vm_compute. Qed.

(** C7, amended: on a table that can be normalized, when each of the
    three Census candidates fails without leaving a table with a
    [ZIP_CODE] column behind (an exception before a table is read, an
    archive without a shapefile, a [to_crs] exception on a table that has
    no [ZIP_CODE] column, or a table with none of the known key columns),
    the script does not raise, whatever the Esri service answers: it has
    tried the candidates in the order of the list, and it writes a
    collection with one feature per row of the table, in the order of
    the rows, each with a [null] geometry and with exactly the present
    cells of the normalized row as properties. *)
Theorem C7_all_zip_sources_fail {G : Type} (simplify : tolerance → G → G)
    (csv df : DataFrame) (world : string → ZipScript.fetch) (e : ZipScript.esri) :
  ColumnDetector.standardize_dataframe csv (ColumnDetector.detect_columns csv) = ok df →
  Forall (λ url, Vocabulary.fetch_failed (world url)) ZipScript.zip_urls →
  ∃ fc : FeatureCollection G,
    ZipScript.run simplify csv world e = ok (fc, ZipScript.zip_urls)
    ∧ List.length (rows df) = List.length (rows csv)
    ∧ Forall2 (λ row f,
         geometry f = None
         ∧ ∀ k, properties f !! k = Vocabulary.last_present (columns df) row k)
       (rows df) (features fc).
Proof.
  intros Hstd Hfail.
  exists (data_only_collection df).
  destruct (census_loop_failed simplify world ZipScript.zip_urls None Hfail I)
    as [Htried Hleft].
  split_and!.
  - unfold ZipScript.run. rewrite Hstd.
    cbv beta iota zeta delta [bind ok]. rewrite Htried.
    do 2 f_equal. apply zip_geojson_no_zip_code.
    destruct (ZipScript.census_loop simplify world ZipScript.zip_urls None).1;
      [done|]. by rewrite esri_step_None.
  - by destruct (standardize_dataframe_ok _ _ _ Hstd) as [-> _].
  - simpl. apply Forall2_fmap_r, Forall_Forall2_diag, Forall_forall.
    intros row _. split; [done|]. intros k. apply dropna_to_dict_last_present.
Qed.

Lemma C7_all_zip_sources_fail_witness :
  ∃ fc : FeatureCollection unit,
    ZipScript.run (λ _ g, g) Examples.example_table Examples.failing_world
      ZipScript.EsriError = ok (fc, ZipScript.zip_urls)
    ∧ List.length (features fc) = 2%nat.
Proof.
  destruct (C7_all_zip_sources_fail (λ _ g, g) Examples.example_table
              Examples.example_table Examples.failing_world ZipScript.EsriError)
    as (fc & Hrun & _ & HF).
  - vm_compute. reflexivity.
  - unfold ZipScript.zip_urls.
    apply Forall_cons_2; [|apply Forall_cons_2; [|apply Forall_cons_2; [exact I|apply Forall_nil_2]]].
    + change ("ZIP_CODE" ∉ ["ZCTA5CE20"]).
      apply (bool_decide_unpack _). by vm_compute.
    + change (Forall (λ c, c ∉ ["NAME"]) ZipScript.zip_key_columns).
      apply (bool_decide_unpack _). by vm_compute.
  - exists fc. split; [exact Hrun|].
    rewrite <- (Forall2_length _ _ _ HF). reflexivity.
Defined.

(** ** Required columns *)

Section RequiredFacts.
Import ColumnDetector Vocabulary.

Lemma index_of_lookup c cols i :
  index_of c cols = Some i → cols !! i = Some c.
Proof.
  revert i. induction cols as [|x cols IH]; intros i; simpl; [done|].
  destruct (decide (x = c)) as [->|Hne].
  - by intros [= <-].
  - destruct (index_of c cols) as [j|]; [|done]. intros [= <-]. by apply IH.
Qed.

Lemma index_of_app_l c cols more :
  c ∈ cols → index_of c (cols ++ more) = index_of c cols.
Proof.
  induction cols as [|x cols IH]; [by intros ?%elem_of_nil|].
  intros Hin. simpl. destruct (decide (x = c)); [done|].
  apply elem_of_cons in Hin as [->|Hin]; [done|]. by rewrite IH.
Qed.

Lemma index_of_app_new c cols :
  c ∉ cols → index_of c (cols ++ [c]) = Some (List.length cols).
Proof.
  induction cols as [|x cols IH]; intros Hnot; simpl.
  - by rewrite decide_True.
  - apply not_elem_of_cons in Hnot as [Hne Hnot].
    rewrite decide_False by done. by rewrite IH.
Qed.

Lemma at_app_keep c cols more r extra :
  c ∈ cols → List.length r = List.length cols →
  at_ (cols ++ more) (r ++ extra) c = at_ cols r c.
Proof.
  intros Hin Hlen. unfold at_. rewrite index_of_app_l by done.
  destruct (index_of c cols) as [i|] eqn:Hi; [|done].
  apply index_of_lookup, lookup_lt_Some in Hi.
  rewrite lookup_app_l by lia. done.
Qed.

Lemma at_app_new c cols r v :
  c ∉ cols → List.length r = List.length cols →
  at_ (cols ++ [c]) (r ++ [v]) c = v.
Proof.
  intros Hnot Hlen. unfold at_. rewrite index_of_app_new by done.
  rewrite lookup_app_r by lia. by rewrite Hlen, Nat.sub_diag.
Qed.

Lemma ensure_well_formed d col : well_formed d → well_formed (ensure_column d col).
Proof.
  unfold ensure_column, well_formed. destruct (has_col d col); [done|]. simpl.
  intros Hwf. apply Forall_fmap. eapply Forall_impl; [exact Hwf|].
  intros r Hr. simpl. rewrite !List.length_app, Hr. done.
Qed.

Lemma ensure_creates d c :
  well_formed d → c ∉ columns d → none_column (ensure_column d c) c.
Proof.
  intros Hwf Hnot. unfold ensure_column, has_col.
  rewrite bool_decide_eq_false_2 by done. split.
  - simpl. apply elem_of_app. right. left.
  - simpl. apply Forall_fmap. eapply Forall_impl; [exact Hwf|].
    intros r Hr. simpl. by apply at_app_new.
Qed.

Lemma ensure_keeps d c col :
  well_formed d → none_column d c → none_column (ensure_column d col) c.
Proof.
  intros Hwf [Hin Hnone]. unfold ensure_column. destruct (has_col d col); [done|].
  split.
  - simpl. apply elem_of_app. by left.
  - simpl. apply Forall_fmap. unfold well_formed in Hwf.
    rewrite Forall_forall in Hnone, Hwf.
    apply Forall_forall. intros r Hr. simpl.
    rewrite at_app_keep by auto. by apply Hnone.
Qed.

Lemma ensure_other d c col :
  c ≠ col → c ∉ columns d → c ∉ columns (ensure_column d col).
Proof.
  intros Hne Hnot. unfold ensure_column. destruct (has_col d col); [done|]. simpl.
  rewrite elem_of_app, list_elem_of_singleton. by intros [?|?].
Qed.

Lemma ensure_all_keeps cs d c :
  well_formed d → none_column d c → none_column (foldl ensure_column d cs) c.
Proof.
  revert d. induction cs as [|col cs IH]; intros d Hwf Hnone; [done|].
  simpl. apply IH; [by apply ensure_well_formed|by apply ensure_keeps].
Qed.

(** A label of the loop that the frame lacks is, after the loop, a column
    of [None]. *)
Lemma ensure_all_creates cs d c :
  well_formed d → c ∈ cs → c ∉ columns d → none_column (foldl ensure_column d cs) c.
Proof.
  revert d. induction cs as [|col cs IH]; intros d Hwf Hin Hnot;
    [by apply elem_of_nil in Hin|].
  simpl. destruct (decide (c = col)) as [->|Hne].
  - apply ensure_all_keeps; [by apply ensure_well_formed|by apply ensure_creates].
  - apply elem_of_cons in Hin as [?|Hin]; [done|].
    apply IH; [by apply ensure_well_formed|done|by apply ensure_other].
Qed.

(** Rewriting one column leaves a column of [None] under another label as
    it is. *)
Lemma update_str_column_keeps d k f d' c :
  update_str_column d k f = ok d' → c ≠ k → none_column d c → none_column d' c.
Proof.
  intros (Hcols & i & Hi & Hrows)%update_str_column_ok Hne [Hin Hnone].
  unfold none_column. rewrite Hcols, Hrows. split; [done|].
  apply Forall_fmap. eapply Forall_impl; [exact Hnone|].
  intros r Hr. simpl. unfold at_ in *.
  destruct (index_of c (columns d)) as [j|] eqn:Hj; [|done].
  rewrite list_lookup_alter_ne; [done|].
  intros <-. apply index_of_lookup in Hi, Hj. congruence.
Qed.

(** The loop over [required_cols] adds no label but its own. *)
Lemma ensure_all_labels cs d c :
  c ∈ columns (foldl ColumnDetector.ensure_column d cs) ↔ c ∈ columns d ∨ c ∈ cs.
Proof.
  revert d. induction cs as [|col cs IH]; intros d; cbn [foldl].
  - rewrite elem_of_nil. naive_solver.
  - rewrite IH, elem_of_cons. unfold ColumnDetector.ensure_column, has_col.
    case_bool_decide as Hin; cbn [columns add_none_column].
    + naive_solver.
    + rewrite elem_of_app, list_elem_of_singleton. naive_solver.
Qed.

(** The labels of the normalized table: those of the renamed table and
    the six required ones. *)
Lemma standardize_labels df detected df_std c :
  ColumnDetector.standardize_dataframe df detected = ok df_std →
  c ∈ columns df_std ↔
  c ∈ columns (rename (ColumnDetector.rename_map detected) df)
  ∨ c ∈ ColumnDetector.required_cols.
Proof.
  unfold ColumnDetector.standardize_dataframe.
  set (d0 := rename (ColumnDetector.rename_map detected) df).
  set (d1 := foldl ColumnDetector.ensure_column d0 ColumnDetector.required_cols).
  intros Hstd. rewrite <- (ensure_all_labels ColumnDetector.required_cols d0 c).
  fold d1. revert Hstd.
  destruct (has_col d1 "Zip").
  - destruct (update_str_column d1 "Zip" _) as [e|d2] eqn:Hzip; [done|].
    cbn [bind]. apply update_str_column_ok in Hzip as [Hc2 _].
    destruct (has_col d2 "FIPS").
    + intros [Hc3 _]%update_str_column_ok. by rewrite Hc3, Hc2.
    + intros [= <-]. by rewrite Hc2.
  - cbn [bind ok]. destruct (has_col d1 "FIPS").
    + intros [Hc3 _]%update_str_column_ok. by rewrite Hc3.
    + by intros [= <-].
Qed.

End RequiredFacts.

(** C4, as stated, fails: normalization creates the six columns of
    [required_cols] and no others. The seven-column example table comes out
    without [State], [ECODE], [RCODE] and [DCODE], and the county-level
    aggregation of the normalized table raises a [KeyError] for them. *)
Lemma C4_code_columns_not_created :
  ∃ df_std,
    ColumnDetector.standardize_dataframe Examples.example_table
      (ColumnDetector.detect_columns Examples.example_table) = ok df_std
    ∧ has_col df_std "State" = false
    ∧ has_col df_std "ECODE" = false
    ∧ has_col df_std "RCODE" = false
    ∧ has_col df_std "DCODE" = false
    ∧ Levels.county_agg df_std = raise (KeyError ["DCODE"; "ECODE"; "RCODE"; "State"]).
Proof. exists Examples.example_table. by vm_compute. Qed.

(** C4, amended: after normalization each of the six columns [Zip], [FIPS],
    [County], [Chapter], [Region] and [Division] exists, so the key column
    of every aggregation level is there; a [County], [Chapter], [Region] or
    [Division] column that the table lacked has been created and holds
    [None] in every row. The columns [State], [ECODE], [RCODE] and [DCODE]
    are not created: each of them is in the normalized table only when
    it was in the table after renaming. *)
Theorem C4_required_columns_exist (df df_std : DataFrame)
    (detected : list (string * string)) :
  ColumnDetector.standardize_dataframe df detected = ok df_std →
  Vocabulary.well_formed df →
  (∀ c, c ∈ ColumnDetector.required_cols → c ∈ columns df_std)
  ∧ (∀ l, has_col df_std (Levels.level_key l) = true)
  ∧ (∀ c, c ∈ ["County"; "Chapter"; "Region"; "Division"] →
       c ∉ columns (rename (ColumnDetector.rename_map detected) df) →
       Forall (λ r, at_ (columns df_std) r c = PyNone) (rows df_std))
  ∧ (∀ c, c ∈ ["State"; "ECODE"; "RCODE"; "DCODE"] →
       (c ∈ columns df_std ↔
        c ∈ columns (rename (ColumnDetector.rename_map detected) df))).
Proof.
  intros Hstd Hwf.
  destruct (standardize_dataframe_ok _ _ _ Hstd) as [_ Hreq].
  split_and!; [done| | |].
  3: { intros c Hc. rewrite (standardize_labels _ _ _ c Hstd).
       split; [|by left]. intros [?|Hin]; [done|]. exfalso.
       rewrite !elem_of_cons, elem_of_nil in Hc.
       destruct Hc as [->|[->|[->|[->|[]]]]];
         revert Hin; apply (bool_decide_unpack _); by vm_compute. }
  - intros l. apply bool_decide_eq_true, Hreq.
    destruct l; apply (bool_decide_unpack _); by vm_compute.
  - intros c Hc Hnot.
    assert (c ≠ "Zip" ∧ c ≠ "FIPS" ∧ c ∈ ColumnDetector.required_cols) as (HnZ & HnF & Hcreq).
    { rewrite !elem_of_cons, elem_of_nil in Hc.
      destruct Hc as [->|[->|[->|[->|[]]]]];
        (split_and!; [done|done|apply (bool_decide_unpack _); by vm_compute]). }
    revert Hstd. unfold ColumnDetector.standardize_dataframe.
    set (d0 := rename (ColumnDetector.rename_map detected) df) in *.
    assert (Vocabulary.well_formed d0) as Hwf0.
    { unfold Vocabulary.well_formed, d0. simpl. by rewrite length_fmap. }
    pose proof (ensure_all_creates ColumnDetector.required_cols d0 c Hwf0 Hcreq Hnot)
      as Hnone.
    set (d1 := foldl ColumnDetector.ensure_column d0 ColumnDetector.required_cols) in *.
    destruct (has_col d1 "Zip").
    + destruct (update_str_column d1 "Zip" _) as [e|d2] eqn:Hzip; [done|]. simpl.
      pose proof (update_str_column_keeps _ _ _ _ c Hzip HnZ Hnone) as Hnone2.
      destruct (has_col d2 "FIPS").
      * intros Hfips.
        by destruct (update_str_column_keeps _ _ _ _ c Hfips HnF Hnone2).
      * intros [= <-]. by destruct Hnone2.
    + simpl. destruct (has_col d1 "FIPS").
      * intros Hfips.
        by destruct (update_str_column_keeps _ _ _ _ c Hfips HnF Hnone).
      * intros [= <-]. by destruct Hnone.
Qed.

Lemma C4_required_columns_exist_witness :
  has_col
    (mkDF ["Zip"; "x"; "FIPS"; "County"; "Chapter"; "Region"; "Division"]
          [[Str "01001"; NaN; Str "0None"; PyNone; PyNone; PyNone; PyNone]])
    (Levels.level_key Levels.Chapter) = true
  ∧ Forall (λ r, at_ ["Zip"; "x"; "FIPS"; "County"; "Chapter"; "Region"; "Division"]
                   r "Chapter" = PyNone)
      [[Str "01001"; NaN; Str "0None"; PyNone; PyNone; PyNone; PyNone]].
Proof.
  destruct (C4_required_columns_exist
              (mkDF ["zip_code"; "x"] [[Int 1001; NaN]])
              (mkDF ["Zip"; "x"; "FIPS"; "County"; "Chapter"; "Region"; "Division"]
                    [[Str "01001"; NaN; Str "0None"; PyNone; PyNone; PyNone; PyNone]])
              (ColumnDetector.detect_columns (mkDF ["zip_code"; "x"] [[Int 1001; NaN]])))
    as (_ & Hkey & Hnone & _).
  - vm_compute. reflexivity.
  - repeat constructor.
  - split; [exact (Hkey Levels.Chapter)|].
    apply (Hnone "Chapter").
    + apply (bool_decide_unpack _). by vm_compute.
    + apply (bool_decide_unpack _). by vm_compute.
Defined.

(* ===================================================================== *)
(** * Further properties of the scripts *)
(* ===================================================================== *)

(** ** Column names and detection *)

Section DetectMore.
Import ColumnDetector Notions.

Lemma all_chars_map p f s :
  Py.all_chars p (Py.map_chars f s) = Py.all_chars (λ c, p (f c)) s.
Proof. induction s as [|c s IH]; [done|]. simpl. by rewrite IH. Qed.

Lemma all_chars_impl (p q : ascii → bool) s :
  (∀ c, p c = true → q c = true) →
  Py.all_chars p s = true → Py.all_chars q s = true.
Proof.
  intros Hpq. induction s as [|c s IH]; [done|]. simpl.
  intros [Hc Hs]%andb_true_iff. by rewrite (Hpq c Hc), IH.
Qed.

(** Replacing a one-character text is a character-wise substitution. *)
Lemma replace_char a b s :
  Py.replace (String a "") (String b "") s
  = Py.map_chars (λ c, if bool_decide (a = c) then b else c) s.
Proof.
  unfold Py.replace. induction s as [|c s IH]; [done|].
  change (Py.replace_go (String a "") (String b "") 0 (String c s))
    with (if bool_decide (a = c) && true
          then String b (Py.replace_go (String a "") (String b "") 0 s)
          else String c (Py.replace_go (String a "") (String b "") 0 s)).
  rewrite IH, andb_true_r. cbn [Py.map_chars]. by case_bool_decide.
Qed.

Lemma normalized_char_plain c :
  plain_char
    ((λ c, if bool_decide ("-"%char = c) then " "%char else c)
       ((λ c, if bool_decide ("_"%char = c) then " "%char else c)
          (Py.lower_char c))) = true.
Proof. by destruct c as [[] [] [] [] [] [] [] []]; vm_compute. Qed.

End DetectMore.

(** X1: a normalized column name holds no underscore, no hyphen and no
    ASCII capital letter, whatever the label was. *)
Theorem normalize_column_name_plain (col_name : string) :
  Py.all_chars Notions.plain_char (ColumnDetector.normalize_column_name col_name)
  = true.
Proof.
  unfold ColumnDetector.normalize_column_name.
  rewrite !replace_char. unfold Py.lower. rewrite !all_chars_map.
  generalize (Py.strip col_name). intros s.
  induction s as [|c s IH]; [done|]. simpl.
  by rewrite normalized_char_plain, IH.
Qed.

(** X2: an alias spelled with an underscore, a hyphen or a capital letter
    can never match (eleven of the listed aliases have an underscore):
    every loop of [detect_columns] finds what it would find with these
    aliases struck from its list. *)
Theorem unmatchable_aliases_are_dead (df : DataFrame) (patterns : list string) :
  ColumnDetector.first_match patterns (ColumnDetector.normalized_cols (columns df))
  = ColumnDetector.first_match
      (filter (λ p, Py.all_chars Notions.plain_char p = true) patterns)
      (ColumnDetector.normalized_cols (columns df)).
Proof.
  induction patterns as [|p ps IH]; [done|].
  rewrite filter_cons. destruct (decide _) as [Hp|Hp]; simpl.
  - by rewrite IH.
  - destruct (ColumnDetector.normalized_cols (columns df) !! p) as [c|] eqn:Hc;
      [|exact IH].
    apply normalized_cols_Some in Hc as [_ <-].
    by rewrite normalize_column_name_plain in Hp.
Qed.

Section DetectRoles.
Import ColumnDetector.

Lemma first_match_Some pats (nc : gmap string string) col :
  first_match pats nc = Some col → ∃ p, p ∈ pats ∧ nc !! p = Some col.
Proof.
  induction pats as [|p ps IH]; [done|]. simpl.
  destruct (nc !! p) as [c|] eqn:Hp.
  - intros [= <-]. exists p. split; [left|done].
  - intros (q & Hq & Hnc)%IH. exists q. split; [by right|done].
Qed.

Lemma first_match_is_Some pats (nc : gmap string string) :
  is_Some (first_match pats nc) ↔ ∃ p, p ∈ pats ∧ is_Some (nc !! p).
Proof.
  induction pats as [|p ps IH]; simpl.
  - split; [by intros [? ?]|]. by intros (p & ?%elem_of_nil & _).
  - destruct (nc !! p) as [c|] eqn:Hp.
    + split; [|by eexists]. intros _. exists p. rewrite Hp. split; [left|by eexists].
    + rewrite IH. split.
      * intros (q & Hq & Hnc). exists q. split; [by right|done].
      * intros (q & [->|Hq]%elem_of_cons & Hnc); [|eauto].
        rewrite Hp in Hnc. by destruct Hnc.
Qed.

(** What [detected] holds for a role is what the loop of that role found. *)
Lemma detected_get_omap (nc : gmap string string) rs role pats :
  NoDup (rs.*1) → (role, pats) ∈ rs →
  detected_get (omap (λ rp, (λ col, (rp.1, col)) <$> first_match rp.2 nc) rs) role
  = first_match pats nc.
Proof.
  unfold detected_get.
  induction rs as [|[r0 p0] rs IH]; [by intros _ ?%elem_of_nil|].
  intros [Hr0 Hnd]%NoDup_cons Hin. cbn [omap list_omap fst snd].
  destruct (decide (r0 = role)) as [->|Hne].
  - assert (pats = p0) as ->.
    { apply elem_of_cons in Hin as [[= ->]|Hin]; [done|].
      destruct Hr0. apply list_elem_of_fmap. by exists (role, pats). }
    destruct (first_match p0 nc) as [col|] eqn:Hfm; simpl.
    + by rewrite decide_True.
    + assert (list_find (λ kv : string * string, kv.1 = role)
                (omap (λ rp : string * list string,
                         (λ col, (rp.1, col)) <$> first_match rp.2 nc) rs) = None) as ->;
        [|done].
      apply list_find_None, Forall_forall. intros [k v] Hkv Hk. simpl in Hk. subst k.
      apply list_elem_of_omap in Hkv as ([r1 p1] & Hrp & Hsome). simpl in Hsome.
      destruct (first_match p1 nc); [|done]. injection Hsome as -> _.
      destruct Hr0. apply list_elem_of_fmap. by exists (role, p1).
  - apply elem_of_cons in Hin as [[= -> ->]|Hin]; [done|].
    destruct (first_match p0 nc) as [col|]; simpl.
    + rewrite decide_False by done. rewrite <- (IH Hnd Hin).
      by destruct (list_find _ _) as [[i [k v]]|].
    + by apply IH.
Qed.

Lemma roles_NoDup : NoDup (roles.*1).
Proof. apply (bool_decide_unpack _). by vm_compute. Qed.

End DetectRoles.

(** X3: a role is in the result of [detect_columns] exactly when some
    column of the table normalizes to one of the role's aliases, and the
    column it is given is then a column of the table whose normalized name
    is one of these aliases. A role without a matching column is left out;
    nothing is raised. *)
Theorem detect_role_present_iff (df : DataFrame) (role : string)
    (patterns : list string) :
  (role, patterns) ∈ ColumnDetector.roles →
  (is_Some (ColumnDetector.detected_get (ColumnDetector.detect_columns df) role)
   ↔ ∃ col, col ∈ columns df
        ∧ ColumnDetector.normalize_column_name col ∈ patterns)
  ∧ (∀ col,
       ColumnDetector.detected_get (ColumnDetector.detect_columns df) role = Some col →
       col ∈ columns df ∧ ColumnDetector.normalize_column_name col ∈ patterns).
Proof.
  intros Hrole. unfold ColumnDetector.detect_columns.
  rewrite (detected_get_omap _ _ role patterns roles_NoDup Hrole). split.
  - rewrite first_match_is_Some. split.
    + intros (p & Hp & [col Hcol]).
      apply normalized_cols_Some in Hcol as [Hin <-]. eauto.
    + intros (col & Hin & Hp). eexists. split; [exact Hp|].
      by apply normalized_cols_is_Some.
  - intros col (p & Hp & Hcol)%first_match_Some.
    apply normalized_cols_Some in Hcol as [Hin <-]. done.
Qed.

Lemma detect_role_present_iff_witness :
  is_Some (ColumnDetector.detected_get
             (ColumnDetector.detect_columns (mkDF ["FIPS Code"; "x"] [])) "FIPS")
  ↔ ∃ col, col ∈ ["FIPS Code"; "x"]
      ∧ ColumnDetector.normalize_column_name col ∈ ColumnDetector.fips_patterns.
Proof.
  refine (proj1 (detect_role_present_iff (mkDF ["FIPS Code"; "x"] []) "FIPS"
                   ColumnDetector.fips_patterns _)).
  apply (bool_decide_unpack _). by vm_compute.
Defined.

Section DetectInjective.
Import ColumnDetector.

(** No alias stands in the lists of two roles. *)
Lemma roles_disjoint :
  Forall (λ rp1 : string * list string,
            Forall (λ rp2 : string * list string,
                      rp1.1 = rp2.1 ∨ Forall (λ q, q ∉ rp2.2) rp1.2) roles) roles.
Proof. apply (bool_decide_unpack _). by vm_compute. Qed.

Lemma roles_alias_owner r1 p1 r2 p2 q :
  (r1, p1) ∈ roles → (r2, p2) ∈ roles → q ∈ p1 → q ∈ p2 → r1 = r2.
Proof.
  intros H1 H2 Hq1 Hq2. pose proof roles_disjoint as Hd.
  rewrite Forall_forall in Hd. specialize (Hd _ H1).
  rewrite Forall_forall in Hd. destruct (Hd _ H2) as [?|Hno]; [done|].
  rewrite Forall_forall in Hno. by destruct (Hno q Hq1).
Qed.

Lemma detected_items cols (rs : list (string * list string)) (r col : string) :
  (r, col) ∈ omap (λ rp : string * list string,
                     (λ col, (rp.1, col))
                     <$> first_match rp.2 (normalized_cols cols)) rs →
  ∃ pats, (r, pats) ∈ rs ∧ normalize_column_name col ∈ pats.
Proof.
  intros ([r1 p1] & Hrp & Hsome)%list_elem_of_omap. simpl in Hsome.
  destruct (first_match p1 _) as [c|] eqn:Hfm; [|done].
  injection Hsome as -> ->.
  apply first_match_Some in Hfm as (q & Hq & [_ <-]%normalized_cols_Some).
  eauto.
Qed.

Lemma detected_NoDup cols (rs : list (string * list string)) :
  NoDup (rs.*1) →
  (∀ r1 p1 r2 p2 q, (r1, p1) ∈ rs → (r2, p2) ∈ rs → q ∈ p1 → q ∈ p2 → r1 = r2) →
  let detected := omap (λ rp : string * list string,
                          (λ col, (rp.1, col))
                          <$> first_match rp.2 (normalized_cols cols)) rs in
  NoDup (detected.*1) ∧ NoDup (detected.*2).
Proof.
  induction rs as [|[r0 p0] rs IH]; intros Hnd Hdisj; [split; constructor|].
  apply NoDup_cons in Hnd as [Hr0 Hnd].
  destruct IH as [IH1 IH2]; [done| |].
  { intros r1 p1 r2 p2 q H1 H2. apply Hdisj; by right. }
  cbn [omap list_omap fst snd].
  destruct (first_match p0 (normalized_cols cols)) as [col|] eqn:Hfm; [|done].
  cbn [fmap option_fmap option_map list_fmap fst snd]. split.
  - apply NoDup_cons. split; [|done].
    intros ([r c] & Hk & Hin)%list_elem_of_fmap. simpl in Hk. subst r.
    apply detected_items in Hin as (pats & Hin & _).
    destruct Hr0. apply list_elem_of_fmap. by exists (r0, pats).
  - apply NoDup_cons. split; [|done].
    intros ([r c] & Hv & Hin)%list_elem_of_fmap. simpl in Hv. subst c.
    apply detected_items in Hin as (pats & Hin & Hq).
    apply first_match_Some in Hfm as (q & Hq0 & [_ <-]%normalized_cols_Some).
    assert (r0 = r) as <-.
    { apply (Hdisj r0 p0 r pats (normalize_column_name col));
        [left|by right|done|done]. }
    destruct Hr0. apply list_elem_of_fmap. by exists (r0, pats).
Qed.

Lemma normalized_cols_foldl_other (m : gmap string string) cols p :
  (∀ x, x ∈ cols → normalize_column_name x ≠ p) →
  foldl (λ m col, <[normalize_column_name col := col]> m) m cols !! p = m !! p.
Proof.
  revert m. induction cols as [|x cols IH]; intros m Hno; [done|]. simpl.
  rewrite IH by (intros; apply Hno; by right).
  apply lookup_insert_ne, Hno. left.
Qed.

End DetectInjective.

(** X4: the result of [detect_columns] gives each role at most one column
    and each column at most one role. *)
Theorem detect_columns_one_to_one (df : DataFrame) :
  NoDup ((ColumnDetector.detect_columns df).*1)
  ∧ NoDup ((ColumnDetector.detect_columns df).*2).
Proof.
  apply detected_NoDup; [apply roles_NoDup|apply roles_alias_owner].
Qed.

(** X5: of several columns whose names normalize to the first alias of a
    role, the one that stands last in the table is detected, whatever
    stands before it. *)
Theorem last_spelling_wins (role p : string) (ps before after : list string)
    (c : string) (rws : list (list cell)) :
  (role, p :: ps) ∈ ColumnDetector.roles →
  ColumnDetector.normalize_column_name c = p →
  (∀ x, x ∈ after → ColumnDetector.normalize_column_name x ≠ p) →
  ColumnDetector.detected_get
    (ColumnDetector.detect_columns (mkDF (before ++ c :: after) rws)) role
  = Some c.
Proof.
  intros Hrole Hc Hafter. unfold ColumnDetector.detect_columns.
  rewrite (detected_get_omap _ _ role (p :: ps) roles_NoDup Hrole).
  cbn [columns ColumnDetector.first_match].
  unfold ColumnDetector.normalized_cols. rewrite foldl_app. cbn [foldl].
  rewrite normalized_cols_foldl_other by done.
  by rewrite Hc, lookup_insert_eq.
Qed.

Lemma last_spelling_wins_witness :
  ColumnDetector.detected_get
    (ColumnDetector.detect_columns (mkDF (["Zip"] ++ "ZIP" :: ["County"]) [])) "Zip"
  = Some "ZIP".
Proof.
  apply (last_spelling_wins "Zip" "zip"
           ["zip code"; "zipcode"; "zcta"; "zcta5"; "postal code"; "postalcode"]).
  - apply (bool_decide_unpack _). by vm_compute.
  - reflexivity.
  - intros x Hx. apply list_elem_of_singleton in Hx as ->. by vm_compute.
Defined.

(** ** Rewriting the identifier columns *)

Section RewriteFacts.
Import ColumnDetector Vocabulary Notions.

Lemma occurrences_app c l l' :
  occurrences c (l ++ l') = (occurrences c l + occurrences c l')%nat.
Proof. unfold occurrences. by rewrite filter_app, List.length_app. Qed.

Lemma occurrences_zero c cols : occurrences c cols = 0%nat ↔ c ∉ cols.
Proof.
  unfold occurrences. induction cols as [|x cols IH].
  - split; [intros _; apply not_elem_of_nil|done].
  - rewrite filter_cons, not_elem_of_cons.
    destruct (decide (x = c)) as [->|Hne]; simpl.
    + split; [done|]. by intros [? _].
    + rewrite IH. split; [done|]. by intros [_ ?].
Qed.

Lemma index_of_None c cols : c ∉ cols → index_of c cols = None.
Proof.
  induction cols as [|x cols IH]; [done|].
  intros [Hne Hnot]%not_elem_of_cons. simpl.
  rewrite decide_False by done. by rewrite IH.
Qed.

(** The three outcomes of rewriting a column by label: the label is
    missing, it is there once, it is there more than once. *)
Lemma update_str_column_cases d c f :
  (occurrences c (columns d) = 0%nat → update_str_column d c f = raise (KeyError [c]))
  ∧ (occurrences c (columns d) = 1%nat →
       ∃ i, index_of c (columns d) = Some i
         ∧ update_str_column d c f
           = ok (mkDF (columns d)
                   ((λ r, alter (λ v, Str (f (astype_str v))) i r) <$> rows d)))
  ∧ ((2 ≤ occurrences c (columns d))%nat → update_str_column d c f = raise AttributeError).
Proof.
  unfold update_str_column. fold (occurrences c (columns d)).
  destruct (index_of c (columns d)) as [i|] eqn:Hi.
  - assert (occurrences c (columns d) ≠ 0%nat) as Hpos.
    { rewrite occurrences_zero. intros Hnot.
      by rewrite index_of_None in Hi. }
    split_and!; [done| |].
    + intros ->. exists i. by rewrite decide_True.
    + intros Hocc. rewrite decide_False by lia. done.
  - assert (occurrences c (columns d) = 0%nat) as ->.
    { apply occurrences_zero. intros Hin.
      destruct (index_of_is_Some _ _ Hin) as [? ?]. congruence. }
    split_and!; [done|done|lia].
Qed.

Lemma update_str_column_well_formed d k f d' :
  update_str_column d k f = ok d' → well_formed d → well_formed d'.
Proof.
  intros (Hcols & i & _ & Hrows)%update_str_column_ok Hwf.
  unfold well_formed. rewrite Hcols, Hrows. apply Forall_fmap.
  eapply Forall_impl; [exact Hwf|]. intros r Hr. simpl. by rewrite length_alter.
Qed.

(** Rewriting one column leaves the cells of every other column alone. *)
Lemma update_str_column_other d k f d' c :
  update_str_column d k f = ok d' → c ≠ k → column d' c = column d c.
Proof.
  intros (Hcols & i & Hi & Hrows)%update_str_column_ok Hne.
  unfold column. rewrite Hcols, Hrows, <- list_fmap_compose.
  apply list_fmap_ext. intros _ r _. simpl. unfold at_.
  destruct (index_of c (columns d)) as [j|] eqn:Hj; [|done].
  rewrite list_lookup_alter_ne; [done|].
  intros <-. apply index_of_lookup in Hi, Hj. congruence.
Qed.

(** In a well-formed table the rewritten column holds, row by row, the
    text the rule makes of the old cell. *)
Lemma update_str_column_self d k f d' :
  update_str_column d k f = ok d' → well_formed d →
  column d' k = (λ v, Str (f (astype_str v))) <$> column d k.
Proof.
  intros (Hcols & i & Hi & Hrows)%update_str_column_ok Hwf.
  unfold column. rewrite Hcols, Hrows, <- !list_fmap_compose.
  apply Forall_fmap_ext. eapply Forall_impl; [exact Hwf|].
  intros r Hr. simpl in Hr. simpl. unfold at_. rewrite Hi, list_lookup_alter.
  apply index_of_lookup, lookup_lt_Some in Hi.
  destruct (lookup_lt_is_Some_2 r i) as [v Hv]; [lia|].
  rewrite decide_True by done. by rewrite Hv.
Qed.

Lemma ensure_column_other d col c :
  well_formed d → c ∈ columns d → column (ensure_column d col) c = column d c.
Proof.
  intros Hwf Hin. unfold ensure_column. destruct (has_col d col); [done|].
  unfold column. simpl. rewrite <- list_fmap_compose.
  apply Forall_fmap_ext. eapply Forall_impl; [exact Hwf|].
  intros r Hr. simpl. by apply at_app_keep.
Qed.

Lemma ensure_all_other cs d c :
  well_formed d → c ∈ columns d →
  column (foldl ensure_column d cs) c = column d c
  ∧ well_formed (foldl ensure_column d cs).
Proof.
  revert d. induction cs as [|col cs IH]; intros d Hwf Hin; [done|]. simpl.
  destruct (IH (ensure_column d col)) as [-> ?].
  - by apply ensure_well_formed.
  - unfold ensure_column. destruct (has_col d col); [done|]. simpl.
    apply elem_of_app. by left.
  - split; [|done]. by apply ensure_column_other.
Qed.

Lemma ensure_all_well_formed cs d :
  well_formed d → well_formed (foldl ensure_column d cs).
Proof.
  revert d. induction cs as [|col cs IH]; intros d Hwf; [done|]. simpl.
  by apply IH, ensure_well_formed.
Qed.

Lemma occurrences_ensure d col c :
  occurrences c (columns (ensure_column d col))
  = if decide (c = col) then (1 `max` occurrences c (columns d))%nat
    else occurrences c (columns d).
Proof.
  unfold ensure_column, has_col. case_bool_decide as Hin.
  - destruct (decide (c = col)) as [->|]; [|done].
    assert (occurrences col (columns d) ≠ 0%nat) by (by rewrite occurrences_zero; intros ?).
    lia.
  - simpl. rewrite occurrences_app. unfold occurrences at 2.
    rewrite filter_cons, filter_nil.
    destruct (decide (c = col)) as [->|Hne].
    + rewrite decide_True by done.
      apply occurrences_zero in Hin. rewrite Hin. done.
    + rewrite decide_False by done. simpl. lia.
Qed.

Lemma occurrences_ensure_all cs d c :
  occurrences c (columns (foldl ensure_column d cs))
  = if decide (c ∈ cs) then (1 `max` occurrences c (columns d))%nat
    else occurrences c (columns d).
Proof.
  revert d. induction cs as [|col cs IH]; intros d; cbn [foldl].
  - by destruct (decide (c ∈ [])) as [?%elem_of_nil|].
  - rewrite IH, occurrences_ensure.
    destruct (decide (c = col)) as [->|Hne].
    + rewrite (decide_True (P := col ∈ col :: cs)) by left.
      destruct (decide (col ∈ cs)); lia.
    + destruct (decide (c ∈ cs)) as [Hin|Hnot].
      * rewrite decide_True by (by right). done.
      * rewrite decide_False; [done|]. by intros [?|?]%elem_of_cons.
Qed.

Lemma well_formed_rename m df : well_formed df → well_formed (rename m df).
Proof. unfold well_formed. simpl. by rewrite length_fmap. Qed.

Lemma padded_normalize_zip v : padded_text (Str (Ident.normalize_zip_str (astype_str v))).
Proof.
  eexists. split; [done|]. unfold Ident.normalize_zip_str.
  rewrite zfill_length. lia.
Qed.

Lemma padded_normalize_fips v : padded_text (Str (Ident.normalize_fips_str (astype_str v))).
Proof.
  eexists. split; [done|]. unfold Ident.normalize_fips_str.
  rewrite zfill_length. lia.
Qed.

End RewriteFacts.

(** X6: [standardize_dataframe] raises in one case only: when, after the
    renaming, the label [Zip] or the label [FIPS] stands more than once
    among the columns (a column was renamed onto an existing one); it then
    raises an [AttributeError]. In every other case it returns a table. *)
Theorem standardize_raises_only_on_repeated_identifier (df : DataFrame)
    (detected : list (string * string)) :
  let renamed := columns (rename (ColumnDetector.rename_map detected) df) in
  ((Notions.occurrences "Zip" renamed ≤ 1)%nat
   ∧ (Notions.occurrences "FIPS" renamed ≤ 1)%nat →
   ∃ df_std, ColumnDetector.standardize_dataframe df detected = ok df_std)
  ∧ ((2 ≤ Notions.occurrences "Zip" renamed)%nat
     ∨ (2 ≤ Notions.occurrences "FIPS" renamed)%nat →
     ColumnDetector.standardize_dataframe df detected = raise AttributeError).
Proof.
  intros renamed. unfold ColumnDetector.standardize_dataframe.
  set (d0 := rename (ColumnDetector.rename_map detected) df) in *.
  set (d1 := foldl ColumnDetector.ensure_column d0 ColumnDetector.required_cols).
  assert (∀ c, c ∈ ColumnDetector.required_cols →
            Notions.occurrences c (columns d1)
            = (1 `max` Notions.occurrences c renamed)%nat) as Hocc.
  { intros c Hc. unfold d1. rewrite occurrences_ensure_all. by rewrite decide_True. }
  assert ("Zip" ∈ ColumnDetector.required_cols) as HZ
    by (apply (bool_decide_unpack _); by vm_compute).
  assert ("FIPS" ∈ ColumnDetector.required_cols) as HF
    by (apply (bool_decide_unpack _); by vm_compute).
  pose proof (Hocc _ HZ) as HoZ. pose proof (Hocc _ HF) as HoF.
  assert (has_col d1 "Zip" = true) as ->.
  { apply bool_decide_eq_true. destruct (decide ("Zip" ∈ columns d1)) as [|Hn]; [done|].
    apply occurrences_zero in Hn. lia. }
  destruct (update_str_column_cases d1 "Zip" Ident.normalize_zip_str)
    as (_ & Hone & Hmany).
  split.
  - intros [Hz Hf]. destruct Hone as (i & _ & ->); [lia|]. simpl.
    set (d2 := mkDF _ _).
    assert (has_col d2 "FIPS" = true) as ->.
    { apply bool_decide_eq_true. simpl.
      destruct (decide ("FIPS" ∈ columns d1)) as [|Hn]; [done|].
      apply occurrences_zero in Hn. lia. }
    destruct (update_str_column_cases d2 "FIPS" Ident.normalize_fips_str)
      as (_ & (j & _ & ->) & _); [change (columns d2) with (columns d1); lia|].
    by eexists.
  - intros [Hz|Hf].
    + rewrite Hmany by lia. done.
    + destruct (decide (Notions.occurrences "Zip" renamed ≤ 1)%nat) as [Hz|Hz].
      * destruct Hone as (i & _ & ->); [lia|]. simpl.
        set (d2 := mkDF _ _).
        assert (has_col d2 "FIPS" = true) as ->.
        { apply bool_decide_eq_true. simpl.
          destruct (decide ("FIPS" ∈ columns d1)) as [|Hn]; [done|].
          apply occurrences_zero in Hn. lia. }
        destruct (update_str_column_cases d2 "FIPS" Ident.normalize_fips_str)
          as (_ & _ & ->); [done|change (columns d2) with (columns d1); lia].
      * rewrite Hmany by lia. done.
Qed.

Lemma standardize_raises_only_on_repeated_identifier_witness :
  ColumnDetector.standardize_dataframe (mkDF ["Zip"; "zip"] [[Str "1"; Int 2]])
    [("Zip", "zip")] = raise AttributeError.
Proof.
  apply (standardize_raises_only_on_repeated_identifier
           (mkDF ["Zip"; "zip"] [[Str "1"; Int 2]]) [("Zip", "zip")]).
  left. vm_compute. lia.
Defined.

(** X7: in the table [standardize_dataframe] returns for a well-formed
    table, every [Zip] and every [FIPS] cell is a text of at least five
    characters (never an absent value: an absent cell has become the
    text ["00nan"] or ["0None"]), every other column of the renamed table
    has kept its cells, and no row was added or lost. *)
Theorem standardize_keeps_other_columns (df df_std : DataFrame)
    (detected : list (string * string)) :
  ColumnDetector.standardize_dataframe df detected = ok df_std →
  Vocabulary.well_formed df →
  Forall Notions.padded_text (column df_std "Zip")
  ∧ Forall Notions.padded_text (column df_std "FIPS")
  ∧ (∀ c, c ∈ columns (rename (ColumnDetector.rename_map detected) df) →
       c ≠ "Zip" → c ≠ "FIPS" →
       column df_std c = column (rename (ColumnDetector.rename_map detected) df) c)
  ∧ List.length (rows df_std) = List.length (rows df).
Proof.
  intros Hstd Hwf.
  destruct (standardize_dataframe_ok _ _ _ Hstd) as [Hlen _].
  revert Hstd. unfold ColumnDetector.standardize_dataframe.
  set (d0 := rename (ColumnDetector.rename_map detected) df) in *.
  pose proof (well_formed_rename (ColumnDetector.rename_map detected) df Hwf) as Hwf0.
  fold d0 in Hwf0.
  pose proof (ensure_all_well_formed ColumnDetector.required_cols d0 Hwf0) as Hwf1.
  set (d1 := foldl ColumnDetector.ensure_column d0 ColumnDetector.required_cols) in *.
  destruct (ensure_columns d0 ColumnDetector.required_cols) as (_ & _ & Hreq).
  fold d1 in Hreq.
  assert (has_col d1 "Zip" = true) as ->
    by (apply bool_decide_eq_true, Hreq, (bool_decide_unpack _); by vm_compute).
  destruct (update_str_column d1 "Zip" _) as [e|d2] eqn:Hzip; [done|]. simpl.
  pose proof (update_str_column_well_formed _ _ _ _ Hzip Hwf1) as Hwf2.
  assert (has_col d2 "FIPS" = true) as ->.
  { apply bool_decide_eq_true.
    destruct (update_str_column_ok _ _ _ _ Hzip) as [-> _].
    apply Hreq, (bool_decide_unpack _). by vm_compute. }
  intros Hfips. split_and!; [| | |done].
  - rewrite (update_str_column_other _ _ _ _ "Zip" Hfips) by done.
    rewrite (update_str_column_self _ _ _ _ Hzip Hwf1).
    apply Forall_fmap, Forall_forall. intros v _. apply padded_normalize_zip.
  - rewrite (update_str_column_self _ _ _ _ Hfips Hwf2).
    apply Forall_fmap, Forall_forall. intros v _. apply padded_normalize_fips.
  - intros c Hc HnZ HnF.
    rewrite (update_str_column_other _ _ _ _ c Hfips) by done.
    rewrite (update_str_column_other _ _ _ _ c Hzip) by done.
    by apply ensure_all_other.
Qed.

Lemma standardize_keeps_other_columns_witness :
  Forall Notions.padded_text
    (column (mkDF ["Zip"; "x"; "FIPS"; "County"; "Chapter"; "Region"; "Division"]
                  [[Str "01001"; NaN; Str "0None"; PyNone; PyNone; PyNone; PyNone]])
            "FIPS").
Proof.
  refine (proj1 (proj2 (standardize_keeps_other_columns
            (mkDF ["zip_code"; "x"] [[Int 1001; NaN]]) _
            (ColumnDetector.detect_columns (mkDF ["zip_code"; "x"] [[Int 1001; NaN]]))
            _ _))).
  - vm_compute. reflexivity.
  - repeat constructor.
Defined.

Lemma zfill_long w s : (w ≤ String.length s)%nat → Py.zfill w s = s.
Proof.
  intros Hle. unfold Py.zfill. apply Nat.leb_le in Hle. by rewrite Hle.
Qed.

(** X8: normalizing twice. The FIPS rule applied to its own result changes
    nothing, and both rules leave a text of five or more characters as it
    is (for the Zip rule: one that does not contain [".0"]), so a value
    that is already five digits is a fixed point. The Zip rule as such is
    not idempotent: ["..00"] becomes ["000.0"], and that ["00000"]. *)
Theorem normalization_fixed_points (s : string) :
  Ident.normalize_fips_str (Ident.normalize_fips_str s) = Ident.normalize_fips_str s
  ∧ ((5 ≤ String.length s)%nat → Ident.normalize_fips_str s = s)
  ∧ ((5 ≤ String.length s)%nat → Py.contains ".0" s = false →
     Ident.normalize_zip_str s = s)
  ∧ (∃ t, Ident.normalize_zip_str (Ident.normalize_zip_str t)
          ≠ Ident.normalize_zip_str t).
Proof.
  unfold Ident.normalize_fips_str, Ident.normalize_zip_str. split_and!.
  - apply zfill_long. rewrite zfill_length. lia.
  - apply zfill_long.
  - intros Hlen Hfree. rewrite replace_dot0_absent by done. by apply zfill_long.
  - exists "..00". by vm_compute.
Qed.

Lemma normalization_fixed_points_witness :
  Ident.normalize_fips_str "25013" = "25013"
  ∧ Ident.normalize_zip_str "01001" = "01001".
Proof.
  destruct (normalization_fixed_points "25013") as (_ & Hf & _ & _).
  destruct (normalization_fixed_points "01001") as (_ & _ & Hz & _).
  split; [apply Hf|apply Hz]; [simpl; lia|simpl; lia|reflexivity].
Defined.

(** ** create_geojson_levels.py: loading and aggregation *)

(** X9: what loading does with the identifier columns. Without a [Zip]
    column it raises [KeyError] for [Zip]; with [Zip] but without [FIPS],
    for [FIPS]; with one of each it returns a table with the same labels
    and as many rows. (A repeated [Zip] or [FIPS] label is an
    [AttributeError].) *)
Theorem load_outcomes (csv : DataFrame) :
  ("Zip" ∉ columns csv → Levels.load csv = raise (KeyError ["Zip"]))
  ∧ (Notions.occurrences "Zip" (columns csv) = 1%nat → "FIPS" ∉ columns csv →
     Levels.load csv = raise (KeyError ["FIPS"]))
  ∧ (Notions.occurrences "Zip" (columns csv) = 1%nat →
     Notions.occurrences "FIPS" (columns csv) = 1%nat →
     ∃ df, Levels.load csv = ok df ∧ columns df = columns csv
           ∧ List.length (rows df) = List.length (rows csv))
  ∧ ((2 ≤ Notions.occurrences "Zip" (columns csv))%nat
     ∨ (Notions.occurrences "Zip" (columns csv) = 1%nat
        ∧ (2 ≤ Notions.occurrences "FIPS" (columns csv))%nat) →
     Levels.load csv = raise AttributeError).
Proof.
  unfold Levels.load.
  destruct (update_str_column_cases csv "Zip" Ident.normalize_zip_str)
    as (Hz0 & Hz1 & Hz2).
  split_and!.
  - intros Hnot. rewrite Hz0; [done|]. by apply occurrences_zero.
  - intros Hone Hnot. destruct (Hz1 Hone) as (i & _ & ->). simpl.
    set (d := mkDF _ _).
    destruct (update_str_column_cases d "FIPS" Ident.normalize_fips_str)
      as (-> & _ & _); [done|by apply occurrences_zero].
  - intros Hone Hfone. destruct (Hz1 Hone) as (i & _ & ->). simpl.
    set (d := mkDF _ _).
    destruct (update_str_column_cases d "FIPS" Ident.normalize_fips_str)
      as (_ & (j & _ & ->) & _); [done|].
    eexists. split_and!; [done|done|]. simpl. by rewrite !length_fmap.
  - intros [Hmany|[Hone Hfmany]].
    + by rewrite Hz2.
    + destruct (Hz1 Hone) as (i & _ & ->). simpl.
      set (d := mkDF _ _).
      destruct (update_str_column_cases d "FIPS" Ident.normalize_fips_str)
        as (_ & _ & ->); done.
Qed.

Lemma load_outcomes_witness :
  Levels.load (mkDF ["Zip"; "2023"] [[Str "01001"; Int 10]]) = raise (KeyError ["FIPS"]).
Proof.
  destruct (load_outcomes (mkDF ["Zip"; "2023"] [[Str "01001"; Int 10]]))
    as (_ & Hfips & _).
  apply Hfips.
  - reflexivity.
  - apply (bool_decide_unpack _). by vm_compute.
Defined.

(** X10: in the table loaded from a well-formed table, every [Zip] and
    every [FIPS] cell is a text of at least five characters (an empty
    field has become ["00nan"]), and every other column has kept its
    cells. *)
Theorem load_rewrites_identifiers_only (csv df : DataFrame) :
  Levels.load csv = ok df →
  Vocabulary.well_formed csv →
  Forall Notions.padded_text (column df "Zip")
  ∧ Forall Notions.padded_text (column df "FIPS")
  ∧ (∀ c, c ≠ "Zip" → c ≠ "FIPS" → column df c = column csv c).
Proof.
  unfold Levels.load. intros Hload Hwf.
  destruct (update_str_column csv "Zip" _) as [e|d] eqn:Hzip; [done|].
  simpl in Hload.
  pose proof (update_str_column_well_formed _ _ _ _ Hzip Hwf) as Hwfd.
  split_and!.
  - rewrite (update_str_column_other _ _ _ _ "Zip" Hload) by done.
    rewrite (update_str_column_self _ _ _ _ Hzip Hwf).
    apply Forall_fmap, Forall_forall. intros v _. apply padded_normalize_zip.
  - rewrite (update_str_column_self _ _ _ _ Hload Hwfd).
    apply Forall_fmap, Forall_forall. intros v _. apply padded_normalize_fips.
  - intros c HnZ HnF.
    rewrite (update_str_column_other _ _ _ _ c Hload) by done.
    by rewrite (update_str_column_other _ _ _ _ c Hzip).
Qed.

Lemma load_rewrites_identifiers_only_witness :
  Forall Notions.padded_text
    (column (mkDF ["Zip"; "FIPS"; "2023"] [[Str "01001"; Str "00nan"; Int 10]]) "FIPS").
Proof.
  refine (proj1 (proj2 (load_rewrites_identifiers_only
            (mkDF ["Zip"; "FIPS"; "2023"] [[Str "1001.0"; NaN; Int 10]]) _ _ _))).
  - vm_compute. reflexivity.
  - repeat constructor.
Defined.

Section AggregationMore.
Import Notions.

Lemma mapM_res_total {A B} (f : A → result B) l :
  Forall (λ x, ∃ y, f x = ok y) l → ∃ ys, mapM_res f l = ok ys.
Proof.
  induction 1 as [|x l [y Hy] _ [ys Hys]]; [by eexists|].
  simpl. rewrite Hy. simpl. rewrite Hys. by eexists.
Qed.

#[local] Instance cell_le_total : Total cell_le.
Proof.
  intros [| |x|x] [| |y|y]; simpl; try (by left); try (by right).
  - lia.
  - apply (total String.le).
Qed.

Lemma dict_set_fresh {V} (d : list (string * V)) k v :
  k ∉ d.*1 → dict_set d k v = d ++ [(k, v)].
Proof.
  induction d as [|[k' v'] d IH]; [done|]. simpl.
  intros [Hne Hnot]%not_elem_of_cons.
  rewrite decide_False by done. by rewrite IH.
Qed.

(** Merging dictionaries without a common key puts them end to end. *)
Lemma dict_merge_fresh {V} (a b : list (string * V)) :
  NoDup ((a ++ b).*1) → dict_merge a b = a ++ b.
Proof.
  unfold dict_merge. revert a. induction b as [|[k v] b IH]; intros a Hnd.
  - by rewrite app_nil_r.
  - simpl. rewrite dict_set_fresh.
    + rewrite IH; rewrite <- app_assoc; done.
    + rewrite fmap_app in Hnd. apply NoDup_app in Hnd as (_ & Hdisj & _).
      intros Hin. apply (Hdisj k Hin). left.
Qed.

Lemma fmap_fst_pair (h : how) (l : list string) : ((λ c, (c, h)) <$> l).*1 = l.
Proof. induction l as [|x l IH]; [done|]. rewrite !fmap_cons. by rewrite IH. Qed.

Lemma level_first_cols_NoDup l : NoDup (Levels.level_first_cols l).
Proof. destruct l; apply (bool_decide_unpack _); by vm_compute. Qed.

Lemma level_total_cols_NoDup l df :
  NoDup (columns df) → NoDup (Levels.level_total_cols l df).
Proof.
  intros Hnd. destruct l; simpl; unfold Levels.total_cols;
    repeat apply NoDup_filter; done.
Qed.

End AggregationMore.

(** X11: at every level (county, chapter, region, division), when no row
    has an absent key, a year column with whole numbers or empty cells
    whose sums stay in the exact range (absolute values adding up to less
    than 2^63, or than 2^53 when the column has an empty cell) adds up
    over the records of the level to its total over the rows of the
    table. *)
Theorem year_sum_conserved_at_every_level (l : Levels.level)
    (df out : DataFrame) (y : string) :
  Levels.level_agg l df = ok out →
  Forall (λ r, isna (at_ (columns df) r (Levels.level_key l)) = false) (rows df) →
  y ∈ Levels.year_cols df →
  Notions.numeric_column df y →
  Vocabulary.exact_sums df y →
  column_total out y = column_total df y.
Proof. apply level_year_sum. Qed.

Lemma year_sum_conserved_at_every_level_witness :
  column_total
    (mkDF ["Division"; "DCODE"; "2023"] [[Str "Atlantic"; NaN; Int 25]]) "2023"
  = column_total (Examples.example_table_full NaN NaN NaN NaN NaN NaN NaN NaN) "2023".
Proof.
  apply (year_sum_conserved_at_every_level Levels.Division
           (Examples.example_table_full NaN NaN NaN NaN NaN NaN NaN NaN)).
  - vm_compute. reflexivity.
  - repeat constructor.
  - apply (bool_decide_unpack _). by vm_compute.
  - unfold Notions.numeric_column. vm_compute. repeat constructor; right; reflexivity.
  - vm_compute. reflexivity.
Defined.

(** X12: loading and then aggregating by county loses nothing. For a
    well-formed table without an empty [FIPS] cell, every year column
    with whole numbers or empty cells whose sums stay in the exact range
    adds up over the county records to its total over the rows of the
    table as read: loading leaves the year columns as they are and every
    row keeps a key. *)
Theorem load_then_county_agg_conserves (csv df out : DataFrame) (y : string) :
  Levels.load csv = ok df →
  Levels.county_agg df = ok out →
  Vocabulary.well_formed csv →
  Forall (λ v, isna v = false) (column csv "FIPS") →
  y ∈ Levels.year_cols csv →
  Notions.numeric_column csv y →
  Vocabulary.exact_sums csv y →
  column_total out y = column_total csv y.
Proof.
  unfold Levels.load. intros Hload Hagg Hwf _ Hy Hnum Hrange.
  destruct (update_str_column csv "Zip" _) as [e|d] eqn:Hzip; [done|].
  simpl in Hload.
  pose proof (update_str_column_well_formed _ _ _ _ Hzip Hwf) as Hwfd.
  destruct (update_str_column_ok _ _ _ _ Hzip) as [Hc1 _].
  destruct (update_str_column_ok _ _ _ _ Hload) as [Hc2 _].
  assert (Py.isdigit y = true) as Hd by (by apply year_cols_elem in Hy as [_ ?]).
  assert (y ≠ "Zip" ∧ y ≠ "FIPS") as [HnZ HnF] by (split; intros ->; done).
  assert (column df y = column csv y) as Hcol.
  { rewrite (update_str_column_other _ _ _ _ y Hload) by done.
    by rewrite (update_str_column_other _ _ _ _ y Hzip). }
  unfold column_total at 2. rewrite <- Hcol. fold (column_total df y).
  apply (level_year_sum Levels.County); [done| | | |].
  - pose proof (update_str_column_self _ _ _ _ Hload Hwfd) as Hf.
    unfold column in Hf.
    assert (Forall (λ v, isna v = false)
              ((λ r, at_ (columns df) r "FIPS") <$> rows df)) as Hall.
    { rewrite Hf. apply Forall_fmap, Forall_forall. by intros v _. }
    by apply Forall_fmap in Hall.
  - apply year_cols_elem. rewrite Hc2, Hc1. by apply year_cols_elem in Hy.
  - by rewrite Hcol.
  - unfold Vocabulary.exact_sums. by rewrite Hcol.
Qed.

Lemma load_then_county_agg_conserves_witness :
  column_total
    (mkDF ["FIPS"; "County"; "State"; "Chapter"; "Region"; "Division";
           "ECODE"; "RCODE"; "DCODE"; "2023"]
          [[Str "25013"; Str "Hampden"; NaN; Str "Western MA"; Str "Northeast";
            Str "Atlantic"; NaN; NaN; NaN; Int 25]]) "2023"
  = column_total
      (mkDF (Examples.example_cols ++ ["State"; "ECODE"; "RCODE"; "DCODE"])
         [ [Int 1001; Int 25013; Str "Hampden"; Str "Western MA";
            Str "Northeast"; Str "Atlantic"; Int 10; NaN; NaN; NaN; NaN];
           [Int 1002; Int 25013; Str "Hampden"; Str "Western MA";
            Str "Northeast"; Str "Atlantic"; Int 15; NaN; NaN; NaN; NaN] ]) "2023".
Proof.
  eapply load_then_county_agg_conserves.
  - vm_compute. reflexivity.
  - vm_compute. reflexivity.
  - repeat constructor.
  - repeat constructor.
  - apply (bool_decide_unpack _). by vm_compute.
  - unfold Notions.numeric_column. vm_compute. repeat constructor; right; reflexivity.
  - vm_compute. reflexivity.
Defined.

(** X13: an aggregation succeeds whenever the table has the level's key
    column and the columns the level names, and every year column has
    numeric or empty cells. *)
Theorem level_agg_succeeds (l : Levels.level) (df : DataFrame) :
  Levels.level_key l ∈ columns df →
  (∀ c, c ∈ Levels.level_first_cols l → c ∈ columns df) →
  (∀ y, y ∈ Levels.year_cols df → Notions.numeric_column df y) →
  ∃ out, Levels.level_agg l df = ok out.
Proof.
  intros Hkey Hfirst Hnum.
  unfold Levels.level_agg, groupby_agg, has_col.
  rewrite bool_decide_eq_true_2 by done. simpl.
  assert (filter (λ c, c ∉ columns df) ((Levels.level_spec l df).*1) = []) as ->.
  { apply filter_none, Forall_forall. intros c Hc Hnot. apply Hnot.
    apply level_spec_labels in Hc as [Hc|[Hc|Hc]].
    - by apply Hfirst.
    - by apply year_cols_elem in Hc as [? _].
    - by apply level_total_cols_sub, total_cols_elem in Hc as [? _]. }
  destruct (mapM_res_total
              (λ k, bind (mapM_res (agg_cell (columns df)
                            (group_rows (columns df) (Levels.level_key l) k (rows df)))
                            (Levels.level_spec l df))
                         (λ vs, ok (k :: vs)))
              (group_keys (columns df) (Levels.level_key l) (rows df)))
    as [rws ->]; [|by eexists].
  apply Forall_forall. intros k _.
  destruct (mapM_res_total
              (agg_cell (columns df)
                 (group_rows (columns df) (Levels.level_key l) k (rows df)))
              (Levels.level_spec l df)) as [vs ->]; [|by eexists].
  apply Forall_forall. intros [c h] Hch.
  pose proof (level_spec_how _ _ _ _ Hch) as Hh.
  unfold agg_cell. simpl. destruct h; [by eexists|].
  destruct (Py.isdigit c) eqn:Hd; [|done].
  rewrite agg_sum_numeric; [by eexists|].
  assert (c ∈ Levels.year_cols df) as Hy.
  { apply year_cols_elem. split; [|done].
    assert (c ∈ (Levels.level_spec l df).*1) as Hlab
      by (apply list_elem_of_fmap; by exists (c, Sum)).
    apply level_spec_labels in Hlab as [Hc|[Hc|Hc]].
    - by apply Hfirst.
    - by apply year_cols_elem in Hc as [? _].
    - by apply level_total_cols_sub, total_cols_elem in Hc as [? _]. }
  specialize (Hnum c Hy). unfold Notions.numeric_column in Hnum.
  rewrite Forall_forall in Hnum.
  intros v (r & -> & [Hr _]%group_rows_elem)%list_elem_of_fmap.
  apply Hnum. unfold column. apply list_elem_of_fmap. eauto.
Qed.

Lemma level_agg_succeeds_witness :
  ∃ out, Levels.level_agg Levels.Region
           (Examples.example_table_full NaN NaN NaN NaN NaN NaN NaN NaN) = ok out.
Proof.
  apply level_agg_succeeds.
  - apply (bool_decide_unpack _). by vm_compute.
  - intros c Hc. simpl in Hc.
    repeat (apply elem_of_cons in Hc as [->|Hc]);
      [| | |by apply elem_of_nil in Hc];
      apply (bool_decide_unpack _); by vm_compute.
  - intros y Hy.
    assert (y = "2023") as ->.
    { revert Hy. vm_compute. intros Hy.
      repeat (apply elem_of_cons in Hy as [->|Hy]); [done|by apply elem_of_nil in Hy]. }
    unfold Notions.numeric_column. vm_compute. repeat constructor; right; reflexivity.
Defined.

(** X14: an aggregation raises [KeyError] whenever the key column of the
    level or one of the columns the level names is missing from the table:
    for the key alone when that is missing, and else with a list that has
    the missing named column in it. *)
Theorem level_agg_missing_column (l : Levels.level) (df : DataFrame) (c : string) :
  (Levels.level_key l ∉ columns df →
   Levels.level_agg l df = raise (KeyError [Levels.level_key l]))
  ∧ (Levels.level_key l ∈ columns df →
     c ∈ Levels.level_first_cols l → c ∉ columns df →
     ∃ missing, Levels.level_agg l df = raise (KeyError missing) ∧ c ∈ missing).
Proof.
  unfold Levels.level_agg, groupby_agg, has_col. split.
  - intros Hkey. by rewrite bool_decide_eq_false_2.
  - intros Hkey Hc Hnot. rewrite bool_decide_eq_true_2 by done. simpl.
    assert (c ∈ filter (λ c, c ∉ columns df) ((Levels.level_spec l df).*1)) as Hin.
    { apply list_elem_of_filter. split; [done|].
      apply level_spec_labels. by left. }
    destruct (filter _ _) as [|m ms] eqn:Hf; [by apply elem_of_nil in Hin|].
    eexists. split; [done|]. by rewrite merge_sort_Permutation.
Qed.

Lemma level_agg_missing_column_witness :
  ∃ missing, Levels.level_agg Levels.Division Examples.example_table
             = raise (KeyError missing) ∧ "DCODE" ∈ missing.
Proof.
  destruct (level_agg_missing_column Levels.Division Examples.example_table "DCODE")
    as [_ H].
  apply H; apply (bool_decide_unpack _); by vm_compute.
Defined.

(** X15: the records of an aggregation come in ascending order of their
    keys (texts by code point), and there are as many records as the key
    column has distinct present values. *)
Theorem level_records_sorted_by_key (l : Levels.level) (df out : DataFrame) :
  Levels.level_agg l df = ok out →
  Sorted cell_le ((λ row, at_ (columns out) row (Levels.level_key l)) <$> rows out)
  ∧ List.length (rows out)
    = List.length (remove_dups (filter (λ v, notna v = true)
                                       (column df (Levels.level_key l)))).
Proof.
  intros Hagg. pose proof (groupby_agg_keys _ _ _ _ Hagg) as Hkeys.
  split.
  - rewrite Hkeys. unfold group_keys.
    apply (@Sorted_merge_sort _ cell_le _ cell_le_total).
  - rewrite <- (length_fmap (λ row, at_ (columns out) row (Levels.level_key l))).
    rewrite Hkeys. unfold group_keys, column.
    by rewrite merge_sort_Permutation.
Qed.

Lemma level_records_sorted_by_key_witness :
  Sorted cell_le
    ((λ row, at_ ["Chapter"; "Region"; "Division"; "RCODE"; "DCODE"; "2023"] row "Chapter")
     <$> [[Str " western ma "; Str "Northeast"; Str "Atlantic"; NaN; NaN; Int 15];
          [Str "Western MA"; Str "Northeast"; Str "Atlantic"; NaN; NaN; Int 10]]).
Proof.
  refine (proj1 (level_records_sorted_by_key Levels.Chapter
                   Examples.chapter_variants_table
                   (mkDF ["Chapter"; "Region"; "Division"; "RCODE"; "DCODE"; "2023"]
                      [[Str " western ma "; Str "Northeast"; Str "Atlantic"; NaN; NaN; Int 15];
                       [Str "Western MA"; Str "Northeast"; Str "Atlantic"; NaN; NaN; Int 10]])
                   _)).
  vm_compute. reflexivity.
Defined.

(** X16: for a table with distinct labels, the dictionary handed to [agg]
    has no key twice, so no ['sum'] entry is overwritten by a ['first']
    entry or the other way round, and the columns of the aggregated table
    are, in this order: the key, the columns the level names, the year
    columns, the total columns the level carries. *)
Theorem level_output_columns (l : Levels.level) (df out : DataFrame) :
  NoDup (columns df) →
  Levels.level_agg l df = ok out →
  columns out
  = Levels.level_key l :: Levels.level_first_cols l ++ Levels.year_cols df
      ++ Levels.level_total_cols l df.
Proof.
  intros Hnd (_ & _ & -> & _)%groupby_agg_ok. f_equal.
  unfold Levels.level_spec, dict_of. rewrite dict_merge_fresh.
  - simpl. by rewrite !fmap_app, !fmap_fst_pair.
  - simpl. rewrite !fmap_app, !fmap_fst_pair.
    apply NoDup_app. split_and!; [apply level_first_cols_NoDup| |].
    + intros c Hc [Hy|Ht]%elem_of_app.
      * apply level_first_cols_plain in Hc as [Hc _].
        apply year_cols_elem in Hy as [_ Hy]. congruence.
      * apply level_first_cols_plain in Hc as [_ Hc].
        apply level_total_cols_sub, total_cols_elem in Ht as [_ Ht]. congruence.
    + apply NoDup_app. split_and!.
      * by apply NoDup_filter.
      * intros c [_ Hy]%year_cols_elem [_ Ht]%level_total_cols_sub%total_cols_elem.
        apply isdigit_no_total in Hy. congruence.
      * by apply level_total_cols_NoDup.
Qed.

Lemma level_output_columns_witness :
  ["Chapter"; "Region"; "Division"; "RCODE"; "DCODE"; "2023"; "Region Total"]
  = Levels.level_key Levels.Chapter :: Levels.level_first_cols Levels.Chapter
      ++ Levels.year_cols Examples.totals_table
      ++ Levels.level_total_cols Levels.Chapter Examples.totals_table.
Proof.
  apply (level_output_columns Levels.Chapter Examples.totals_table
           (mkDF ["Chapter"; "Region"; "Division"; "RCODE"; "DCODE"; "2023";
                  "Region Total"]
                 [[Str "Western MA"; Str "Northeast"; Str "Atlantic"; NaN; NaN;
                   Int 25; Int 70]])).
  - apply (bool_decide_unpack _). by vm_compute.
  - vm_compute. reflexivity.
Defined.

(** X17: a column the level names (county name, chapter, region, codes)
    that holds one present value in every row of a group is carried into
    the group's record with that value. *)
Theorem level_carries_group_constant (l : Levels.level) (df out : DataFrame)
    (c : string) (row : list cell) (v : cell) :
  Levels.level_agg l df = ok out →
  c ∈ Levels.level_first_cols l →
  row ∈ rows out →
  notna v = true →
  (∀ r, r ∈ rows df →
     at_ (columns df) r (Levels.level_key l)
     = at_ (columns out) row (Levels.level_key l) →
     at_ (columns df) r c = v) →
  at_ (columns out) row c = v.
Proof.
  intros Hagg Hc Hrow Hv Hconst.
  pose proof (level_agg_cell l df out Hagg) as HF.
  destruct (Forall2_elem_r _ _ _ _ HF Hrow) as (k & Hk & Hkey & Hcells).
  specialize (Hcells c).
  apply level_first_cols_plain in Hc as Hplain. destruct Hplain as [Hnd _].
  rewrite Hnd in Hcells. unfold agg_cell in Hcells. simpl in Hcells.
  assert (c ∈ (Levels.level_spec l df).*1) as Hlab
    by (apply level_spec_labels; by left).
  specialize (Hcells Hlab). injection Hcells as <-.
  apply group_keys_elem in Hk as (_ & r0 & Hr0 & Hr0k).
  rewrite Hkey in Hconst.
  assert (∀ r, r ∈ group_rows (columns df) (Levels.level_key l) k (rows df) →
            at_ (columns df) r c = v) as Hall.
  { intros r [Hr Hrk]%group_rows_elem. by apply Hconst. }
  assert (r0 ∈ group_rows (columns df) (Levels.level_key l) k (rows df)) as Hin
    by (by apply group_rows_elem).
  destruct (group_rows (columns df) (Levels.level_key l) k (rows df))
    as [|r1 grp]; [by apply elem_of_nil in Hin|].
  unfold agg_first. rewrite fmap_cons, filter_cons.
  rewrite (Hall r1) by left. by rewrite decide_True.
Qed.

Lemma level_carries_group_constant_witness :
  at_ ["Chapter"; "Region"; "Division"; "RCODE"; "DCODE"; "2023"]
      [Str "Western MA"; Str "Northeast"; Str "Atlantic"; NaN; NaN; Int 25] "Region"
  = Str "Northeast".
Proof.
  apply (level_carries_group_constant Levels.Chapter
           (Examples.example_table_full NaN NaN NaN NaN NaN NaN NaN NaN)
           (mkDF ["Chapter"; "Region"; "Division"; "RCODE"; "DCODE"; "2023"]
                 [[Str "Western MA"; Str "Northeast"; Str "Atlantic"; NaN; NaN; Int 25]])).
  - vm_compute. reflexivity.
  - apply (bool_decide_unpack _). by vm_compute.
  - left.
  - reflexivity.
  - intros r Hr _. cbn [rows Examples.example_table_full] in Hr.
    repeat (apply elem_of_cons in Hr as [->|Hr]);
      [reflexivity|reflexivity|by apply elem_of_nil in Hr].
Defined.

(** ** create_zip_geojson.py: the boundary sources *)

Section ZipMore.
Context {G : Type} (simplify : tolerance → G → G).
Import ZipNotions.

Lemma find_zip_col_unusable (g : GeoDataFrame G) :
  unusable (ZipScript.Loaded g) → ZipScript.find_zip_col g = None.
Proof. apply find_zip_col_None. Qed.

(** The loop up to the first table with a key column. *)
Lemma census_loop_first_usable world pre url post st g zip_col :
  Forall (λ u, unusable (world u)) pre →
  world url = ZipScript.Loaded g →
  ZipScript.find_zip_col g = Some zip_col →
  ZipScript.census_loop simplify world (pre ++ url :: post) st
  = (Some (mkGDF
             (gcolumns (gdf_assign g "ZIP_CODE"
                (λ b, Str (Py.zfill 5 (astype_str (at_ (gcolumns g) b zip_col))))))
             ((λ b, (b.1, simplify Tol_0_0005 b.2))
              <$> grows (gdf_assign g "ZIP_CODE"
                    (λ b, Str (Py.zfill 5 (astype_str (at_ (gcolumns g) b zip_col))))))),
     pre ++ [url]).
Proof.
  intros Hpre Hurl Hcol. revert st.
  induction Hpre as [|u pre Hu _ IH]; intros st.
  - cbn [app ZipScript.census_loop]. by rewrite Hurl, Hcol.
  - change ((u :: pre) ++ url :: post) with (u :: (pre ++ url :: post)).
    cbn [ZipScript.census_loop].
    destruct (world u) as [| | |g'|g'] eqn:Hw; try (by rewrite IH).
    rewrite (find_zip_col_None g') by exact Hu. by rewrite IH.
Qed.

Lemma gdf_assign_facts (g : GeoDataFrame G) c f :
  gdf_well_formed g →
  c ∈ gcolumns (gdf_assign g c f)
  ∧ Forall2 (λ b b', at_ (gcolumns (gdf_assign g c f)) b'.1 c = f b.1 ∧ b'.2 = b.2)
      (grows g) (grows (gdf_assign g c f)).
Proof.
  intros Hwf. unfold gdf_assign.
  destruct (index_of c (gcolumns g)) as [i|] eqn:Hi; simpl.
  - split.
    + apply index_of_lookup in Hi. by eapply list_elem_of_lookup_2.
    + apply Forall2_fmap_r, Forall_Forall2_diag.
      eapply Forall_impl; [exact Hwf|]. intros b Hb. simpl in *. split; [|done].
      unfold at_. rewrite Hi. apply index_of_lookup, lookup_lt_Some in Hi.
      rewrite list_lookup_insert_eq by lia. done.
  - assert (c ∉ gcolumns g) as Hnot.
    { intros Hin. destruct (index_of_is_Some _ _ Hin) as [? ?]. congruence. }
    split.
    + apply elem_of_app. right. left.
    + apply Forall2_fmap_r, Forall_Forall2_diag.
      eapply Forall_impl; [exact Hwf|]. intros b Hb. simpl in *. split; [|done].
      by apply at_app_new.
Qed.

End ZipMore.

(** X18: the loop over the Census candidates stops at the first one that
    delivers a table with a known key column: the candidates before it,
    none of them usable, were tried in order, the ones after it are not
    fetched, and what [zips_gdf] held before is overwritten. The table it
    ends with has a [ZIP_CODE] column holding, row by row, the key cell as
    text padded to five characters, and the simplified geometry. *)
Theorem census_loop_stops_at_first_usable {G : Type}
    (simplify : tolerance → G → G) (world : string → ZipScript.fetch)
    (pre post : list string) (url : string)
    (st : option (GeoDataFrame G)) (g : GeoDataFrame G) (zip_col : string) :
  Forall (λ u, ZipNotions.unusable (world u)) pre →
  world url = ZipScript.Loaded g →
  ZipScript.find_zip_col g = Some zip_col →
  ZipNotions.gdf_well_formed g →
  ∃ zips_gdf,
    ZipScript.census_loop simplify world (pre ++ url :: post) st
    = (Some zips_gdf, pre ++ [url])
    ∧ "ZIP_CODE" ∈ gcolumns zips_gdf
    ∧ Forall2 (λ b b',
         at_ (gcolumns zips_gdf) b'.1 "ZIP_CODE"
         = Str (Py.zfill 5 (astype_str (at_ (gcolumns g) b.1 zip_col)))
         ∧ b'.2 = simplify Tol_0_0005 b.2)
       (grows g) (grows zips_gdf).
Proof.
  intros Hpre Hurl Hcol Hwf.
  eexists. split; [by apply census_loop_first_usable|].
  destruct (gdf_assign_facts g "ZIP_CODE"
              (λ b, Str (Py.zfill 5 (astype_str (at_ (gcolumns g) b zip_col)))) Hwf)
    as [Hin HF].
  split; [exact Hin|]. simpl. apply Forall2_fmap_r.
  eapply Forall2_impl; [exact HF|]. intros b b' [Hcell Hgeom]. simpl.
  by rewrite Hcell, Hgeom.
Qed.

Lemma census_loop_stops_at_first_usable_witness :
  ∃ zips_gdf : GeoDataFrame unit,
    ZipScript.census_loop (λ _ g, g)
      (λ url, if decide (url = "a") then ZipScript.ReadError
              else ZipScript.Loaded (mkGDF ["GEOID20"; "ZCTA5CE20"]
                                           [([Str "1001"; Str "1001"], tt)]))
      (["a"] ++ "b" :: ["c"]) None
    = (Some zips_gdf, ["a"] ++ ["b"])
    ∧ "ZIP_CODE" ∈ gcolumns zips_gdf.
Proof.
  destruct (census_loop_stops_at_first_usable (λ _ g, g)
              (λ url, if decide (url = "a") then ZipScript.ReadError
                      else ZipScript.Loaded (mkGDF ["GEOID20"; "ZCTA5CE20"]
                                                   [([Str "1001"; Str "1001"], tt)]))
              ["a"] ["c"] "b" None
              (mkGDF ["GEOID20"; "ZCTA5CE20"] [([Str "1001"; Str "1001"], tt)])
              "ZCTA5CE20") as (z & Hloop & Hin & _).
  - repeat constructor.
  - reflexivity.
  - reflexivity.
  - repeat constructor.
  - exists z. split; [exact Hloop|exact Hin].
Defined.

Section ZipFallbacks.
Context {G : Type} (simplify : tolerance → G → G).
Import ZipNotions.



End ZipFallbacks.




Section JoinCount.

Lemma filter_length_or {A} (P Q : A → Prop)
    `{∀ x, Decision (P x)} `{∀ x, Decision (Q x)} (l : list A) :
  (∀ x, P x → Q x → False) →
  List.length (filter (λ x, P x ∨ Q x) l)
  = (List.length (filter P l) + List.length (filter Q l))%nat.
Proof.
  intros Hex. induction l as [|x l IH]; [done|].
  rewrite !filter_cons.
  destruct (decide (P x)) as [HP|HP], (decide (Q x)) as [HQ|HQ].
  - by destruct (Hex x).
  - rewrite decide_True by (by left). simpl. by rewrite IH.
  - rewrite decide_True by (by right). simpl. rewrite IH. lia.
  - rewrite decide_False by (by intros [?|?]). done.
Qed.

Lemma filter_length_ext {A} (P Q : A → Prop)
    `{∀ x, Decision (P x)} `{∀ x, Decision (Q x)} (l : list A) :
  (∀ x, P x ↔ Q x) → List.length (filter P l) = List.length (filter Q l).
Proof.
  intros Hpq. induction l as [|x l IH]; [done|].
  rewrite !filter_cons.
  destruct (decide (P x)) as [HP|HP], (decide (Q x)) as [HQ|HQ]; simpl;
    try (by rewrite IH); exfalso; naive_solver.
Qed.

(** An inner join on left keys that are all different pairs each right
    row with at most one left row: there are as many pairs as right rows
    whose key is a left key. *)
Lemma inner_join_length {L R K} `{EqDecision K} (lkey : L → K) (rkey : R → K)
    (left : list L) (right : list R) :
  NoDup (lkey <$> left) →
  List.length (inner_join lkey rkey left right)
  = List.length (filter (λ r, rkey r ∈ lkey <$> left) right).
Proof.
  unfold inner_join. induction left as [|l left IH]; intros Hnd.
  - simpl. symmetry. apply length_zero_iff_nil.
    apply filter_none, Forall_forall. intros r _. apply not_elem_of_nil.
  - rewrite fmap_cons in Hnd. apply NoDup_cons in Hnd as [Hl Hnd].
    rewrite bind_cons, List.length_app, length_fmap, (IH Hnd).
    rewrite <- (filter_length_or (λ r, lkey l = rkey r)
                  (λ r, rkey r ∈ lkey <$> left)).
    + apply filter_length_ext. intros r. rewrite fmap_cons, elem_of_cons.
      naive_solver.
    + intros r <- Hin. by destruct Hl.
Qed.

End JoinCount.

(** X21: for a table with distinct labels, none of them [geometry], and
    a boundary table whose [ZIP_CODE] keys are all different, the keys on
    both sides being texts, the ZIP collection has one feature, with
    geometry, for every row of the table whose [Zip] is one of the
    boundary keys, and none for the other rows: they are left out without
    notice. *)
Theorem zip_geojson_with_boundaries {G : Type} (zips_gdf : GeoDataFrame G)
    (df : DataFrame) :
  "ZIP_CODE" ∈ gcolumns zips_gdf →
  NoDup ((λ b, at_ (gcolumns zips_gdf) b.1 "ZIP_CODE") <$> grows zips_gdf) →
  ZipNotions.text_column
    ((λ b, at_ (gcolumns zips_gdf) b.1 "ZIP_CODE") <$> grows zips_gdf) →
  ZipNotions.text_column (column df "Zip") →
  NoDup (columns df) →
  "geometry" ∉ columns df →
  Forall (λ f, is_Some (geometry f)) (features (ZipScript.zip_geojson (Some zips_gdf) df))
  ∧ List.length (features (ZipScript.zip_geojson (Some zips_gdf) df))
    = List.length
        (filter (λ r, at_ (columns df) r "Zip"
                      ∈ (λ b, at_ (gcolumns zips_gdf) b.1 "ZIP_CODE") <$> grows zips_gdf)
                (rows df)).
Proof.
  intros Hcol Hnd _ _ _ _. unfold ZipScript.zip_geojson.
  rewrite bool_decide_eq_true_2 by done. cbn [features]. split.
  - apply Forall_fmap, Forall_forall. intros br _. simpl. by eexists.
  - rewrite length_fmap. unfold ZipScript.zip_merged.
    by rewrite (inner_join_length _ _ _ _ Hnd).
Qed.

Lemma zip_geojson_with_boundaries_witness :
  List.length
    (features (ZipScript.zip_geojson
                 (Some (mkGDF ["ZIP_CODE"] [([Str "01001"], tt); ([Str "99999"], tt)]))
                 Examples.example_table))
  = 1%nat.
Proof.
  destruct (zip_geojson_with_boundaries
              (mkGDF ["ZIP_CODE"] [([Str "01001"], tt); ([Str "99999"], tt)])
              Examples.example_table) as [_ Hlen].
  - apply (bool_decide_unpack _). by vm_compute.
  - apply (bool_decide_unpack _). by vm_compute.
  - split; [discriminate|]. repeat constructor.
  - split; [discriminate|]. repeat constructor.
  - apply (bool_decide_unpack _). by vm_compute.
  - apply (bool_decide_unpack _). by vm_compute.
  - rewrite Hlen. vm_compute. reflexivity.
Defined.

(** ** create_geojson_levels.py: county boundaries *)

Section CountyFacts.
Context {G : Type} (simplify : tolerance → G → G).
Import ZipNotions.

Lemma Forall2_zip_with {A B C} (P : A → B → Prop) (Q : A → C → Prop)
    (f : A → B → C) l k :
  (∀ x y, P x y → Q x (f x y)) → Forall2 P l k → Forall2 Q l (zip_with f l k).
Proof.
  intros HPQ. induction 1 as [|x y l k Hxy _ IH]; simpl; constructor; auto.
Qed.

Lemma isdigit_app a b :
  Py.isdigit a = true → Py.isdigit b = true → Py.isdigit (a +:+ b) = true.
Proof.
  intros Ha Hb. destruct a as [|c a]; [done|].
  change (Py.all_chars Py.is_digit (String c a +:+ b) = true).
  rewrite all_chars_app. apply isdigit_all_chars in Ha, Hb.
  by rewrite Ha, Hb.
Qed.

(** The keys [add_fips] computes, row by row. *)
Lemma add_fips_keys (g g' : GeoDataFrame G) :
  Levels.add_fips g = Some g' →
  gdf_well_formed g →
  "STATEFP" ∈ gcolumns g ∧ "COUNTYFP" ∈ gcolumns g
  ∧ Forall2 (λ b b',
       cell_add (at_ (gcolumns g) b.1 "STATEFP") (at_ (gcolumns g) b.1 "COUNTYFP")
       = Some (at_ (gcolumns g') b'.1 "FIPS")
       ∧ b'.2 = b.2)
     (grows g) (grows g').
Proof.
  unfold Levels.add_fips. intros Hadd Hwf.
  destruct (bool_decide ("STATEFP" ∈ gcolumns g)) eqn:Hs; [|done].
  destruct (bool_decide ("COUNTYFP" ∈ gcolumns g)) eqn:Hc; [|done].
  apply bool_decide_eq_true in Hs, Hc. simpl in Hadd.
  destruct (mapM _ (grows g)) as [keys|] eqn:Hkeys; [|done]. simpl in Hadd.
  apply mapM_Some in Hkeys. split_and!; [done|done|].
  injection Hadd as <-.
  assert (Forall2 (λ (b : list cell * G) k,
             cell_add (at_ (gcolumns g) b.1 "STATEFP")
                      (at_ (gcolumns g) b.1 "COUNTYFP") = Some k
             ∧ List.length b.1 = List.length (gcolumns g)) (grows g) keys) as HF.
  { clear -Hkeys Hwf. unfold gdf_well_formed in Hwf.
    induction Hkeys as [|b k bs ks Hbk _ IH]; [constructor|].
    apply Forall_cons in Hwf as [Hb Hbs]. constructor; [done|by apply IH]. }
  destruct (index_of "FIPS" (gcolumns g)) as [i|] eqn:Hi; simpl.
  - eapply Forall2_zip_with; [|exact HF]. intros b k [Hk Hlen]. simpl.
    split; [|done]. rewrite Hk. f_equal. unfold at_. rewrite Hi.
    apply index_of_lookup, lookup_lt_Some in Hi.
    rewrite list_lookup_insert_eq by lia. done.
  - assert ("FIPS" ∉ gcolumns g) as Hnot.
    { intros Hin. destruct (index_of_is_Some _ _ Hin) as [? ?]. congruence. }
    eapply Forall2_zip_with; [|exact HF]. intros b k [Hk Hlen]. simpl.
    split; [|done]. rewrite Hk. f_equal. symmetry. by apply at_app_new.
Qed.

End CountyFacts.

(** X22: when the county boundaries could not be had (the download or the
    reader raised, or the file lacks the [STATEFP] or the [COUNTYFP]
    column), the county collection is the data-only one: a feature for
    every county record, each with a [null] geometry. *)
Theorem county_geojson_without_boundaries {G : Type}
    (simplify : tolerance → G → G) (o : Levels.counties_fetch) (agg : DataFrame) :
  match o with
  | Levels.CountiesError => True
  | Levels.CountiesLoaded g => "STATEFP" ∉ gcolumns g ∨ "COUNTYFP" ∉ gcolumns g
  end →
  Levels.county_geojson (Levels.load_counties simplify o) agg
  = data_only_collection agg
  ∧ List.length (features (Levels.county_geojson (Levels.load_counties simplify o) agg))
    = List.length (rows agg)
  ∧ Forall (λ f, geometry f = None)
      (features (Levels.county_geojson (Levels.load_counties simplify o) agg)).
Proof.
  intros Ho.
  assert (Levels.load_counties simplify o = None) as ->.
  { destruct o as [|g]; [done|]. unfold Levels.load_counties, Levels.add_fips.
    destruct Ho as [Hn|Hn]; rewrite (bool_decide_eq_false_2 _ Hn);
      [done|by rewrite andb_false_r]. }
  simpl. split_and!; [done|by rewrite length_fmap|].
  apply Forall_fmap, Forall_forall. by intros r _.
Qed.

Lemma county_geojson_without_boundaries_witness :
  Levels.county_geojson
    (Levels.load_counties (λ _ g, g)
       (Levels.CountiesLoaded (mkGDF ["GEOID"; "NAME"] [([Str "25013"; Str "Hampden"], tt)])))
    (mkDF ["FIPS"; "2023"] [[Str "25013"; Int 25]])
  = data_only_collection (mkDF ["FIPS"; "2023"] [[Str "25013"; Int 25]]).
Proof.
  refine (proj1 (county_geojson_without_boundaries (λ _ g, g)
            (Levels.CountiesLoaded (mkGDF ["GEOID"; "NAME"] [([Str "25013"; Str "Hampden"], tt)]))
            (mkDF ["FIPS"; "2023"] [[Str "25013"; Int 25]]) _)).
  left. apply (bool_decide_unpack _). by vm_compute.
Defined.

(** X23: the county boundary keys. When the county file is well-formed and
    holds a two-digit [STATEFP] and a three-digit [COUNTYFP] in every row,
    the boundaries load, row for row, each with its geometry simplified
    and with the five-digit text [STATEFP + COUNTYFP] as its [FIPS]. *)
Theorem load_counties_five_digit_keys {G : Type} (simplify : tolerance → G → G)
    (g : GeoDataFrame G) :
  ZipNotions.gdf_well_formed g →
  "STATEFP" ∈ gcolumns g →
  "COUNTYFP" ∈ gcolumns g →
  Forall (λ b, ZipNotions.digits 2 (at_ (gcolumns g) b.1 "STATEFP")
               ∧ ZipNotions.digits 3 (at_ (gcolumns g) b.1 "COUNTYFP")) (grows g) →
  ∃ counties_gdf,
    Levels.load_counties simplify (Levels.CountiesLoaded g) = Some counties_gdf
    ∧ Forall2 (λ b b',
         ZipNotions.digits 5 (at_ (gcolumns counties_gdf) b'.1 "FIPS")
         ∧ (∃ s c, at_ (gcolumns g) b.1 "STATEFP" = Str s
                   ∧ at_ (gcolumns g) b.1 "COUNTYFP" = Str c
                   ∧ at_ (gcolumns counties_gdf) b'.1 "FIPS" = Str (s +:+ c))
         ∧ b'.2 = simplify Tol_0_001 b.2)
       (grows g) (grows counties_gdf).
Proof.
  intros Hwf Hs Hc Hdig.
  destruct (Levels.add_fips g) as [g'|] eqn:Hadd.
  - exists (mkGDF (gcolumns g') ((λ b, (b.1, simplify Tol_0_001 b.2)) <$> grows g')).
    split; [unfold Levels.load_counties; by rewrite Hadd|].
    destruct (add_fips_keys g g' Hadd Hwf) as (_ & _ & HF).
    simpl. apply Forall2_fmap_r.
    assert (Forall2 (λ (b b' : list cell * G),
               (ZipNotions.digits 2 (at_ (gcolumns g) b.1 "STATEFP")
                ∧ ZipNotions.digits 3 (at_ (gcolumns g) b.1 "COUNTYFP"))
               ∧ cell_add (at_ (gcolumns g) b.1 "STATEFP")
                          (at_ (gcolumns g) b.1 "COUNTYFP")
                 = Some (at_ (gcolumns g') b'.1 "FIPS")
               ∧ b'.2 = b.2) (grows g) (grows g')) as HF'.
    { clear -HF Hdig. induction HF as [|b b' bs bs' Hb _ IH]; [constructor|].
      apply Forall_cons in Hdig as [Hd Hds]. constructor; [done|by apply IH]. }
    eapply Forall2_impl; [exact HF'|].
    intros b b' ([(s & Hse & Hsd & Hsl) (c & Hce & Hcd & Hcl)] & Hadd' & Hgeom).
    simpl. rewrite Hse, Hce in Hadd'. simpl in Hadd'. injection Hadd' as Hfips.
    split_and!.
    + exists (s +:+ c). split_and!; [done|by apply isdigit_app|].
      rewrite string_length_app. lia.
    + exists s, c. done.
    + by rewrite Hgeom.
  - exfalso.
    assert (is_Some (mapM (λ b : list cell * G,
                       cell_add (at_ (gcolumns g) b.1 "STATEFP")
                                (at_ (gcolumns g) b.1 "COUNTYFP")) (grows g)))
      as [keys Hkeys].
    { apply mapM_is_Some. eapply Forall_impl; [exact Hdig|].
      intros b [(s & Hse & _) (c & Hce & _)]. simpl. rewrite Hse, Hce. by eexists. }
    revert Hadd. unfold Levels.add_fips.
    rewrite !bool_decide_eq_true_2 by done. cbn [andb]. by rewrite Hkeys.
Qed.

Lemma load_counties_five_digit_keys_witness :
  ∃ counties_gdf : GeoDataFrame unit,
    Levels.load_counties (λ _ g, g)
      (Levels.CountiesLoaded
         (mkGDF ["STATEFP"; "COUNTYFP"; "NAME"] [([Str "25"; Str "013"; Str "Hampden"], tt)]))
    = Some counties_gdf.
Proof.
  destruct (load_counties_five_digit_keys (λ _ g, g)
              (mkGDF ["STATEFP"; "COUNTYFP"; "NAME"]
                     [([Str "25"; Str "013"; Str "Hampden"], tt)]))
    as (cg & Hload & _).
  - repeat constructor.
  - apply (bool_decide_unpack _). by vm_compute.
  - apply (bool_decide_unpack _). by vm_compute.
  - repeat constructor; eexists; (repeat split).
  - by exists cg.
Defined.

(** X24: for county records with distinct labels, none of them
    [geometry], and county boundaries whose [FIPS] keys are all
    different, the keys on both sides being texts, the county collection
    has one feature, with geometry, for every county record whose [FIPS]
    is a boundary key, and none for the other records. *)
Theorem county_geojson_with_boundaries {G : Type} (counties_gdf : GeoDataFrame G)
    (agg : DataFrame) :
  NoDup ((λ b, at_ (gcolumns counties_gdf) b.1 "FIPS") <$> grows counties_gdf) →
  ZipNotions.text_column
    ((λ b, at_ (gcolumns counties_gdf) b.1 "FIPS") <$> grows counties_gdf) →
  ZipNotions.text_column (column agg "FIPS") →
  NoDup (columns agg) →
  "geometry" ∉ columns agg →
  Forall (λ f, is_Some (geometry f))
    (features (Levels.county_geojson (Some counties_gdf) agg))
  ∧ List.length (features (Levels.county_geojson (Some counties_gdf) agg))
    = List.length
        (filter (λ r, at_ (columns agg) r "FIPS"
                      ∈ (λ b, at_ (gcolumns counties_gdf) b.1 "FIPS")
                        <$> grows counties_gdf)
                (rows agg)).
Proof.
  intros Hnd _ _ _ _. cbn [Levels.county_geojson features]. split.
  - apply Forall_fmap, Forall_forall. intros br _. simpl. by eexists.
  - rewrite length_fmap. unfold Levels.county_merged.
    by rewrite (inner_join_length _ _ _ _ Hnd).
Qed.

Lemma county_geojson_with_boundaries_witness :
  List.length
    (features (Levels.county_geojson
                 (Some (mkGDF ["NAME"; "FIPS"] [([Str "Hampden"; Str "25013"], tt)]))
                 (mkDF ["FIPS"; "2023"] [[Str "25013"; Int 25]; [Str "25013.0"; Int 3]])))
  = 1%nat.
Proof.
  destruct (county_geojson_with_boundaries
              (mkGDF ["NAME"; "FIPS"] [([Str "Hampden"; Str "25013"], tt)])
              (mkDF ["FIPS"; "2023"] [[Str "25013"; Int 25]; [Str "25013.0"; Int 3]]))
    as [_ Hlen].
  - apply (bool_decide_unpack _). by vm_compute.
  - split; [discriminate|]. repeat constructor.
  - split; [discriminate|]. repeat constructor.
  - apply (bool_decide_unpack _). by vm_compute.
  - apply (bool_decide_unpack _). by vm_compute.
  - rewrite Hlen. vm_compute. reflexivity.
Defined.

(* ===================================================================== *)
(** ** Boundaries derived from the counties *)
(* ===================================================================== *)

Section DissolveFacts.
Import Dissolve DissolveNotions.

Lemma drop_duplicates_go_elem {A} `{EqDecision A} (seen l : list A) x :
  x ∈ drop_duplicates_go seen l ↔ x ∈ l ∧ x ∉ seen.
Proof.
  revert seen. induction l as [|y l IH]; intros seen.
  - cbn [drop_duplicates_go]. rewrite elem_of_nil. naive_solver.
  - cbn [drop_duplicates_go]. destruct (decide (y ∈ seen)) as [Hy|Hy].
    + rewrite IH, elem_of_cons. naive_solver.
    + rewrite elem_of_cons, IH, !not_elem_of_cons, elem_of_cons.
      destruct (decide (x = y)) as [->|Hne]; naive_solver.
Qed.

Lemma drop_duplicates_elem {A} `{EqDecision A} (l : list A) x :
  x ∈ drop_duplicates l ↔ x ∈ l.
Proof.
  unfold drop_duplicates. rewrite drop_duplicates_go_elem.
  split; [by intros [? _]|]. intros ?. split; [done|]. apply not_elem_of_nil.
Qed.

(** Among rows with distinct keys a key picks exactly one row. *)
Lemma filter_unique {A K} `{EqDecision K} (f : A → K) (l : list A) k :
  NoDup (f <$> l) → k ∈ f <$> l →
  ∃ r, filter (λ r, k = f r) l = [r] ∧ f r = k ∧ r ∈ l.
Proof.
  induction l as [|a l IH]; intros Hnd Hin.
  - by apply elem_of_nil in Hin.
  - rewrite fmap_cons in Hnd, Hin. apply NoDup_cons in Hnd as [Hn Hnd].
    rewrite filter_cons. destruct (decide (k = f a)) as [->|Hne].
    + exists a. split; [|split; [done|by left]]. f_equal.
      apply filter_none, Forall_forall. intros r Hr Heq.
      apply Hn. rewrite Heq. apply list_elem_of_fmap. by exists r.
    + apply elem_of_cons in Hin as [?|Hin]; [done|].
      destruct (IH Hnd Hin) as (r & ? & ? & ?). exists r.
      split_and!; [done|done|by right].
Qed.

(** An inner join whose left keys all occur, once, on the right pairs
    each left row with its one right row, in left order. *)
Lemma inner_join_unique {L R K} `{EqDecision K} (lkey : L → K) (rkey : R → K)
    (left : list L) (right : list R) :
  NoDup (rkey <$> right) →
  Forall (λ l, lkey l ∈ rkey <$> right) left →
  Forall2 (λ l p, p.1 = l ∧ p.2 ∈ right ∧ rkey p.2 = lkey l)
          left (inner_join lkey rkey left right).
Proof.
  intros Hnd HF. induction HF as [|l left Hl _ IH]; [constructor|].
  unfold inner_join. rewrite bind_cons.
  destruct (filter_unique rkey right (lkey l) Hnd Hl) as (r & -> & Hr & Hin).
  rewrite fmap_cons, fmap_nil. cbn [app]. constructor; [done|apply IH].
Qed.

Lemma inner_join_nil_l {L R K} `{EqDecision K} (lkey : L → K) (rkey : R → K)
    (right : list R) : inner_join lkey rkey [] right = [].
Proof. done. Qed.

(** The key of a level is not a column its dictionary reduces. *)
Lemma level_key_not_reduced l df :
  Levels.level_key l ∉ (Levels.level_spec l df).*1.
Proof.
  rewrite level_spec_labels. intros [Hin|[Hin|Hin]].
  - destruct l; cbn in Hin; rewrite ?elem_of_cons, elem_of_nil in Hin;
      naive_solver.
  - apply year_cols_elem in Hin as [_ Hd].
    destruct (level_key_plain l) as [Hp _]. congruence.
  - apply level_total_cols_sub, total_cols_elem in Hin as [_ Ht].
    destruct (level_key_plain l) as [_ Hp]. congruence.
Qed.

(** The key property of a record joined to a boundary. *)
Lemma joined_properties_key key gcols agg cols k vs :
  columns agg = key :: cols → key ∉ cols →
  Levels.joined_properties key gcols agg (k :: vs) !! key = Some k.
Proof.
  intros Hc Hn. unfold Levels.joined_properties. rewrite Hc. cbn [zip zip_with].
  rewrite filter_cons, decide_True by (by left).
  rewrite reverse_cons, list_to_map_app.
  rewrite lookup_union_r.
  - cbn [list_to_map foldr]. cbn. by rewrite lookup_insert_eq.
  - apply not_elem_of_list_to_map_1. rewrite fmap_reverse, elem_of_reverse.
    intros ((c & v) & Hcv & Hin)%list_elem_of_fmap. simpl in Hcv. subst c.
    apply list_elem_of_filter in Hin as [_ Hin].
    apply Hn. apply (elem_of_zip_l _ _ _ _ Hin).
Qed.

Lemma counties_with_key_elem {G} (cg : GeoDataFrame G) df key b f k :
  (b, (f, k)) ∈ counties_with_key cg df key ↔
  b ∈ grows cg ∧ at_ (gcolumns cg) b.1 "FIPS" = f
  ∧ ∃ r, r ∈ rows df ∧ at_ (columns df) r "FIPS" = f ∧ at_ (columns df) r key = k.
Proof.
  unfold counties_with_key, level_lookup.
  rewrite inner_join_elem, drop_duplicates_elem, list_elem_of_fmap. simpl.
  split.
  - intros (Hb & (r & [= -> ->] & Hr) & Hf). eauto 8.
  - intros (Hb & Hf & r & Hr & <- & <-). eauto 8.
Qed.

Lemma covered_keys_elem {G} (cg : GeoDataFrame G) df key k :
  k ∈ covered_keys cg df key ↔
  notna k = true
  ∧ ∃ r, r ∈ rows df ∧ at_ (columns df) r key = k
         ∧ at_ (columns df) r "FIPS" ∈ boundary_fips cg.
Proof.
  unfold covered_keys, boundary_fips.
  rewrite elem_of_remove_dups, list_elem_of_filter, list_elem_of_fmap.
  split.
  - intros (Hk & ((b & f & k') & -> & Hin)). simpl in *.
    apply counties_with_key_elem in Hin as (Hb & Hf & r & Hr & Hrf & Hrk).
    split; [done|]. exists r. split_and!; [done..|].
    rewrite Hrf, <- Hf. apply list_elem_of_fmap. by exists b.
  - intros (Hk & r & Hr & Hrk & (b & Hbf & Hb)%list_elem_of_fmap).
    split; [done|]. exists (b, (at_ (columns df) r "FIPS", k)). split; [done|].
    apply counties_with_key_elem. split_and!; [done|done|]. by exists r.
Qed.

End DissolveFacts.

(** X25: region and division boundaries (and chapter boundaries, when
    there is no chapter file or it has no name column) made from the
    counties. When the table and
    the county boundaries both have a [FIPS] column, the boundaries have
    no column named like the level's key, and at least one county of the
    table has a boundary, the collection has exactly one feature per
    covered key, in ascending key order; its geometry is the union of the
    geometries of the key's county boundaries and it carries the key
    among its properties. *)
Theorem derived_level_features {G : Type} (union : list G → G)
    (l : Levels.level) (counties_gdf : GeoDataFrame G) (df agg : DataFrame) :
  Levels.level_agg l df = ok agg →
  "FIPS" ∈ columns df →
  "FIPS" ∈ gcolumns counties_gdf →
  Levels.level_key l ∉ gcolumns counties_gdf →
  Dissolve.counties_with_key counties_gdf df (Levels.level_key l) ≠ [] →
  ∃ fc,
    Dissolve.derived_geojson union (Some counties_gdf) df agg (Levels.level_key l)
    = ok fc
    ∧ Forall2 (λ k f,
         geometry f
         = Some (union (DissolveNotions.key_geometries counties_gdf df
                          (Levels.level_key l) k))
         ∧ properties f !! Levels.level_key l = Some k)
        (merge_sort cell_le
           (DissolveNotions.covered_keys counties_gdf df (Levels.level_key l)))
        (features fc).
Proof.
  intros Hagg Hfips Hg Hkey Hcw.
  pose proof (groupby_agg_ok _ _ _ _ Hagg) as (Hk & _ & Hcols & Hrows).
  pose proof (groupby_agg_keys _ _ _ _ Hagg) as Hkeys.
  unfold Dissolve.derived_geojson, Dissolve.derive_by_dissolve.
  rewrite (filter_none (λ c, c ∉ columns df))
    by (repeat constructor; naive_solver).
  rewrite (bool_decide_true _ Hg), (bool_decide_true _ Hkey),
    (bool_decide_true _ Hcw).
  cbn [andb bind ok]. eexists. split; [reflexivity|]. cbn [features].
  apply Forall2_fmap_r.
  set (cw := Dissolve.counties_with_key counties_gdf df (Levels.level_key l)).
  assert (NoDup ((λ r, at_ (columns agg) r (Levels.level_key l)) <$> rows agg))
    as Hnd by (rewrite Hkeys; apply group_keys_NoDup).
  assert (Forall (λ d : cell * G,
            d.1 ∈ (λ r, at_ (columns agg) r (Levels.level_key l)) <$> rows agg)
            (Dissolve.dissolve union cw)) as HF.
  { rewrite Hkeys. unfold Dissolve.dissolve. apply Forall_fmap, Forall_forall.
    intros k Hin. simpl. rewrite merge_sort_Permutation in Hin.
    apply covered_keys_elem in Hin as (Hna & r & Hr & Hrk & _).
    apply group_keys_elem. eauto. }
  pose proof (inner_join_unique fst
                (λ r, at_ (columns agg) r (Levels.level_key l))
                _ _ Hnd HF) as HJ.
  unfold Dissolve.dissolve in HJ at 1. apply Forall2_fmap_l in HJ.
  eapply Forall2_impl; [exact HJ|].
  intros k [d r] (Hp1 & Hp2 & Hp3). simpl in *. subst d. simpl in *. split.
  - done.
  - destruct (Forall2_elem_r _ _ _ _ Hrows Hp2) as (k' & _ & vs & -> & _).
    rewrite Hcols, at_cons_eq in Hp3. subst k'.
    apply (joined_properties_key _ _ _ _ _ _ Hcols).
    apply level_key_not_reduced.
Qed.

Lemma derived_level_features_witness :
  ∃ fc,
    Dissolve.derived_geojson (λ gs, foldr Nat.add 0%nat gs)
      (Some (mkGDF ["NAME"; "FIPS"]
               [([Str "Hampden"; Str "25013"], 1%nat);
                ([Str "Berkshire"; Str "25003"], 2%nat);
                ([Str "Albany"; Str "36001"], 4%nat)]))
      (mkDF ["FIPS"; "Region"; "Division"; "RCODE"; "DCODE"; "2023"]
         [[Str "25013"; Str "Northeast"; Str "Atlantic"; NaN; NaN; Int 1];
          [Str "25003"; Str "Northeast"; Str "Atlantic"; NaN; NaN; Int 2];
          [Str "99999"; Str "West"; Str "Pacific"; NaN; NaN; Int 4]])
      (mkDF ["Region"; "Division"; "RCODE"; "DCODE"; "2023"]
         [[Str "Northeast"; Str "Atlantic"; NaN; NaN; Int 3];
          [Str "West"; Str "Pacific"; NaN; NaN; Int 4]])
      "Region" = ok fc
    ∧ (λ f, (geometry f, properties f !! "Region")) <$> features fc
      = [(Some 3%nat, Some (Str "Northeast"))].
Proof.
  destruct (derived_level_features (λ gs, foldr Nat.add 0%nat gs) Levels.Region
              (mkGDF ["NAME"; "FIPS"]
                 [([Str "Hampden"; Str "25013"], 1%nat);
                  ([Str "Berkshire"; Str "25003"], 2%nat);
                  ([Str "Albany"; Str "36001"], 4%nat)])
              (mkDF ["FIPS"; "Region"; "Division"; "RCODE"; "DCODE"; "2023"]
                 [[Str "25013"; Str "Northeast"; Str "Atlantic"; NaN; NaN; Int 1];
                  [Str "25003"; Str "Northeast"; Str "Atlantic"; NaN; NaN; Int 2];
                  [Str "99999"; Str "West"; Str "Pacific"; NaN; NaN; Int 4]])
              (mkDF ["Region"; "Division"; "RCODE"; "DCODE"; "2023"]
                 [[Str "Northeast"; Str "Atlantic"; NaN; NaN; Int 3];
                  [Str "West"; Str "Pacific"; NaN; NaN; Int 4]]))
    as (fc & Hfc & _).
  - vm_compute. reflexivity.
  - apply (bool_decide_unpack _). by vm_compute.
  - apply (bool_decide_unpack _). by vm_compute.
  - apply (bool_decide_unpack _). by vm_compute.
  - vm_compute. discriminate.
  - exists fc. split; [exact Hfc|].
    vm_compute in Hfc. injection Hfc as <-. vm_compute. reflexivity.
Defined.

(** X26: which keys get a boundary, and from which counties. A key is
    covered exactly when it is present in some row of the table whose
    [FIPS] is the key of a county boundary; the geometries united for a
    key are those of the boundaries whose [FIPS] stands beside that key in
    some row, so a county listed under two keys lends its geometry to
    both. When the [FIPS] of every row is a boundary key, as many keys are
    covered as the key column has distinct present values. *)
Theorem covered_keys_and_geometries {G : Type} (counties_gdf : GeoDataFrame G)
    (df : DataFrame) (key : string) (k : cell) :
  (k ∈ DissolveNotions.covered_keys counties_gdf df key ↔
   notna k = true
   ∧ ∃ r, r ∈ rows df ∧ at_ (columns df) r key = k
          ∧ at_ (columns df) r "FIPS" ∈ DissolveNotions.boundary_fips counties_gdf)
  ∧ (∀ g, g ∈ DissolveNotions.key_geometries counties_gdf df key k ↔
          ∃ b r, b ∈ grows counties_gdf ∧ b.2 = g ∧ r ∈ rows df
                 ∧ at_ (columns df) r key = k
                 ∧ at_ (gcolumns counties_gdf) b.1 "FIPS"
                   = at_ (columns df) r "FIPS")
  ∧ ((∀ r, r ∈ rows df →
           at_ (columns df) r "FIPS" ∈ DissolveNotions.boundary_fips counties_gdf) →
     List.length (DissolveNotions.covered_keys counties_gdf df key)
     = List.length (remove_dups (filter (λ v, notna v = true) (column df key)))).
Proof.
  split_and!.
  - apply covered_keys_elem.
  - intros g. unfold DissolveNotions.key_geometries.
    rewrite list_elem_of_fmap. split.
    + intros ((b & f & k') & -> & Hin). simpl.
      apply list_elem_of_filter in Hin as [Hk Hin]. simpl in Hk. subst k'.
      apply counties_with_key_elem in Hin as (Hb & Hf & r & Hr & Hrf & Hrk).
      exists b, r. split_and!; [done..|]. congruence.
    + intros (b & r & Hb & <- & Hr & Hrk & Hf).
      exists (b, (at_ (columns df) r "FIPS", k)). split; [done|].
      apply list_elem_of_filter. split; [done|].
      apply counties_with_key_elem. split_and!; [done|done|]. by exists r.
  - intros Hall. apply Permutation_length, NoDup_Permutation.
    + apply NoDup_remove_dups.
    + apply NoDup_remove_dups.
    + intros k'. rewrite covered_keys_elem, elem_of_remove_dups,
        list_elem_of_filter. unfold column. rewrite list_elem_of_fmap.
      split.
      * intros (Hk & r & Hr & <- & _). eauto.
      * intros (Hk & r & -> & Hr). split; [done|]. exists r. eauto.
Qed.

Lemma covered_keys_and_geometries_witness :
  List.length
    (DissolveNotions.covered_keys
       (mkGDF ["FIPS"] [([Str "25013"], tt); ([Str "25003"], tt)])
       (mkDF ["FIPS"; "Chapter"]
          [[Str "25013"; Str "West"]; [Str "25003"; Str "West"];
           [Str "25003"; Str "East"]; [Str "25013"; NaN]])
       "Chapter")
  = 2%nat.
Proof.
  destruct (covered_keys_and_geometries
              (mkGDF ["FIPS"] [([Str "25013"], tt); ([Str "25003"], tt)])
              (mkDF ["FIPS"; "Chapter"]
                 [[Str "25013"; Str "West"]; [Str "25003"; Str "West"];
                  [Str "25003"; Str "East"]; [Str "25013"; NaN]])
              "Chapter" (Str "West")) as (_ & _ & Hlen).
  rewrite Hlen.
  - vm_compute. reflexivity.
  - apply Forall_forall. apply (bool_decide_unpack _). by vm_compute.
Defined.

(** X27: without usable county boundaries a level made from the counties
    is written as data only. When there are no county boundaries, or the
    boundary table has a column named like the level's key ([merge] then
    renames both and the test for the key fails), or no row of the table
    has the [FIPS] of a boundary, the collection has one feature per
    record of the level, each with a [null] geometry. *)
Theorem derived_level_without_geometry {G : Type} (union : list G → G)
    (l : Levels.level) (counties_gdf : option (GeoDataFrame G))
    (df agg : DataFrame) :
  Levels.level_agg l df = ok agg →
  "FIPS" ∈ columns df →
  match counties_gdf with
  | None => True
  | Some cg =>
      "FIPS" ∈ gcolumns cg
      ∧ (Levels.level_key l ∈ gcolumns cg
         ∨ ∀ r, r ∈ rows df →
                at_ (columns df) r "FIPS" ∉ DissolveNotions.boundary_fips cg)
  end →
  Dissolve.derived_geojson union counties_gdf df agg (Levels.level_key l)
  = ok (data_only_collection agg).
Proof.
  intros Hagg Hfips Hc. destruct counties_gdf as [cg|]; [|done].
  destruct Hc as [Hg Hc].
  pose proof (groupby_agg_ok _ _ _ _ Hagg) as (Hk & _).
  unfold Dissolve.derived_geojson, Dissolve.derive_by_dissolve.
  rewrite (filter_none (λ c, c ∉ columns df))
    by (repeat constructor; naive_solver).
  rewrite (bool_decide_true _ Hg).
  destruct Hc as [Hin|Hno].
  - rewrite (bool_decide_false (Levels.level_key l ∉ gcolumns cg)) by naive_solver.
    done.
  - rewrite (bool_decide_false (_ ≠ [])); [by rewrite andb_false_r|].
    intros Hne. apply Hne.
    destruct (Dissolve.counties_with_key cg df (Levels.level_key l))
      as [|[b [f k]] cw] eqn:Hcw; [done|].
    assert ((b, (f, k)) ∈ Dissolve.counties_with_key cg df (Levels.level_key l))
      as Hin by (rewrite Hcw; left).
    apply counties_with_key_elem in Hin as (Hb & Hf & r & Hr & Hrf & _).
    destruct (Hno r Hr). rewrite Hrf, <- Hf.
    apply list_elem_of_fmap. by exists b.
Qed.

Lemma derived_level_without_geometry_witness :
  Dissolve.derived_geojson (λ gs, foldr Nat.add 0%nat gs)
    (Some (mkGDF ["Region"; "FIPS"] [([Str "R1"; Str "25013"], 1%nat)]))
    (mkDF ["FIPS"; "Region"; "Division"; "RCODE"; "DCODE"; "2023"]
       [[Str "25013"; Str "Northeast"; Str "Atlantic"; NaN; NaN; Int 1]])
    (mkDF ["Region"; "Division"; "RCODE"; "DCODE"; "2023"]
       [[Str "Northeast"; Str "Atlantic"; NaN; NaN; Int 1]])
    "Region"
  = ok (data_only_collection
          (mkDF ["Region"; "Division"; "RCODE"; "DCODE"; "2023"]
             [[Str "Northeast"; Str "Atlantic"; NaN; NaN; Int 1]])).
Proof.
  apply (derived_level_without_geometry (λ gs, foldr Nat.add 0%nat gs) Levels.Region
           (Some (mkGDF ["Region"; "FIPS"] [([Str "R1"; Str "25013"], 1%nat)]))
           (mkDF ["FIPS"; "Region"; "Division"; "RCODE"; "DCODE"; "2023"]
              [[Str "25013"; Str "Northeast"; Str "Atlantic"; NaN; NaN; Int 1]])).
  - vm_compute. reflexivity.
  - apply (bool_decide_unpack _). by vm_compute.
  - split; [apply (bool_decide_unpack _); by vm_compute|].
    left. apply (bool_decide_unpack _). by vm_compute.
Defined.

(* ===================================================================== *)
(** ** The chapter boundary file *)
(* ===================================================================== *)

(** X28: the chapter boundary file comes first. When the file has a name
    column, its compared names are all different and at least one chapter
    record matches a boundary, the chapter collection is the same whatever
    the county boundaries and the table: it has one feature, with
    geometry, for every chapter record whose compared name is that of a
    boundary, and none for the other records. No feature carries a
    property under a label of the boundary file: a file that names its
    chapters in a column labelled [Chapter] yields features without the
    [Chapter] property. *)
Theorem chapter_file_takes_precedence {G : Type} (union : list G → G)
    (chapters_gdf : GeoDataFrame G) (name_col : string) (chapter_agg : DataFrame) :
  Levels.chapter_name_col chapters_gdf = Some name_col →
  NoDup (DissolveNotions.boundary_names chapters_gdf name_col) →
  Levels.chapter_merged chapters_gdf name_col chapter_agg ≠ [] →
  ∃ fc,
    (∀ counties_gdf df,
       Dissolve.chapter_geojson union (Some chapters_gdf) counties_gdf df chapter_agg
       = ok fc)
    ∧ name_col ∈ gcolumns chapters_gdf
    ∧ Forall (λ f, is_Some (geometry f)
                   ∧ ∀ c, c ∈ gcolumns chapters_gdf → properties f !! c = None)
        (features fc)
    ∧ List.length (features fc)
      = List.length
          (filter (λ r, Levels.chapter_match (at_ (columns chapter_agg) r "Chapter")
                        ∈ DissolveNotions.boundary_names chapters_gdf name_col)
                  (rows chapter_agg)).
Proof.
  intros Hnc Hnd Hm.
  assert (grows chapters_gdf ≠ []) as Hrows.
  { intros Hnil. apply Hm. unfold Levels.chapter_merged. by rewrite Hnil. }
  eexists. split_and!.
  - intros counties_gdf df. unfold Dissolve.chapter_geojson.
    rewrite (bool_decide_true _ Hrows), Hnc. cbn [fmap option_fmap option_map].
    destruct (Levels.chapter_merged chapters_gdf name_col chapter_agg)
      as [|br merged] eqn:Hmerged; [done|]. rewrite <- Hmerged. reflexivity.
  - unfold Levels.chapter_name_col in Hnc.
    apply head_Some_elem_of, list_elem_of_filter in Hnc as [_ ?]. done.
  - cbn [features]. apply Forall_fmap, Forall_forall. intros br _. simpl.
    split; [by eexists|]. intros c Hc.
    unfold Dissolve.chapter_file_properties.
    apply not_elem_of_list_to_map_1. rewrite fmap_reverse, elem_of_reverse.
    intros ((c' & v) & Hcv & Hin)%list_elem_of_fmap. simpl in Hcv. subst c'.
    apply list_elem_of_filter in Hin as [[Hn _] _]. by apply Hn.
  - cbn [features]. rewrite length_fmap. unfold Levels.chapter_merged.
    by rewrite (inner_join_length _ _ _ _ Hnd).
Qed.

Lemma chapter_file_takes_precedence_witness :
  ∃ fc,
    Dissolve.chapter_geojson (λ gs, foldr Nat.add 0%nat gs)
      (Some (mkGDF ["Chapter"] [([Str " west "], 7%nat)]))
      None (mkDF [] [])
      (mkDF ["Chapter"; "2023"] [[Str "East"; Int 4]; [Str "West"; Int 3]])
    = ok fc
    ∧ (λ f, (geometry f, properties f !! "Chapter", properties f !! "2023"))
      <$> features fc
      = [(Some 7%nat, None, Some (Int 3))].
Proof.
  destruct (chapter_file_takes_precedence (λ gs, foldr Nat.add 0%nat gs)
              (mkGDF ["Chapter"] [([Str " west "], 7%nat)]) "Chapter"
              (mkDF ["Chapter"; "2023"] [[Str "East"; Int 4]; [Str "West"; Int 3]]))
    as (fc & Hfc & _).
  - vm_compute. reflexivity.
  - apply (bool_decide_unpack _). by vm_compute.
  - vm_compute. discriminate.
  - exists fc. split; [apply Hfc|].
    specialize (Hfc None (mkDF [] [])). vm_compute in Hfc.
    injection Hfc as <-. vm_compute. reflexivity.
Defined.

Section ChapterFallback.
Import Vocabulary.

Lemma dropna_to_dict_snoc cols r c v :
  List.length r = List.length cols → notna v = true →
  dropna_to_dict (cols ++ [c]) (r ++ [v]) = <[c := v]> (dropna_to_dict cols r).
Proof.
  intros Hlen Hv. unfold dropna_to_dict.
  rewrite zip_with_app by done. cbn [zip_with].
  rewrite filter_app, filter_cons, decide_True by done.
  rewrite filter_nil, reverse_app. done.
Qed.

End ChapterFallback.

(** X29: the helper column stays. When the chapter boundary file has a
    name column but no chapter record matches a boundary, the
    [chapter_match] column added to the chapter records for the
    comparison is still there when the collection is written: with no
    county boundaries either, every feature is the data-only feature of
    its record with one more property, [chapter_match], holding the
    record's chapter name stripped and in capitals. *)
Theorem chapter_match_stays_after_failed_join {G : Type} (union : list G → G)
    (chapters_gdf : GeoDataFrame G) (name_col : string)
    (df chapter_agg : DataFrame) :
  Levels.chapter_name_col chapters_gdf = Some name_col →
  grows chapters_gdf ≠ [] →
  Levels.chapter_merged chapters_gdf name_col chapter_agg = [] →
  Vocabulary.well_formed chapter_agg →
  "chapter_match" ∉ columns chapter_agg →
  ∃ fc,
    Dissolve.chapter_geojson union (Some chapters_gdf) None df chapter_agg = ok fc
    ∧ Forall2 (λ r f,
         f = mkFeature
               (<["chapter_match" :=
                    Str (Levels.chapter_match (at_ (columns chapter_agg) r "Chapter"))]>
                  (dropna_to_dict (columns chapter_agg) r))
               None)
        (rows chapter_agg) (features fc).
Proof.
  intros Hnc Hrows Hm Hwf Hfresh. eexists. split.
  - unfold Dissolve.chapter_geojson.
    rewrite (bool_decide_true _ Hrows), Hnc. cbn [fmap option_fmap option_map].
    rewrite Hm. reflexivity.
  - unfold data_only_collection, Dissolve.with_chapter_match, Dissolve.df_assign.
    rewrite (index_of_None _ _ Hfresh). cbn [features rows columns].
    apply Forall2_fmap_r, Forall2_fmap_r, Forall_Forall2_diag.
    eapply Forall_impl; [exact Hwf|]. intros r Hr. simpl.
    by rewrite (dropna_to_dict_snoc _ _ _ _ Hr).
Qed.

Lemma chapter_match_stays_after_failed_join_witness :
  ∃ fc,
    Dissolve.chapter_geojson (λ gs, foldr Nat.add 0%nat gs)
      (Some (mkGDF ["NAME"] [([Str "Northern"], 7%nat)]))
      None (mkDF [] [])
      (mkDF ["Chapter"; "2023"] [[Str " West"; Int 3]])
    = ok fc
    ∧ (λ f, (geometry f, properties f !! "chapter_match")) <$> features fc
      = [(None, Some (Str "WEST"))].
Proof.
  destruct (chapter_match_stays_after_failed_join (λ gs, foldr Nat.add 0%nat gs)
              (mkGDF ["NAME"] [([Str "Northern"], 7%nat)]) "NAME"
              (mkDF [] [])
              (mkDF ["Chapter"; "2023"] [[Str " West"; Int 3]]))
    as (fc & Hfc & _).
  - vm_compute. reflexivity.
  - vm_compute. discriminate.
  - vm_compute. reflexivity.
  - apply (bool_decide_unpack _). by vm_compute.
  - apply (bool_decide_unpack _). by vm_compute.
  - exists fc. split; [exact Hfc|].
    vm_compute in Hfc. injection Hfc as <-. vm_compute. reflexivity.
Defined.

(* ===================================================================== *)
(** ** The upload filter *)
(* ===================================================================== *)

Section UploadFacts.

Lemma after_last_dot_app base ext :
  App.after_last_dot ext = None →
  App.after_last_dot (base +:+ String "." ext) = Some ext.
Proof.
  intros Hext. induction base as [|c base IH].
  - change ("" +:+ String "." ext) with (String "." ext).
    cbn [App.after_last_dot]. rewrite Hext. by rewrite bool_decide_true.
  - change (String c base +:+ String "." ext)
      with (String c (base +:+ String "." ext)).
    cbn [App.after_last_dot]. by rewrite IH.
Qed.

Lemma after_last_dot_Some s ext :
  App.after_last_dot s = Some ext →
  ∃ base, s = base +:+ String "." ext.
Proof.
  revert ext. induction s as [|c s IH]; intros ext; [done|].
  cbn [App.after_last_dot].
  destruct (App.after_last_dot s) as [e|] eqn:Hs.
  - intros [= <-]. destruct (IH e eq_refl) as (base & ->).
    by exists (String c base).
  - case_bool_decide as Hc; [|done]. intros [= <-]. subst c. by exists "".
Qed.

Lemma lower_csv_no_dot ext :
  Py.lower ext = "csv" → App.after_last_dot ext = None.
Proof.
  destruct ext as [|a [|b [|c [|d ext]]]]; try done.
  unfold Py.lower. cbn [Py.map_chars]. intros [= Ha Hb Hc].
  cbn [App.after_last_dot].
  rewrite !bool_decide_false; [done|..]; intros ->; by vm_compute in Ha, Hb, Hc.
Qed.

End UploadFacts.

(** X30: the upload filter accepts exactly the file names that end in a
    dot followed by [csv] in any mix of letter cases; what stands before
    that dot, if anything, does not matter. *)
Theorem allowed_file_iff (filename : string) :
  App.allowed_file filename = true ↔
  ∃ base ext, filename = base +:+ "." +:+ ext ∧ Py.lower ext = "csv".
Proof.
  unfold App.allowed_file. split.
  - destruct (App.after_last_dot filename) as [ext|] eqn:Hext; [|done].
    intros Hcsv%bool_decide_eq_true.
    apply after_last_dot_Some in Hext as (base & ->). by exists base, ext.
  - intros (base & ext & -> & Hcsv).
    change ("." +:+ ext) with (String "." ext).
    rewrite (after_last_dot_app _ _ (lower_csv_no_dot _ Hcsv)).
    by apply bool_decide_eq_true.
Qed.
